(** * FourCastNetv2 adapter: a shallow embedding of [model.py]

    The development follows [src/ai_models_fourcastnetv2/model.py]:
    the class constants (channel orderings), [load_statistics],
    [load_model], [normalise] and [run].

    Conventions.
    - Array entries are exact rationals ([Qc]) extended with one
      non-finite value, which stands for the [inf]/[nan] results that
      numpy produces instead of raising (division by zero).  Rounding
      to float32 is a parameter of the development ([round_f32]).
    - A grid plane (lat x lon) is a list of rows; a tensor is the list
      of its channel planes, the batch axis of the network (length 1)
      being left implicit.
    - The statistics arrays have shape (1, C, 1, 1); they are kept as
      the list of their C channel entries.
    - Python exceptions are values of [PyError]; effectful code runs in
      a state-and-error monad over a [World] that records the attributes
      of [self] and the calls made to the outside (file loads, forward
      passes, [self.write], the stepper, the NetCDF writer). *)

From Stdlib Require Import String Ascii.
From Stdlib Require Import List Bool Arith ZArith Lia Permutation.
From Stdlib Require Import DecimalString.
From Stdlib Require Import QArith Qcanon.
Import ListNotations.

Local Open Scope string_scope.
Local Open Scope list_scope.
Local Open Scope nat_scope.

(* ================================================================== *)
(** * Python exceptions and results *)

Inductive PyError : Type :=
| KeyError
| ValueError
| IndexError
| AttributeError
| OSError
| RuntimeError
| ZeroDivisionError.

Inductive Result (A : Type) : Type :=
| Ok (a : A)
| Raise (e : PyError).

Arguments Ok {A} a.
Arguments Raise {A} e.

Definition rbind {A B} (r : Result A) (k : A -> Result B) : Result B :=
  match r with
  | Ok a => k a
  | Raise e => Raise e
  end.

Notation "'let?' x ':=' r 'in' k" := (rbind r (fun x => k))
  (at level 10, x name, r at level 100, k at level 200).

Fixpoint rmap {A B} (f : A -> Result B) (l : list A) : Result (list B) :=
  match l with
  | [] => Ok []
  | a :: l' =>
      let? b := f a in
      let? bs := rmap f l' in
      Ok (b :: bs)
  end.

Definition is_ok {A} (r : Result A) : bool :=
  match r with Ok _ => true | Raise _ => false end.

(* ================================================================== *)
(** * Scalars: exact arithmetic with one non-finite value *)

Inductive scalar : Type :=
| Fin (q : Qc)
| NonFinite.

Definition finite (x : scalar) : Prop :=
  match x with Fin _ => True | NonFinite => False end.

Definition is_zero (x : scalar) : Prop := x = Fin 0%Qc.

Definition s_add (a b : scalar) : scalar :=
  match a, b with
  | Fin x, Fin y => Fin (x + y)%Qc
  | _, _ => NonFinite
  end.

Definition s_sub (a b : scalar) : scalar :=
  match a, b with
  | Fin x, Fin y => Fin (x - y)%Qc
  | _, _ => NonFinite
  end.

Definition s_mul (a b : scalar) : scalar :=
  match a, b with
  | Fin x, Fin y => Fin (x * y)%Qc
  | _, _ => NonFinite
  end.

(** numpy does not raise on a zero divisor: the quotient is [inf] or
    [nan], here [NonFinite]. *)
Definition s_div (a b : scalar) : scalar :=
  match a, b with
  | Fin x, Fin y => if Qc_eq_dec y 0%Qc then NonFinite else Fin (x / y)%Qc
  | _, _ => NonFinite
  end.

(* ================================================================== *)
(** * Arrays *)

Definition plane : Type := list (list scalar).
Definition tensor : Type := list plane.

Definition plane_map (f : scalar -> scalar) (p : plane) : plane :=
  map (map f) p.

(** numpy broadcasting along the channel axis: equal lengths pair up,
    an axis of length 1 is stretched, anything else is a [ValueError]. *)
Definition broadcast {A B} (xs : list A) (ys : list B) : Result (list (A * B)) :=
  if Nat.eqb (length xs) (length ys) then Ok (combine xs ys)
  else match xs, ys with
       | [x], _ => Ok (map (fun y => (x, y)) ys)
       | _, [y] => Ok (map (fun x => (x, y)) xs)
       | _, _ => Raise ValueError
       end.

(** [data op stat] for [data] of shape (C, lat, lon) and [stat] of shape
    (1, C, 1, 1): the channel entry of [stat] is stretched over the
    plane. *)
Definition np_binop (op : scalar -> scalar -> scalar)
    (data : tensor) (stat : list scalar) : Result tensor :=
  let? pairs := broadcast data stat in
  Ok (map (fun ps => plane_map (fun x => op x (snd ps)) (fst ps)) pairs).

Definition plane_finite (p : plane) : Prop := Forall (Forall finite) p.
Definition tensor_finite (t : tensor) : Prop := Forall plane_finite t.

(** A plane with at least one cell. *)
Definition plane_nonempty (p : plane) : Prop := exists r, In r p /\ r <> [].

(* ================================================================== *)
(** * Strings the way Python slices them *)

(** [s[n:]] *)
Fixpoint str_drop (n : nat) (s : string) : string :=
  match n, s with
  | O, _ => s
  | S n', EmptyString => EmptyString
  | S n', String _ s' => str_drop n' s'
  end.

Arguments str_drop : simpl never.

(** [s[0]]: an [IndexError] on the empty string. *)
Definition str_head (s : string) : Result string :=
  match s with
  | EmptyString => Raise IndexError
  | String c _ => Ok (String c EmptyString)
  end.

(** [os.path.join(a, b)] of posixpath, for two components. *)
Definition str_ends_with_sep (s : string) : bool :=
  match get (String.length s - 1) s with
  | Some c => Ascii.eqb c "/"%char
  | None => false
  end.

Definition path_join (a b : string) : string :=
  match b with
  | String c _ =>
      if Ascii.eqb c "/"%char then b
      else if (String.eqb a EmptyString || str_ends_with_sep a)%bool then String.append a b
      else String.append a (String.append "/" b)
  | EmptyString =>
      if (String.eqb a EmptyString || str_ends_with_sep a)%bool then String.append a b
      else String.append a (String.append "/" b)
  end.

(* ================================================================== *)
(** * Python dictionaries

    Insertion-ordered, with unique keys: assigning to a key that is
    present replaces its value in place, a new key goes to the end. *)

Definition pydict (V : Type) : Type := list (string * V).

Fixpoint dict_get {V} (d : pydict V) (k : string) : option V :=
  match d with
  | [] => None
  | (k', v) :: d' => if String.eqb k' k then Some v else dict_get d' k
  end.

Fixpoint dict_set {V} (d : pydict V) (k : string) (v : V) : pydict V :=
  match d with
  | [] => [(k, v)]
  | (k', v') :: d' =>
      if String.eqb k' k then (k', v) :: d' else (k', v') :: dict_set d' k v
  end.

Definition dict_keys {V} (d : pydict V) : list string := map fst d.

(** [d[k]] *)
Definition dict_item {V} (d : pydict V) (k : string) : Result V :=
  match dict_get d k with
  | Some v => Ok v
  | None => Raise KeyError
  end.

(** [dict(pairs)]: the pairs are assigned one after the other. *)
Definition dict_of_pairs {V} (l : list (string * V)) : pydict V :=
  fold_left (fun d kv => dict_set d (fst kv) (snd kv)) l [].

Definition str_mem (k : string) (l : list string) : bool :=
  existsb (String.eqb k) l.

(* ================================================================== *)
(** * Class constants of [FourCastNetv2] *)

Definition param_sfc : list string :=
  ["10u"; "10v"; "2t"; "sp"; "msl"; "tcwv"; "100u"; "100v"].

Definition param_sfc_xr : list string :=
  ["u10"; "v10"; "u100"; "v100"; "t2m"; "sp"; "msl"; "tcwv"].

Definition param_level_pl : list string * list Z :=
  (["u"; "v"; "z"; "t"; "r"],
   [1000; 925; 850; 700; 600; 500; 400; 300; 250; 200; 150; 100; 50]%Z).

Definition ordering_cml : list string :=
  ["10u"; "10v"; "100u"; "100v"; "2t"; "sp"; "msl"; "tcwv";
   "u50"; "u100"; "u150"; "u200"; "u250"; "u300"; "u400"; "u500";
   "u600"; "u700"; "u850"; "u925"; "u1000";
   "v50"; "v100"; "v150"; "v200"; "v250"; "v300"; "v400"; "v500";
   "v600"; "v700"; "v850"; "v925"; "v1000";
   "z50"; "z100"; "z150"; "z200"; "z250"; "z300"; "z400"; "z500";
   "z600"; "z700"; "z850"; "z925"; "z1000";
   "t50"; "t100"; "t150"; "t200"; "t250"; "t300"; "t400"; "t500";
   "t600"; "t700"; "t850"; "t925"; "t1000";
   "r50"; "r100"; "r150"; "r200"; "r250"; "r300"; "r400"; "r500";
   "r600"; "r700"; "r850"; "r925"; "r1000"].

Definition ordering_xr : list string :=
  ["u10"; "v10"; "u100"; "v100"; "t2m"; "sp"; "msl"; "tcwv";
   "u50"; "u100"; "u150"; "u200"; "u250"; "u300"; "u400"; "u500";
   "u600"; "u700"; "u850"; "u925"; "u1000";
   "v50"; "v100"; "v150"; "v200"; "v250"; "v300"; "v400"; "v500";
   "v600"; "v700"; "v850"; "v925"; "v1000";
   "z50"; "z100"; "z150"; "z200"; "z250"; "z300"; "z400"; "z500";
   "z600"; "z700"; "z850"; "z925"; "z1000";
   "t50"; "t100"; "t150"; "t200"; "t250"; "t300"; "t400"; "t500";
   "t600"; "t700"; "t850"; "t925"; "t1000";
   "r50"; "r100"; "r150"; "r200"; "r250"; "r300"; "r400"; "r500";
   "r600"; "r700"; "r850"; "r925"; "r1000"].

(* ================================================================== *)
(** * Input data *)

(** A field of the host framework's field list (the non-list input):
    GRIB metadata [param] and [levelist] (absent on surface fields) and
    the grid values. *)
Record Field : Type := mkField {
  f_param : string;
  f_levelist : option Z;
  f_values : plane
}.

(** Variables of a labelled dataset: dimensions (time, lat, lon) or
    (time, level, lat, lon). *)
Inductive XrVar : Type :=
| Var3 (d : list plane)
| Var4 (d : list (list plane)).

(** A labelled dataset (the elements of the list input).  Times are in
    hours; [ds_level] is the [isobaricInhPa] coordinate and is [None]
    when the dataset has no such dimension. *)
Record XrDataset : Type := mkDataset {
  ds_time : list Z;
  ds_valid_time : list Z;
  ds_latitude : list Qc;
  ds_longitude : list Qc;
  ds_level : option (list Z);
  ds_vars : pydict XrVar
}.

Inductive AllFields : Type :=
| FieldList (fs : list Field)
| XrList (l : list XrDataset).

(** [isinstance(all_fields, list)] *)
Definition is_list (a : AllFields) : bool :=
  match a with XrList _ => true | FieldList _ => false end.

(** The dataset assembled at the end of the list path. *)
Record OutDataset : Type := mkOut {
  out_vars : pydict (list string * XrVar);
  out_lon : list Qc;
  out_lat : list Qc;
  out_time : list Z;
  out_level_name : string;
  out_level : list Z
}.

(** Statistics arrays as loaded from the [.npy] files. *)
Inductive Dtype : Type := Float32 | Float64.

Record StatArray : Type := mkStat {
  dtype : Dtype;
  entries : list scalar
}.

(* ================================================================== *)
(** * The model object and its environment *)

(** Attributes of [self].  The first four come from the host framework
    ([Model.__init__] and its properties); [means] and [stds] do not
    exist before [load_statistics] has run. *)
Record Self : Type := mkSelf {
  assets : string;
  device : string;
  lead_time : Z;
  all_fields : AllFields;
  n_lat : Z;
  n_lon : Z;
  hour_steps : Z;
  backbone_channels : nat;
  checkpoint_path : string;
  means : option StatArray;
  stds : option StatArray
}.

(** [FourCastNetv2.__init__] *)
Definition init (assets_ device_ : string) (lead_time_ : Z)
    (all_fields_ : AllFields) : Self :=
  {| assets := assets_;
     device := device_;
     lead_time := lead_time_;
     all_fields := all_fields_;
     n_lat := 721;
     n_lon := 1440;
     hour_steps := 6;
     backbone_channels := length ordering_cml;
     checkpoint_path := path_join assets_ "weights.tar";
     means := None;
     stds := None |}.

Definition set_means (a : StatArray) (s : Self) : Self :=
  {| assets := assets s; device := device s; lead_time := lead_time s;
     all_fields := all_fields s; n_lat := n_lat s; n_lon := n_lon s;
     hour_steps := hour_steps s; backbone_channels := backbone_channels s;
     checkpoint_path := checkpoint_path s;
     means := Some a; stds := stds s |}.

Definition set_stds (a : StatArray) (s : Self) : Self :=
  {| assets := assets s; device := device s; lead_time := lead_time s;
     all_fields := all_fields s; n_lat := n_lat s; n_lon := n_lon s;
     hour_steps := hour_steps s; backbone_channels := backbone_channels s;
     checkpoint_path := checkpoint_path s;
     means := means s; stds := Some a |}.

(** Reading an attribute that may not have been set. *)
Definition attr {A} (a : option A) : Result A :=
  match a with
  | Some x => Ok x
  | None => Raise AttributeError
  end.

(** [FourCastNetv2.normalise]: "Normalise data using pre-saved global
    statistics". *)
Definition normalise (s : Self) (data : tensor) (reverse : bool) : Result tensor :=
  if reverse then
    let? sd := attr (stds s) in
    let? scaled := np_binop s_mul data (entries sd) in
    let? mn := attr (means s) in
    np_binop s_add scaled (entries mn)
  else
    let? mn := attr (means s) in
    let? centred := np_binop s_sub data (entries mn) in
    let? sd := attr (stds s) in
    np_binop s_div centred (entries sd).

(* ================================================================== *)
(** * The module function [model] *)

(** Every published version name stands for the one class; the keyword
    arguments go to its constructor. *)
Module Factory.

Definition models : pydict (string -> string -> Z -> AllFields -> Self) :=
  [("0", init); ("small", init); ("release", init); ("latest", init)].

(** [models[model_version]] called with the keyword arguments. *)
Definition model (model_version : string) (assets_ device_ : string)
    (lead_time_ : Z) (all_fields_ : AllFields) : Result Self :=
  let? ctor := dict_item models model_version in
  Ok (ctor assets_ device_ lead_time_ all_fields_).

End Factory.

Section Adapter.

(** ** What the adapter is given

    The network is the external module [fourcastnetv2]: a type of
    network objects, the freshly constructed one, strict loading of a
    weight dictionary (the object after the call, and whether the call
    raised: a load that raises may already have changed the object) and
    the forward pass of the evaluated network. *)
Variable Weight : Type.
Variable Net : Type.
Variable new_net : Net.
Variable load_state_dict : Net -> pydict Weight -> Net * Result unit.
Variable forward : Net -> tensor -> tensor.

(** Rounding of an array entry to float32. *)
Variable round_f32 : scalar -> scalar.

(** The files under the assets directory: [.npy] arrays and serialized
    checkpoints (a dictionary of state dictionaries). *)
Variable npy_files : string -> option StatArray.
Variable checkpoint_files : string -> option (pydict (pydict Weight)).

(** [LOG.isEnabledFor(logging.DEBUG)], and the attribute [ordering],
    which this class does not define: it is there only when the host's
    base class provides it. *)
Variable debug_enabled : bool.
Variable inherited_ordering : option (list string).

(** The folder read from the configuration file of the list path, and
    the text of a time stamp at hour resolution. *)
Variable fourcastnet_folder : Result string.
Variable fmt_hour : Z -> string.

(** ** Calls to the outside *)

Inductive Event : Type :=
| EvNpLoad (path : string)
| EvTorchLoad (path : string)
| EvLoadStateDict (d : pydict Weight)
| EvForward (x : tensor)
| EvWrite (data : plane) (template : Field + XrVar) (step : Z)
| EvStepper (i : Z) (step : Z)
| EvToNetcdf (name : string) (ds : OutDataset).

(** The state: the attributes of [self] and the calls made so far,
    latest first. *)
Record World : Type := mkWorld {
  self : Self;
  events : list Event
}.

Definition trace (w : World) : list Event := rev (events w).

Definition M (A : Type) : Type := World -> Result A * World.

Definition ret {A} (a : A) : M A := fun w => (Ok a, w).

Definition bind {A B} (m : M A) (k : A -> M B) : M B :=
  fun w =>
    match m w with
    | (Ok a, w') => k a w'
    | (Raise e, w') => (Raise e, w')
    end.

Definition lift {A} (r : Result A) : M A := fun w => (r, w).

Definition emit (e : Event) : M unit :=
  fun w => (Ok tt, {| self := self w; events := e :: events w |}).

Definition get_self : M Self := fun w => (Ok (self w), w).

Definition modify_self (f : Self -> Self) : M unit :=
  fun w => (Ok tt, {| self := f (self w); events := events w |}).

Notation "x <- m ;; k" := (bind m (fun x => k))
  (at level 61, m at next level, right associativity).
Notation "m ;;; k" := (bind m (fun _ => k))
  (at level 61, right associativity).

Fixpoint for_each {A} (l : list A) (body : A -> M unit) : M unit :=
  match l with
  | [] => ret tt
  | a :: l' => body a ;;; for_each l' body
  end.

(** [np.load(path)] *)
Definition np_load (path : string) : M StatArray :=
  emit (EvNpLoad path) ;;;
  match npy_files path with
  | Some a => ret a
  | None => lift (Raise OSError)
  end.

(** [torch.load(path, map_location=self.device)] *)
Definition torch_load (path : string) : M (pydict (pydict Weight)) :=
  emit (EvTorchLoad path) ;;;
  match checkpoint_files path with
  | Some c => ret c
  | None => lift (Raise OSError)
  end.

(** [model.load_state_dict(d)]: the object as the call leaves it, and
    the outcome of the call. *)
Definition net_load (model : Net) (d : pydict Weight) : M (Net * Result unit) :=
  emit (EvLoadStateDict d) ;;;
  ret (load_state_dict model d).

(** ** [load_statistics] *)

(** [a[:, : n, ...]] *)
Definition slice_channels (n : nat) (a : StatArray) : StatArray :=
  {| dtype := dtype a; entries := firstn n (entries a) |}.

(** [a.astype(np.float32)] *)
Definition astype_float32 (a : StatArray) : StatArray :=
  {| dtype := Float32; entries := map round_f32 (entries a) |}.

Definition get_means : M StatArray := s <- get_self ;; lift (attr (means s)).
Definition get_stds : M StatArray := s <- get_self ;; lift (attr (stds s)).

Definition load_statistics : M unit :=
  s <- get_self ;;
  let path := path_join (assets s) "global_means.npy" in
  a <- np_load path ;;
  modify_self (set_means a) ;;;
  a <- get_means ;;
  s <- get_self ;;
  modify_self (set_means (slice_channels (backbone_channels s) a)) ;;;
  a <- get_means ;;
  modify_self (set_means (astype_float32 a)) ;;;
  s <- get_self ;;
  let path := path_join (assets s) "global_stds.npy" in
  a <- np_load path ;;
  modify_self (set_stds a) ;;;
  a <- get_stds ;;
  s <- get_self ;;
  modify_self (set_stds (slice_channels (backbone_channels s) a)) ;;;
  a <- get_stds ;;
  modify_self (set_stds (astype_float32 a)).

(** ** [load_model] *)

Definition drop_vars : list string := ["module.norm.weight"; "module.norm.bias"].

(** [{k: v for k, v in weights.items() if k not in drop_vars}] *)
Definition drop_filter (weights : pydict Weight) : pydict Weight :=
  dict_of_pairs (filter (fun kv => negb (str_mem (fst kv) drop_vars)) weights).

(** The loop of the [try] block: strip seven characters from every key
    and skip the key that becomes "ged". *)
Definition strip_step (d : pydict Weight) (kv : string * Weight) : pydict Weight :=
  let name := str_drop 7 (fst kv) in
  if negb (String.eqb name "ged") then dict_set d name (snd kv) else d.

Definition strip_prefix (model_state : pydict Weight) : pydict Weight :=
  fold_left strip_step model_state [].

(** [zero_grad], [eval] and [to(device)] do not touch the weights; the
    network they leave is the one [forward] runs. *)
Definition load_model (checkpoint_file : string) : M Net :=
  let model := new_net in
  checkpoint <- torch_load checkpoint_file ;;
  weights <- lift (dict_item checkpoint "model_state") ;;
  let weights := drop_filter weights in
  (* try: *)
  attempt <-
    match dict_item checkpoint "model_state" with
    | Ok model_state =>
        let new_state_dict := strip_prefix model_state in
        net_load model new_state_dict
    | Raise e => ret (model, Raise e)
    end ;;
  match attempt with
  | (model, Ok _) => ret model
  | (model, Raise _) =>
      (* except Exception: *)
      model_state <- lift (dict_item checkpoint "model_state") ;;
      attempt <- net_load model model_state ;;
      match attempt with
      | (model, Ok _) => ret model
      | (_, Raise e) => lift (Raise e)
      end
  end.

(** ** Preparing the input tensor (first part of [run]) *)

Definition plane_shape (p : plane) : nat * nat :=
  (length p, match p with r :: _ => length r | [] => 0 end).

Definition same_shape (p q : plane) : bool :=
  (Nat.eqb (fst (plane_shape p)) (fst (plane_shape q))
   && Nat.eqb (snd (plane_shape p)) (snd (plane_shape q)))%bool.

(** Stacking planes into one array needs them all of one shape. *)
Definition np_stack (ps : list plane) : Result tensor :=
  match ps with
  | [] => Ok []
  | p0 :: _ => if forallb (same_shape p0) ps then Ok ps else Raise ValueError
  end.

(** *** The field-list input (host framework) *)

(** [str(n)] for an integer. *)
Definition z_str (z : Z) : string := NilZero.string_of_int (Z.to_int z).

(** The remapping ["{param}{levelist}"]: a missing [levelist] leaves
    the parameter name alone. *)
Definition param_level (f : Field) : string :=
  String.append (f_param f)
    (match f_levelist f with Some l => z_str l | None => EmptyString end).

Arguments param_level : simpl never.

(** [fields.sel(param_level=names, remapping=...)] *)
Definition fl_sel (names : list string) (fs : list Field) : list Field :=
  filter (fun f => str_mem (param_level f) names) fs.

Fixpoint index_of (k : string) (l : list string) : nat :=
  match l with
  | [] => 0
  | x :: l' => if String.eqb x k then 0 else S (index_of k l')
  end.

Fixpoint insert_by {A} (key : A -> nat) (a : A) (l : list A) : list A :=
  match l with
  | [] => [a]
  | b :: l' => if Nat.leb (key a) (key b) then a :: l else b :: insert_by key a l'
  end.

(** A stable sort by key. *)
Definition sort_by {A} (key : A -> nat) (l : list A) : list A :=
  fold_right (insert_by key) [] l.

(** [fields.order_by({"param_level": names}, remapping=...)]: by the
    position of the remapped name in [names], stable. *)
Definition fl_order_by (names : list string) (fs : list Field) : list Field :=
  sort_by (fun f => index_of (param_level f) names) fs.

(** [fields.to_numpy(dtype=np.float32)], for a selection of at least one
    field.  Of no field at all numpy makes a one-dimensional empty
    array, which is not one of these tensors: a statement below that
    reads the number of channels of the array of a selection takes a
    selection that is not empty. *)
Definition fl_to_numpy (fs : list Field) : Result tensor :=
  np_stack (map (fun f => plane_map round_f32 (f_values f)) fs).

(** *** The list input (labelled datasets) *)

Definition take {A} (d : A) (idx : list nat) (l : list A) : list A :=
  map (fun i => nth i l d) idx.

Definition var_map (f : plane -> plane) (v : XrVar) : XrVar :=
  match v with
  | Var3 d => Var3 (map f d)
  | Var4 d => Var4 (map (map f) d)
  end.

Definition with_vars (ds : XrDataset) (vs : pydict XrVar) : XrDataset :=
  {| ds_time := ds_time ds; ds_valid_time := ds_valid_time ds;
     ds_latitude := ds_latitude ds; ds_longitude := ds_longitude ds;
     ds_level := ds_level ds; ds_vars := vs |}.

(** [ds[names]]: the sub-dataset of the named variables. *)
Definition ds_select (names : list string) (ds : XrDataset) : Result XrDataset :=
  let? vs := rmap (fun n => let? v := dict_item (ds_vars ds) n in Ok (n, v)) names in
  Ok (with_vars ds (dict_of_pairs vs)).

Definition Qc_leb (a b : Qc) : bool := Qle_bool a b.

Fixpoint insert_lat (x : Qc * nat) (l : list (Qc * nat)) : list (Qc * nat) :=
  match l with
  | [] => [x]
  | y :: l' => if Qc_leb (fst x) (fst y) then x :: l else y :: insert_lat x l'
  end.

(** Indices that sort the latitudes in ascending order (stable). *)
Definition argsort (lats : list Qc) : list nat :=
  map snd (fold_right insert_lat [] (combine lats (seq 0 (length lats)))).

(** [ds.sortby('latitude', ascending=False)]: the ascending order,
    reversed, applied to the rows of every variable. *)
Definition sortby_latitude_desc (ds : XrDataset) : XrDataset :=
  let idx := rev (argsort (ds_latitude ds)) in
  {| ds_time := ds_time ds; ds_valid_time := ds_valid_time ds;
     ds_latitude := take 0%Qc idx (ds_latitude ds);
     ds_longitude := ds_longitude ds;
     ds_level := ds_level ds;
     ds_vars := map (fun nv => (fst nv, var_map (take [] idx) (snd nv))) (ds_vars ds) |}.

Fixpoint level_index (lev : Z) (coord : list Z) : Result nat :=
  match coord with
  | [] => Raise KeyError
  | c :: r => if Z.eqb c lev then Ok 0 else let? i := level_index lev r in Ok (S i)
  end.

(** [ds.sel(isobaricInhPa=levels)] for a list of levels. *)
Definition ds_sel_levels (levels : list Z) (ds : XrDataset) : Result XrDataset :=
  match ds_level ds with
  | None => Raise KeyError
  | Some coord =>
      let? idx := rmap (fun l => level_index l coord) levels in
      Ok {| ds_time := ds_time ds; ds_valid_time := ds_valid_time ds;
            ds_latitude := ds_latitude ds; ds_longitude := ds_longitude ds;
            ds_level := Some levels;
            ds_vars := map (fun nv =>
                         (fst nv,
                          match snd nv with
                          | Var4 d => Var4 (map (take [] idx) d)
                          | Var3 d => Var3 d
                          end)) (ds_vars ds) |}
  end.

(** A level given as text is read as a number before the lookup. *)
Definition level_label (s : string) : Result Z :=
  match NilZero.int_of_string s with
  | Some i => Ok (Z.of_int i)
  | None => Raise ValueError
  end.

(** [ds.sel(isobaricInhPa=label)] for one level: the level axis goes. *)
Definition ds_sel_level (label : string) (ds : XrDataset) : Result XrDataset :=
  match ds_level ds with
  | None => Raise KeyError
  | Some coord =>
      let? lev := level_label label in
      let? i := level_index lev coord in
      Ok {| ds_time := ds_time ds; ds_valid_time := ds_valid_time ds;
            ds_latitude := ds_latitude ds; ds_longitude := ds_longitude ds;
            ds_level := None;
            ds_vars := map (fun nv =>
                         (fst nv,
                          match snd nv with
                          | Var4 d => Var3 (map (fun planes => nth i planes []) d)
                          | Var3 d => Var3 d
                          end)) (ds_vars ds) |}
  end.

(** [np.concatenate(arrays)]: along the first axis, for arrays of three
    dimensions that agree on the other two. *)
Definition np_concatenate (arrays : list XrVar) : Result tensor :=
  match arrays with
  | [] => Raise ValueError
  | _ =>
      let? ds := rmap (fun v => match v with
                                | Var3 d => Ok d
                                | Var4 _ => Raise ValueError
                                end) arrays in
      np_stack (concat ds)
  end.

(** [l[i]] *)
Definition list_item {A} (l : list A) (i : nat) : Result A :=
  match nth_error l i with
  | Some a => Ok a
  | None => Raise IndexError
  end.

(** The local variable [all_fields] after the selection. *)
Inductive LocalFields : Type :=
| LFields (fs : list Field)
| LArrays (l : list XrVar).

(** Lines 267-291 of [run]: the fields in channel order and
    [all_fields_numpy]. *)
Definition prepare_input (s : Self) : Result (LocalFields * tensor) :=
  match all_fields s with
  | XrList l =>
      let? all_fields_sfc := list_item l 0 in
      let? all_fields_sfc := ds_select param_sfc_xr all_fields_sfc in
      let all_fields_sfc := sortby_latitude_desc all_fields_sfc in
      let? all_fields_pl := list_item l 1 in
      let '(params, levels) := param_level_pl in
      let? all_fields_pl := ds_sel_levels levels all_fields_pl in
      let? all_fields_pl := ds_select params all_fields_pl in
      let all_fields_pl := sortby_latitude_desc all_fields_pl in
      let? all_fields_pl_list :=
        rmap (fun p =>
                let? param := str_head p in
                let level := str_drop 1 p in
                let? sel := ds_sel_level level all_fields_pl in
                dict_item (ds_vars sel) param)
             (skipn 8 ordering_xr) in
      let? sfc := rmap (fun f => dict_item (ds_vars all_fields_sfc) f) param_sfc_xr in
      let all_fields := sfc ++ all_fields_pl_list in
      let? all_fields_numpy := np_concatenate all_fields in
      Ok (LArrays all_fields, all_fields_numpy)
  | FieldList fs =>
      let all_fields := fl_sel ordering_cml fs in
      let all_fields := fl_order_by ordering_cml all_fields in
      let? all_fields_numpy := fl_to_numpy all_fields in
      Ok (LFields all_fields, all_fields_numpy)
  end.

(** ** The inference loop of [run] *)

(** [a // b] *)
Definition floordiv (a b : Z) : Result Z :=
  if Z.eqb b 0 then Raise ZeroDivisionError else Ok (a / b)%Z.

(** [range(n)] *)
Definition range (n : Z) : list Z := map Z.of_nat (seq 0 (Z.to_nat n)).

(** [enumerate(l)] *)
Definition enumerate {A} (l : list A) : list (nat * A) :=
  combine (seq 0 (length l)) l.

Definition local_items (a : LocalFields) : list (Field + XrVar) :=
  match a with
  | LFields fs => map inl fs
  | LArrays l => map inr l
  end.

(** The variables the loop carries from one iteration to the next. *)
Record LoopVars : Type := mkLoop {
  input_iter : tensor;
  outputs : list tensor
}.

(** The statistics logged at debug level look at [output[:, j]] for
    every listed name. *)
Definition debug_channels (names : list string) (output : tensor) : Result unit :=
  if Nat.leb (length names) (length output) then Ok tt else Raise IndexError.

Definition loop_body (model : Net) (all_fields_l : LocalFields)
    (i : Z) (v : LoopVars) : M LoopVars :=
  emit (EvForward (input_iter v)) ;;;
  let output := forward model (input_iter v) in
  let input_iter' := output in
  (if (Z.eqb i 0 && debug_enabled)%bool then
     names <- lift (attr inherited_ordering) ;;
     lift (debug_channels names output)
   else ret tt) ;;;
  s <- get_self ;;
  let step := ((i + 1) * hour_steps s)%Z in
  output <- lift (normalise s output true) ;;
  (if (Z.eqb i 0 && debug_enabled)%bool then
     lift (debug_channels ordering_cml output)
   else ret tt) ;;;
  s <- get_self ;;
  outputs' <-
    (if negb (is_list (all_fields s)) then
       for_each (enumerate (local_items all_fields_l))
         (fun kfs =>
            data <- lift (list_item output (fst kfs)) ;;
            emit (EvWrite data (snd kfs) step)) ;;;
       ret (outputs v)
     else ret (outputs v ++ [output])) ;;
  emit (EvStepper i step) ;;;
  ret {| input_iter := input_iter'; outputs := outputs' |}.

Fixpoint loop (model : Net) (all_fields_l : LocalFields)
    (idx : list Z) (v : LoopVars) : M LoopVars :=
  match idx with
  | [] => ret v
  | i :: idx' =>
      v' <- loop_body model all_fields_l i v ;;
      loop model all_fields_l idx' v'
  end.

(** [for i in range(self.lead_time // self.hour_steps): ...] *)
Definition inference_loop (model : Net) (all_fields_l : LocalFields)
    (input : tensor) : M LoopVars :=
  s <- get_self ;;
  n <- lift (floordiv (lead_time s) (hour_steps s)) ;;
  loop model all_fields_l (range n) {| input_iter := input; outputs := [] |}.

(** ** Assembling the dataset (list path, after the loop) *)

(** Writing an array into a slot of [n] entries: equal length, or one
    entry stretched; anything else is a [ValueError]. *)
Definition stretch {A} (n : nat) (l : list A) : Result (list A) :=
  if Nat.eqb (length l) n then Ok l
  else match l with
       | [x] => Ok (repeat x n)
       | _ => Raise ValueError
       end.

(** [slot[...] = p] for a slot of shape (h, w). *)
Definition assign_plane (h w : nat) (p : plane) : Result plane :=
  let? rows := stretch h p in
  rmap (stretch w) rows.

Definition dims3 : list string := ["time"; "lat"; "lon"].
Definition dims4 : list string := ["time"; "level"; "lat"; "lon"].

(** [np.array([out[0, i] for out in outputs])] *)
Definition surface_array (i : nat) (outs : list tensor) : Result XrVar :=
  let? planes := rmap (fun out => list_item out i) outs in
  let? planes := np_stack planes in
  Ok (Var3 planes).

(** [data_pl = np.empty((len(outputs), 13, 721, 1440))] filled by
    [data_pl[s, k] = out[0, i + k]] for [k] in [range(0, 13)]. *)
Definition level_array (i : nat) (outs : list tensor) : Result XrVar :=
  let? d := rmap (fun out =>
                    rmap (fun k =>
                            let? p := list_item out (i + k) in
                            assign_plane 721 1440 p)
                         (seq 0 13))
                 outs in
  Ok (Var4 d).

(** The [while i < len(self.ordering_xr)] loop; every turn advances [i],
    so [fuel] turns are enough when [fuel] is the length of the list
    ([None] only if the fuel runs out). *)
Fixpoint assemble_loop (fuel : nat) (outs : list tensor) (i j : nat)
    (data_vars : pydict (list string * XrVar))
    : option (Result (pydict (list string * XrVar))) :=
  if Nat.ltb i (length ordering_xr) then
    match fuel with
    | O => None
    | S fuel' =>
        if Nat.ltb i 8 then
          match (let? a := surface_array i outs in
                 let? name := list_item ordering_xr i in
                 Ok (dict_set data_vars name (dims3, a))) with
          | Ok dv => assemble_loop fuel' outs (i + 1) j dv
          | Raise e => Some (Raise e)
          end
        else
          match (let? a := level_array i outs in
                 let? name := list_item (fst param_level_pl) j in
                 Ok (dict_set data_vars name (dims4, a))) with
          | Ok dv => assemble_loop fuel' outs (i + 13) (j + 1) dv
          | Raise e => Some (Raise e)
          end
    end
  else Some (Ok data_vars).

(** [np.arange(start, stop, step)] for a positive step. *)
Definition np_arange (start stop step : Z) : list Z :=
  map (fun k => (start + Z.of_nat k * step)%Z)
      (seq 0 (Z.to_nat (- ((start - stop) / step))%Z)).

(** The sizes [xr.Dataset] checks: every variable against the
    coordinates of its dimensions. *)
Definition plane_fits (lat lon : nat) (p : plane) : bool :=
  (Nat.eqb (length p) lat && forallb (fun r => Nat.eqb (length r) lon) p)%bool.

Definition var_fits (time level lat lon : nat) (dv : list string * XrVar) : bool :=
  match snd dv with
  | Var3 d =>
      (Nat.eqb (length (fst dv)) 3 && negb (Nat.eqb (length d) 0)
       && Nat.eqb (length d) time && forallb (plane_fits lat lon) d)%bool
  | Var4 d =>
      (Nat.eqb (length (fst dv)) 4 && Nat.eqb (length d) time
       && forallb (fun ls => (Nat.eqb (length ls) level
                              && forallb (plane_fits lat lon) ls)%bool) d)%bool
  end.

(** [xr.Dataset(data_vars=..., coords=dict(lon, lat, time, level))]
    followed by the renaming of [level]. *)
Definition xr_Dataset (data_vars : pydict (list string * XrVar))
    (lon lat : list Qc) (time level : list Z) : Result OutDataset :=
  if forallb (fun nv => var_fits (length time) (length level)
                                 (length lat) (length lon) (snd nv)) data_vars
  then Ok {| out_vars := data_vars; out_lon := lon; out_lat := lat;
             out_time := time; out_level_name := "level"; out_level := level |}
  else Raise ValueError.

Definition rename_level (ds : OutDataset) : OutDataset :=
  {| out_vars := out_vars ds; out_lon := out_lon ds; out_lat := out_lat ds;
     out_time := out_time ds; out_level_name := "isobaricInhPa";
     out_level := out_level ds |}.

Definition netcdf_name (folder : string) (start_date lead : Z) : string :=
  path_join folder
    (String.append "fcnv2_"
       (String.append (fmt_hour start_date)
          (String.append "_to_"
             (String.append (fmt_hour (start_date + lead))
                (String.append "_ldt_"
                   (String.append (z_str lead) ".nc")))))).

(** Lines 353-410 of [run]. *)
Definition assemble (outs : list tensor) : M unit :=
  s <- get_self ;;
  match all_fields s with
  | FieldList _ => ret tt
  | XrList l =>
      data_vars <-
        match assemble_loop (length ordering_xr) outs 0 0 [] with
        | Some r => lift r
        | None => lift (Raise RuntimeError)
        end ;;
      let steps := np_arange 6 (lead_time s + 6) 6 in
      times <- lift (rmap (fun st =>
                             let? pl := list_item l 1 in
                             let? t0 := list_item (ds_time pl) 0 in
                             Ok (t0 + st)%Z) steps) ;;
      sfc <- lift (list_item l 0) ;;
      let lat := ds_latitude sfc in
      let lon := ds_longitude sfc in
      saved <- lift (xr_Dataset data_vars lon lat times (rev (snd param_level_pl))) ;;
      let saved := rename_level saved in
      start_date <- lift (list_item (ds_valid_time sfc) 0) ;;
      folder <- lift fourcastnet_folder ;;
      let name := netcdf_name folder start_date (lead_time s) in
      emit (EvToNetcdf name saved)
  end.

(** ** [run]

    The conversions between numpy arrays and torch tensors, the switch
    that turns gradients off and the opening of the stepper context are
    not calls that a statement below looks at; the int16 packing
    parameters handed to the NetCDF writer are computed from the dataset
    it is given. *)

Definition run : M unit :=
  load_statistics ;;;
  s <- get_self ;;
  prepared <- lift (prepare_input s) ;;
  let all_fields_l := fst prepared in
  s <- get_self ;;
  all_fields_numpy <- lift (normalise s (snd prepared) false) ;;
  s <- get_self ;;
  model <- load_model (checkpoint_path s) ;;
  let input := all_fields_numpy in
  v <- inference_loop model all_fields_l input ;;
  assemble (outputs v).

(* ================================================================== *)
(** * Vocabulary of the statements *)

(** The dictionary comprehension
    [{k[7:]: v for k, v in model_state.items() if k[7:] != "ged"}]. *)
Definition stripped_comprehension (model_state : pydict Weight) : pydict Weight :=
  dict_of_pairs
    (map (fun kv => (str_drop 7 (fst kv), snd kv))
       (filter (fun kv => negb (String.eqb (str_drop 7 (fst kv)) "ged")) model_state)).

(** The value of the last pair of [l] whose key, once stripped, is [name]. *)
Fixpoint last_stripped (name : string) (l : list (string * Weight)) : option Weight :=
  match l with
  | [] => None
  | kv :: l' =>
      match last_stripped name l' with
      | Some v => Some v
      | None => if String.eqb (str_drop 7 (fst kv)) name then Some (snd kv) else None
      end
  end.

(** Projections of a trace. *)
Definition forward_inputs (evs : list Event) : list tensor :=
  flat_map (fun e => match e with EvForward x => [x] | _ => [] end) evs.

Definition stepper_calls (evs : list Event) : list (Z * Z) :=
  flat_map (fun e => match e with EvStepper i st => [(i, st)] | _ => [] end) evs.

Definition writes_at (step : Z) (evs : list Event) : list (plane * (Field + XrVar)) :=
  flat_map (fun e => match e with
                     | EvWrite d t st => if Z.eqb st step then [(d, t)] else []
                     | _ => []
                     end) evs.

Definition state_dicts_loaded (evs : list Event) : list (pydict Weight) :=
  flat_map (fun e => match e with EvLoadStateDict d => [d] | _ => [] end) evs.

Definition files_loaded (evs : list Event) : list string :=
  flat_map (fun e => match e with
                     | EvNpLoad p => [p]
                     | EvTorchLoad p => [p]
                     | _ => []
                     end) evs.

Definition netcdf_written (evs : list Event) : list (string * OutDataset) :=
  flat_map (fun e => match e with EvToNetcdf n d => [(n, d)] | _ => [] end) evs.

(** Entry-wise description of the two directions of [normalise]. *)
Definition per_channel (f : scalar -> scalar -> scalar -> scalar)
    (data : tensor) (mn sd : list scalar) : tensor :=
  map (fun pms => plane_map (fun x => f x (fst (snd pms)) (snd (snd pms))) (fst pms))
      (combine data (combine mn sd)).

Definition nonzero (x : scalar) : Prop := exists q, x = Fin q /\ q <> 0%Qc.

(** Where the assembly loop can stand: in the surface block, or at the
    start of the block of level variable [j]. *)
Definition assembly_position (i j : nat) : Prop :=
  (i < 8 /\ j = 0) \/ (j <= 5 /\ i = 8 + 13 * j).

(** The calls one iteration of the loop makes, for the input [x] of its
    forward pass and the denormalised output [den]. *)
Definition write_events (den : tensor) (items : list (Field + XrVar)) (step : Z)
    : list Event :=
  map (fun kfs => EvWrite (nth (fst kfs) den []) (snd kfs) step) (enumerate items).

Definition iteration_events (s : Self) (items : list (Field + XrVar))
    (x : tensor) (i : Z) (den : tensor) : list Event :=
  [EvForward x]
  ++ (if is_list (all_fields s) then []
      else write_events den items ((i + 1) * hour_steps s)%Z)
  ++ [EvStepper i ((i + 1) * hour_steps s)%Z].

(** [x * stds + means], entry by entry. *)
Definition denormalised (mn sd : StatArray) (x : tensor) : tensor :=
  per_channel (fun x d m => s_add (s_mul x d) m) x (entries sd) (entries mn).

(** The calls of [n] iterations that start at index [k] with input [x],
    and the outputs they collect on the list path. *)
Definition loop_events (model : Net) (afl : LocalFields) (s : Self)
    (mn sd : StatArray) (k n : nat) (x : tensor) : list Event :=
  flat_map (fun d =>
              let xd := Nat.iter d (forward model) x in
              iteration_events s (local_items afl) xd (Z.of_nat (k + d))
                (denormalised mn sd (forward model xd)))
           (seq 0 n).

Definition loop_outputs (model : Net) (s : Self) (mn sd : StatArray)
    (n : nat) (x : tensor) : list tensor :=
  if is_list (all_fields s)
  then map (fun d => denormalised mn sd (forward model (Nat.iter d (forward model) x)))
           (seq 0 n)
  else [].

(** Length of a variable along [time]. *)
Definition time_length (v : XrVar) : nat :=
  match v with Var3 d => length d | Var4 d => length d end.

(** The rows of a plane in the descending-latitude order of a dataset. *)
Definition lat_sorted (ds : XrDataset) (p : plane) : plane :=
  take [] (rev (argsort (ds_latitude ds))) p.

(** The (single time step of the) surface variable [name], rows sorted. *)
Definition sfc_channel (sfc : XrDataset) (name : string) : plane :=
  match dict_get (ds_vars sfc) name with
  | Some (Var3 [p]) => lat_sorted sfc p
  | _ => []
  end.

(** The variable [param] at the level [lev] of the coordinate, rows
    sorted. *)
Definition pl_channel (pl : XrDataset) (param : string) (lev : Z) : plane :=
  match ds_level pl, dict_get (ds_vars pl) param with
  | Some coord, Some (Var4 [planes]) =>
      match level_index lev coord with
      | Ok i => lat_sorted pl (nth i planes [])
      | Raise _ => []
      end
  | _, _ => []
  end.

(** An entry [p] of [ordering_xr] read as parameter [p[0]] and level
    [p[1:]]. *)
Definition entry_param (p : string) : string :=
  match p with
  | String c _ => String c EmptyString
  | EmptyString => EmptyString
  end.

Definition entry_level (p : string) : Z :=
  match level_label (str_drop 1 p) with
  | Ok z => z
  | Raise _ => 0%Z
  end.

Definition expected_channels (sfc pl : XrDataset) : tensor :=
  map (sfc_channel sfc) param_sfc_xr
  ++ map (fun p => pl_channel pl (entry_param p) (entry_level p))
       (skipn 8 ordering_xr).

(** A boolean test of [NoDup] on strings. *)
Fixpoint str_nodupb (l : list string) : bool :=
  match l with
  | [] => true
  | x :: l' => (negb (str_mem x l') && str_nodupb l')%bool
  end.

(** What the list path needs of an entry of [ordering_xr]: a first
    character naming a level parameter and a rest that reads as one of
    the levels. *)
Definition entry_ok (p : string) : bool :=
  (negb (String.eqb p EmptyString)
   && str_mem (entry_param p) (fst param_level_pl)
   && match level_label (str_drop 1 p) with
      | Ok z => existsb (Z.eqb z) (snd param_level_pl)
      | Raise _ => false
      end)%bool.

Definition var_or_empty (ds : XrDataset) (n : string) : XrVar :=
  match dict_get (ds_vars ds) n with
  | Some v => v
  | None => Var3 []
  end.

Definition level_pos (lev : Z) (coord : list Z) : nat :=
  match level_index lev coord with
  | Ok i => i
  | Raise _ => 0
  end.

(** The variables of the assembled dataset: surface variable [i] holds
    channel [i] of every output, level variable [j] holds the thirteen
    channels from [8 + 13 * j] on. *)
Definition expected_sfc_var (outs : list tensor) (i : nat) : list string * XrVar :=
  (dims3, Var3 (map (fun out => nth i out []) outs)).

Definition expected_pl_var (outs : list tensor) (j : nat) : list string * XrVar :=
  (dims4,
   Var4 (map (fun out => map (fun k => nth (8 + 13 * j + k) out []) (seq 0 13)) outs)).

Definition expected_vars (outs : list tensor) : pydict (list string * XrVar) :=
  map (fun i => (nth i ordering_xr EmptyString, expected_sfc_var outs i)) (seq 0 8)
  ++ map (fun j => (nth j (fst param_level_pl) EmptyString, expected_pl_var outs j)) (seq 0 5).

(** An output the assembly accepts: 73 channels on the 721 x 1440 grid. *)
Definition output_ready (out : tensor) : Prop :=
  length out = 73 /\ Forall (fun p => plane_fits 721 1440 p = true) out.

(** Keys in non-decreasing order. *)
Inductive ascending : list nat -> Prop :=
| asc_nil : ascending []
| asc_one k : ascending [k]
| asc_cons k k' l : k <= k' -> ascending (k' :: l) -> ascending (k :: k' :: l).

(** The loop only makes forward passes, writes and stepper calls. *)
Definition loop_event (e : Event) : Prop :=
  match e with
  | EvForward _ | EvWrite _ _ _ | EvStepper _ _ => True
  | _ => False
  end.

(** Every [self.write] call of a trace. *)
Definition all_writes (evs : list Event) : list (plane * (Field + XrVar) * Z) :=
  flat_map (fun e => match e with EvWrite d t st => [(d, t, st)] | _ => [] end) evs.

(* ================================================================== *)
(** * Small concrete inputs *)

(** The rational of an integer. *)
Definition qc (z : Z) : Qc := Q2Qc (inject_Z z).

Definition demo_plane (a b : Z) : plane := [[Fin (qc a); Fin (qc b)]].

Definition demo_means : StatArray :=
  {| dtype := Float64; entries := [Fin (qc 1); Fin (qc 2)] |}.

Definition demo_stds : StatArray :=
  {| dtype := Float64; entries := [Fin (qc 2); Fin (qc 4)] |}.

(** Two channels on a 1 x 2 grid. *)
Definition demo_input : tensor := [demo_plane 3 5; demo_plane 6 10].

Definition demo_two_fields : list Field :=
  [mkField "10u" None (demo_plane 3 5); mkField "10v" None (demo_plane 6 10)].

(** A model object after [load_statistics], for a lead time of [lt]
    hours. *)
Definition demo_self (lt : Z) (af : AllFields) : Self :=
  set_stds demo_stds (set_means demo_means (init "assets" "cpu" lt af)).

Definition demo_npy_files (path : string) : option StatArray :=
  if String.eqb path "assets/global_means.npy" then Some demo_means
  else if String.eqb path "assets/global_stds.npy" then Some demo_stds
  else None.

(** A checkpoint whose state dictionary carries the two normalisation
    entries and one more tensor (weights are numbers here). *)
Definition demo_model_state : pydict nat :=
  [("module.norm.weight", 1); ("module.norm.bias", 2); ("module.a", 3)].

Definition demo_checkpoint_files (path : string) : option (pydict (pydict nat)) :=
  if String.eqb path "assets/weights.tar"
  then Some [("model_state", demo_model_state)]
  else None.

(** Two networks (a network is the dictionary it holds): one whose
    parameters are named without the prefix, one whose parameters are
    named with it. *)
Definition demo_load_stripped (model d : pydict nat) : pydict nat * Result unit :=
  match dict_get d "a" with
  | Some _ => (d, Ok tt)
  | None => (model, Raise RuntimeError)
  end.

Definition demo_load_prefixed (model d : pydict nat) : pydict nat * Result unit :=
  match dict_get d "module.a" with
  | Some _ => (d, Ok tt)
  | None => (model, Raise RuntimeError)
  end.

(** A field list with one field per channel, in the order surface
    parameters, then each level parameter from 1000 down to 50. *)
Definition demo_field_list : list Field :=
  map (fun n => mkField n None (demo_plane 1 1)) param_sfc
  ++ flat_map (fun q => map (fun l => mkField q (Some l) (demo_plane 2 2))
                          (snd param_level_pl))
       (fst param_level_pl).

(** Two labelled datasets on two latitudes given in ascending order. *)
Definition demo_sfc : XrDataset :=
  {| ds_time := [0%Z]; ds_valid_time := [0%Z];
     ds_latitude := [qc 0; qc 1]; ds_longitude := [qc 0];
     ds_level := None;
     ds_vars := map (fun n => (n, Var3 [[[Fin (qc 1)]; [Fin (qc 2)]]])) param_sfc_xr |}.

Definition demo_pl : XrDataset :=
  {| ds_time := [0%Z]; ds_valid_time := [0%Z];
     ds_latitude := [qc 0; qc 1]; ds_longitude := [qc 0];
     ds_level := Some (snd param_level_pl);
     ds_vars := map (fun q =>
                       (q, Var4 [map (fun l => [[Fin (qc l)]; [Fin (qc 0)]])
                                   (snd param_level_pl)]))
                    (fst param_level_pl) |}.

(** Statistics files of 74 entries, one more than the channels. *)
Definition demo_stats (z : Z) : StatArray :=
  {| dtype := Float64; entries := repeat (Fin (qc z)) 74 |}.

Definition demo_npy_files_full (path : string) : option StatArray :=
  if String.eqb path "assets/global_means.npy" then Some (demo_stats 1)
  else if String.eqb path "assets/global_stds.npy" then Some (demo_stats 2)
  else None.

(** A model object with statistics for the 73 channels. *)
Definition demo_self_full (lt : Z) (af : AllFields) : Self :=
  set_stds {| dtype := Float32; entries := repeat (Fin (qc 2)) 73 |}
    (set_means {| dtype := Float32; entries := repeat (Fin (qc 1)) 73 |}
       (init "assets" "cpu" lt af)).

(** Planes, an output and two labelled datasets on the 721 x 1440
    grid. *)
Definition demo_grid_row : list scalar := repeat (Fin (qc 1)) 1440.

Definition demo_grid_plane : plane := repeat demo_grid_row 721.

Definition demo_grid_output : tensor := repeat demo_grid_plane 73.

Definition demo_grid_sfc : XrDataset :=
  {| ds_time := [0%Z]; ds_valid_time := [0%Z];
     ds_latitude := map (fun k => qc (Z.of_nat k)) (seq 0 721);
     ds_longitude := map (fun k => qc (Z.of_nat k)) (seq 0 1440);
     ds_level := None;
     ds_vars := map (fun n => (n, Var3 [demo_grid_plane])) param_sfc_xr |}.

Definition demo_grid_pl : XrDataset :=
  {| ds_time := [0%Z]; ds_valid_time := [0%Z];
     ds_latitude := map (fun k => qc (Z.of_nat k)) (seq 0 721);
     ds_longitude := map (fun k => qc (Z.of_nat k)) (seq 0 1440);
     ds_level := Some (snd param_level_pl);
     ds_vars := map (fun q =>
                       (q, Var4 [map (fun _ => demo_grid_plane) (snd param_level_pl)]))
                    (fst param_level_pl) |}.

(* ================================================================== *)
(** * Basic facts *)

Lemma rmap_ok {A B} (f : A -> Result B) (g : A -> B) (l : list A) :
  (forall a, In a l -> f a = Ok (g a)) -> rmap f l = Ok (map g l).
Proof.
  induction l as [|a l IH]; intros H; simpl; [reflexivity|].
  rewrite (H a (or_introl eq_refl)). simpl.
  rewrite IH by (intros b Hb; apply H; now right). reflexivity.
Qed.

Lemma rmap_raise {A B} (f : A -> Result B) (l : list A) (e : PyError) :
  rmap f l = Raise e -> exists a, In a l /\ f a = Raise e.
Proof.
  induction l as [|a l IH]; simpl; [discriminate|].
  destruct (f a) as [b|e'] eqn:Ha; simpl.
  - destruct (rmap f l) as [bs|e'']; simpl; [discriminate|].
    intros H; inversion H; subst.
    destruct (IH eq_refl) as [x [Hx Hfx]]. exists x; split; [now right|assumption].
  - intros H; inversion H; subst. exists a; split; [now left|assumption].
Qed.

Lemma rmap_length {A B} (f : A -> Result B) (l : list A) (r : list B) :
  rmap f l = Ok r -> length r = length l.
Proof.
  revert r; induction l as [|a l IH]; simpl; intros r H.
  - inversion H; reflexivity.
  - destruct (f a); simpl in H; [|discriminate].
    destruct (rmap f l) as [bs|]; simpl in H; [|discriminate].
    inversion H; subst; simpl. now rewrite (IH bs eq_refl).
Qed.

Lemma list_item_ok {A} (l : list A) (i : nat) (d : A) :
  i < length l -> list_item l i = Ok (nth i l d).
Proof.
  intros H. unfold list_item.
  rewrite (nth_error_nth' l d H). reflexivity.
Qed.

Lemma list_item_raise {A} (l : list A) (i : nat) (e : PyError) :
  list_item l i = Raise e -> length l <= i /\ e = IndexError.
Proof.
  unfold list_item. destruct (nth_error l i) eqn:H; [discriminate|].
  intros E; inversion E; split; [now apply nth_error_None|reflexivity].
Qed.

(* ================================================================== *)
(** * Channel bookkeeping *)

Lemma stretch_raise {A} (n : nat) (l : list A) (e : PyError) :
  stretch n l = Raise e -> e = ValueError.
Proof.
  unfold stretch. destruct (Nat.eqb (length l) n); [discriminate|].
  destruct l as [|x [|y l]]; try discriminate; intros H; now inversion H.
Qed.

Lemma assign_plane_raise (h w : nat) (p : plane) (e : PyError) :
  assign_plane h w p = Raise e -> e = ValueError.
Proof.
  unfold assign_plane. destruct (stretch h p) as [rows|e'] eqn:Hs; simpl.
  - intros H. destruct (rmap_raise _ _ _ H) as [r [_ Hr]].
    exact (stretch_raise _ _ _ Hr).
  - intros H; inversion H; subst. exact (stretch_raise _ _ _ Hs).
Qed.

Lemma np_stack_raise (ps : list plane) (e : PyError) :
  np_stack ps = Raise e -> e = ValueError.
Proof.
  unfold np_stack. destruct ps as [|p0 ps]; [discriminate|].
  destruct (forallb (same_shape p0) (p0 :: ps)); [discriminate|].
  intros H; now inversion H.
Qed.

Lemma surface_array_no_index_error (i : nat) (outs : list tensor) (e : PyError) :
  Forall (fun out => i < length out) outs ->
  surface_array i outs = Raise e -> e = ValueError.
Proof.
  intros Hlen. unfold surface_array.
  rewrite (rmap_ok (fun out : tensor => list_item out i)
                   (fun out : tensor => nth i out ([] : plane))).
  - simpl. destruct (np_stack _) eqn:Hs; simpl; [discriminate|].
    intros H; inversion H; subst. exact (np_stack_raise _ _ Hs).
  - intros out Hin. apply list_item_ok.
    rewrite Forall_forall in Hlen. now apply Hlen.
Qed.

Lemma level_array_no_index_error (i : nat) (outs : list tensor) (e : PyError) :
  Forall (fun out => i + 12 < length out) outs ->
  level_array i outs = Raise e -> e = ValueError.
Proof.
  intros Hlen. unfold level_array.
  match goal with |- rbind ?r _ = _ -> _ => destruct r as [d|e'] eqn:Hr end;
    simpl; [discriminate|].
  intros H; inversion H; subst.
  destruct (rmap_raise _ _ _ Hr) as [out [Hin Hout]].
  destruct (rmap_raise _ _ _ Hout) as [k [Hk Hp]].
  rewrite Forall_forall in Hlen. specialize (Hlen out Hin).
  apply in_seq in Hk.
  rewrite (list_item_ok out (i + k) []) in Hp by lia. simpl in Hp.
  exact (assign_plane_raise _ _ _ _ Hp).
Qed.

Lemma assemble_loop_no_index_error (outs : list tensor) :
  Forall (fun out => length out = length ordering_xr) outs ->
  forall fuel i j dv,
    assembly_position i j ->
    length ordering_xr - i <= fuel ->
    exists r, assemble_loop fuel outs i j dv = Some r /\ r <> Raise IndexError.
Proof.
  intros Hlen. change (length ordering_xr) with 73 in *.
  induction fuel as [|fuel IH]; intros i j dv Hpos Hfuel.
  - assert (i = 73) by (destruct Hpos as [[? ?]|[? ?]]; lia). subst i.
    simpl. exists (Ok dv); split; [reflexivity|discriminate].
  - cbn [assemble_loop]. change (length ordering_xr) with 73.
    destruct (Nat.ltb i 73) eqn:Hi73.
    2:{ exists (Ok dv); split; [reflexivity|discriminate]. }
    apply Nat.ltb_lt in Hi73.
    destruct (Nat.ltb i 8) eqn:Hi8.
    + apply Nat.ltb_lt in Hi8.
      assert (Hj : j = 0) by (destruct Hpos as [[? ?]|[? ?]]; lia). subst j.
      destruct (surface_array i outs) as [a|e] eqn:Ha; cbn [rbind].
      * rewrite (list_item_ok ordering_xr i EmptyString) by (change (length ordering_xr) with 73; lia).
        cbn [rbind]. apply IH; [|lia].
        unfold assembly_position.
        destruct (Nat.eq_dec (i + 1) 8); [right; lia|left; lia].
      * exists (Raise e); split; [reflexivity|].
        assert (e = ValueError).
        { apply (surface_array_no_index_error i outs); [|assumption].
          eapply Forall_impl; [|exact Hlen]. simpl; intros; lia. }
        subst; discriminate.
    + apply Nat.ltb_ge in Hi8.
      assert (Hj : j <= 4 /\ i = 8 + 13 * j) by (destruct Hpos as [[? ?]|[? ?]]; lia).
      destruct Hj as [Hj Hi].
      destruct (level_array i outs) as [a|e] eqn:Ha; cbn [rbind].
      * rewrite (list_item_ok (fst param_level_pl) j EmptyString) by (simpl; lia).
        cbn [rbind]. apply IH; [|lia]. right; lia.
      * exists (Raise e); split; [reflexivity|].
        assert (e = ValueError).
        { apply (level_array_no_index_error i outs); [|assumption].
          eapply Forall_impl; [|exact Hlen]. simpl; intros; lia. }
        subst; discriminate.
Qed.

(** C10.  The two orderings, [backbone_channels] and the surface and
    level parameters agree on 73 channels (8 surface ones and 5
    parameters on 13 levels), and on outputs with that many channels the
    dataset assembly visits all of [ordering_xr] without ever raising an
    [IndexError]. *)
Theorem C10_channel_counts_agree :
  forall (a d : string) (lt : Z) (af : AllFields) (outs : list tensor),
    Forall (fun out => length out = backbone_channels (init a d lt af)) outs ->
    length ordering_cml = 73
    /\ length ordering_xr = 73
    /\ backbone_channels (init a d lt af) = 73
    /\ length param_sfc = 8
    /\ length (fst param_level_pl) = 5
    /\ length (snd param_level_pl) = 13
    /\ 73 = length param_sfc
            + length (fst param_level_pl) * length (snd param_level_pl)
    /\ exists r, assemble_loop (length ordering_xr) outs 0 0 [] = Some r
                 /\ r <> Raise IndexError.
Proof.
  intros a d lt af outs Hlen.
  repeat (split; [reflexivity|]).
  apply assemble_loop_no_index_error.
  - exact Hlen.
  - left; lia.
  - lia.
Qed.

(* ================================================================== *)
(** * Loading the statistics and the weights *)

Lemma trace_cons (s : Self) (e : Event) (evs : list Event) :
  trace {| self := s; events := e :: evs |}
  = trace {| self := s; events := evs |} ++ [e].
Proof. reflexivity. Qed.

(** C8.  [load_statistics] reads [global_means.npy] and then
    [global_stds.npy] from the assets directory, nothing else; it leaves
    in [self.means] and [self.stds] the first [backbone_channels] = 73
    channels of each, as float32; every other attribute keeps its
    value. *)
Theorem C8_load_statistics_effect :
  forall (w : World) (m sd : StatArray),
    backbone_channels (self w) = 73 ->
    npy_files (path_join (assets (self w)) "global_means.npy") = Some m ->
    npy_files (path_join (assets (self w)) "global_stds.npy") = Some sd ->
    exists w',
      load_statistics w = (Ok tt, w')
      /\ trace w' = trace w ++ [EvNpLoad (path_join (assets (self w)) "global_means.npy");
                                EvNpLoad (path_join (assets (self w)) "global_stds.npy")]
      /\ means (self w')
         = Some {| dtype := Float32; entries := map round_f32 (firstn 73 (entries m)) |}
      /\ stds (self w')
         = Some {| dtype := Float32; entries := map round_f32 (firstn 73 (entries sd)) |}
      /\ assets (self w') = assets (self w)
      /\ device (self w') = device (self w)
      /\ lead_time (self w') = lead_time (self w)
      /\ all_fields (self w') = all_fields (self w)
      /\ n_lat (self w') = n_lat (self w)
      /\ n_lon (self w') = n_lon (self w)
      /\ hour_steps (self w') = hour_steps (self w)
      /\ backbone_channels (self w') = backbone_channels (self w)
      /\ checkpoint_path (self w') = checkpoint_path (self w).
Proof.
  intros [s evs] m sd Hc Hm Hs. cbn [self] in *.
  cbv [load_statistics bind get_self np_load modify_self get_means get_stds
       emit ret lift];
  cbn [self events set_means set_stds means stds assets backbone_channels attr].
  rewrite Hm.
  cbv [load_statistics bind get_self np_load modify_self get_means get_stds
       emit ret lift];
  cbn [self events set_means set_stds means stds assets backbone_channels attr].
  rewrite Hs.
  eexists; split; [reflexivity|].
  unfold trace, astype_float32, slice_channels;
  cbn [events self means stds set_means set_stds
    assets device lead_time all_fields n_lat n_lon hour_steps backbone_channels
    checkpoint_path rev dtype entries].
  rewrite Hc, <- app_assoc. repeat split; reflexivity.
Qed.

Lemma dict_get_set {V} (d : pydict V) (k k' : string) (v : V) :
  dict_get (dict_set d k v) k'
  = if String.eqb k k' then Some v else dict_get d k'.
Proof.
  induction d as [|[k0 v0] d IH]; simpl.
  - reflexivity.
  - destruct (String.eqb k0 k) eqn:E0; simpl.
    + apply String.eqb_eq in E0; subst k0.
      destruct (String.eqb k k'); reflexivity.
    + rewrite IH. destruct (String.eqb k0 k') eqn:E1; [|reflexivity].
      apply String.eqb_eq in E1; subst k0.
      rewrite String.eqb_sym, E0. reflexivity.
Qed.

Lemma strip_fold_comprehension (l : list (string * Weight)) (d : pydict Weight) :
  fold_left strip_step l d
  = fold_left (fun d kv => dict_set d (fst kv) (snd kv))
      (map (fun kv => (str_drop 7 (fst kv), snd kv))
         (filter (fun kv => negb (String.eqb (str_drop 7 (fst kv)) "ged")) l)) d.
Proof.
  revert d; induction l as [|kv l IH]; intros d; simpl; [reflexivity|].
  destruct (negb (String.eqb (str_drop 7 (fst kv)) "ged")) eqn:E; simpl;
    rewrite IH; unfold strip_step; cbv zeta; rewrite E; reflexivity.
Qed.

Lemma strip_prefix_comprehension (ms : pydict Weight) :
  strip_prefix ms = stripped_comprehension ms.
Proof. apply strip_fold_comprehension. Qed.

Lemma strip_fold_get (l : list (string * Weight)) (d : pydict Weight) (name : string) :
  dict_get (fold_left strip_step l d) name
  = match (if String.eqb name "ged" then None else last_stripped name l) with
    | Some v => Some v
    | None => dict_get d name
    end.
Proof.
  revert d; induction l as [|kv l IH]; intros d; simpl.
  - destruct (String.eqb name "ged"); reflexivity.
  - rewrite IH. destruct (String.eqb name "ged") eqn:Eg.
    + unfold strip_step.
      destruct (String.eqb (str_drop 7 (fst kv)) "ged") eqn:Ek; simpl; [reflexivity|].
      rewrite dict_get_set.
      destruct (String.eqb (str_drop 7 (fst kv)) name) eqn:En; [|reflexivity].
      apply String.eqb_eq in En. apply String.eqb_eq in Eg.
      rewrite En, Eg, String.eqb_refl in Ek. discriminate.
    + destruct (last_stripped name l); [reflexivity|].
      unfold strip_step.
      destruct (String.eqb (str_drop 7 (fst kv)) name) eqn:En.
      * apply String.eqb_eq in En. rewrite En, Eg. simpl.
        rewrite dict_get_set. now rewrite String.eqb_refl.
      * destruct (negb (String.eqb (str_drop 7 (fst kv)) "ged")); [|reflexivity].
        rewrite dict_get_set. now rewrite En.
Qed.

(** C4.  When the strict load of the stripped dictionary does not
    raise, [load_model] reads the checkpoint and loads exactly the
    dictionary [{k[7:]: v for (k, v) in model_state if k[7:] != "ged"}]:
    under every name other than "ged" the value of the (last) key that
    strips to it, and nothing under "ged". *)
Theorem C4_primary_path_loads_stripped :
  forall (path : string) (ckpt : pydict (pydict Weight)) (ms : pydict Weight)
         (net : Net) (w : World),
    checkpoint_files path = Some ckpt ->
    dict_get ckpt "model_state" = Some ms ->
    load_state_dict new_net (strip_prefix ms) = (net, Ok tt) ->
    exists w',
      load_model path w = (Ok net, w')
      /\ self w' = self w
      /\ trace w' = trace w ++ [EvTorchLoad path;
                                EvLoadStateDict (stripped_comprehension ms)]
      /\ forall name,
           dict_get (stripped_comprehension ms) name
           = if String.eqb name "ged" then None else last_stripped name ms.
Proof.
  intros path ckpt ms net [s evs] Hf Hms Hload.
  cbv [load_model bind torch_load net_load emit lift ret dict_item];
  cbn [self events].
  rewrite Hf. rewrite Hms. rewrite Hload.
  eexists; split; [reflexivity|]. split; [reflexivity|]. split.
  - unfold trace; cbn [events rev]. rewrite <- app_assoc.
    now rewrite strip_prefix_comprehension.
  - intros name. rewrite <- strip_prefix_comprehension. unfold strip_prefix.
    rewrite strip_fold_get. simpl.
    destruct (String.eqb name "ged"); [reflexivity|].
    destruct (last_stripped name ms); reflexivity.
Qed.

(** The [except] branch: when the strict load of the stripped
    dictionary raises, the dictionary loaded next, into the object as
    the failed call left it, is [checkpoint["model_state"]] itself. *)
Lemma load_model_fallback :
  forall (path : string) (ckpt : pydict (pydict Weight)) (ms : pydict Weight)
         (net1 : Net) (e : PyError) (s : Self) (evs : list Event),
    checkpoint_files path = Some ckpt ->
    dict_get ckpt "model_state" = Some ms ->
    load_state_dict new_net (strip_prefix ms) = (net1, Raise e) ->
    load_model path {| self := s; events := evs |}
    = (match load_state_dict net1 ms with
       | (net2, Ok _) => Ok net2
       | (_, Raise e') => Raise e'
       end,
       {| self := s;
          events := EvLoadStateDict ms :: EvLoadStateDict (strip_prefix ms)
                    :: EvTorchLoad path :: evs |}).
Proof.
  intros path ckpt ms net1 e s evs Hf Hms Hload.
  cbv [load_model bind torch_load net_load emit lift ret dict_item];
  cbn [self events].
  rewrite Hf. rewrite Hms. rewrite Hload. cbn [self events].
  destruct (load_state_dict net1 ms) as [net2 [[]|e']]; reflexivity.
Qed.

(* ================================================================== *)
(** * Normalisation *)

Lemma broadcast_same_length {A B} (xs : list A) (ys : list B) :
  length xs = length ys -> broadcast xs ys = Ok (combine xs ys).
Proof.
  intros H. unfold broadcast. now rewrite H, Nat.eqb_refl.
Qed.

Lemma np_binop_same_length (op : scalar -> scalar -> scalar)
    (data : tensor) (st : list scalar) :
  length data = length st ->
  np_binop op data st
  = Ok (map (fun ps => plane_map (fun x => op x (snd ps)) (fst ps)) (combine data st)).
Proof.
  intros H. unfold np_binop. now rewrite (broadcast_same_length _ _ H).
Qed.

Lemma two_binops (op1 op2 : scalar -> scalar -> scalar) :
  forall (data : tensor) (a b : list scalar),
    length data = length a -> length a = length b ->
    (let? t := np_binop op1 data a in np_binop op2 t b)
    = Ok (per_channel (fun x u v => op2 (op1 x u) v) data a b).
Proof.
  intros data a b Ha Hb.
  rewrite (np_binop_same_length op1 data a Ha). cbn [rbind].
  rewrite np_binop_same_length
    by (rewrite length_map, length_combine; lia).
  f_equal. unfold per_channel.
  revert a b Ha Hb. induction data as [|p data IH]; intros [|u a] [|v b] Ha Hb;
    simpl in *; try discriminate; try reflexivity.
  f_equal.
  - unfold plane_map. rewrite map_map. apply map_ext; intros r.
    now rewrite map_map.
  - apply IH; lia.
Qed.

Lemma normalise_forward_formula (s : Self) (data : tensor) (mn sd : StatArray) :
  means s = Some mn -> stds s = Some sd ->
  length data = length (entries mn) ->
  length (entries mn) = length (entries sd) ->
  normalise s data false
  = Ok (per_channel (fun x m d => s_div (s_sub x m) d) data (entries mn) (entries sd)).
Proof.
  intros Hm Hs H1 H2. unfold normalise. rewrite Hm. cbn [attr rbind].
  rewrite <- (two_binops s_sub s_div data _ _ H1 H2).
  destruct (np_binop s_sub data (entries mn)); cbn [rbind]; [|reflexivity].
  now rewrite Hs.
Qed.

Lemma normalise_reverse_formula (s : Self) (data : tensor) (mn sd : StatArray) :
  means s = Some mn -> stds s = Some sd ->
  length data = length (entries sd) ->
  length (entries sd) = length (entries mn) ->
  normalise s data true
  = Ok (per_channel (fun x d m => s_add (s_mul x d) m) data (entries sd) (entries mn)).
Proof.
  intros Hm Hs H1 H2. unfold normalise. rewrite Hs. cbn [attr rbind].
  rewrite <- (two_binops s_mul s_add data _ _ H1 H2).
  destruct (np_binop s_mul data (entries sd)); cbn [rbind]; [|reflexivity].
  now rewrite Hm.
Qed.

Lemma per_channel_length (f : scalar -> scalar -> scalar -> scalar)
    (data : tensor) (a b : list scalar) :
  length data = length a -> length a = length b ->
  length (per_channel f data a b) = length data.
Proof.
  intros Ha Hb. unfold per_channel.
  rewrite length_map, !length_combine. lia.
Qed.

Lemma per_channel_nth (f : scalar -> scalar -> scalar -> scalar) :
  forall (data : tensor) (a b : list scalar) (c : nat) (p : plane) (u v : scalar),
    nth_error data c = Some p -> nth_error a c = Some u -> nth_error b c = Some v ->
    nth_error (per_channel f data a b) c = Some (plane_map (fun x => f x u v) p).
Proof.
  induction data as [|p0 data IH]; intros [|u0 a] [|v0 b] [|c] p u v Hp Hu Hv;
    simpl in *; try discriminate.
  - now inversion Hp; inversion Hu; inversion Hv.
  - now apply IH.
Qed.

Lemma scalar_round_trip (x m d : scalar) :
  finite x -> finite m -> nonzero d ->
  s_add (s_mul (s_div (s_sub x m) d) d) m = x.
Proof.
  intros Hx Hm [q [Hd Hq]]. subst d.
  destruct x as [a|]; [|contradiction]. destruct m as [b|]; [|contradiction].
  simpl. destruct (Qc_eq_dec q 0) as [E|_]; [contradiction|].
  simpl. f_equal. field. exact Hq.
Qed.

Lemma plane_round_trip (p : plane) (m d : scalar) :
  plane_finite p -> finite m -> nonzero d ->
  plane_map (fun x => s_add (s_mul x d) m)
    (plane_map (fun x => s_div (s_sub x m) d) p) = p.
Proof.
  intros Hp Hm Hd. unfold plane_map. rewrite map_map.
  rewrite <- (map_id p) at 2. apply map_ext_in; intros r Hr.
  rewrite map_map. rewrite <- (map_id r) at 2. apply map_ext_in; intros x Hx.
  apply scalar_round_trip; try assumption.
  unfold plane_finite in Hp. rewrite Forall_forall in Hp.
  specialize (Hp r Hr). rewrite Forall_forall in Hp. now apply Hp.
Qed.

(** C7.  With statistics of as many channels as the data, [normalise]
    computes [(data - means) / stds] entry by entry and, with
    [reverse=True], [data * stds + means]; the second undoes the first on
    every channel whose standard deviation is not zero (for finite data
    and mean), and on the whole array when none is zero. *)
Theorem C7_normalise_inverse :
  forall (s : Self) (data : tensor) (mn sd : StatArray),
    means s = Some mn -> stds s = Some sd ->
    length data = length (entries mn) ->
    length (entries mn) = length (entries sd) ->
    normalise s data false
    = Ok (per_channel (fun x m d => s_div (s_sub x m) d) data (entries mn) (entries sd))
    /\ normalise s data true
       = Ok (per_channel (fun x d m => s_add (s_mul x d) m) data (entries sd) (entries mn))
    /\ exists y z,
         normalise s data false = Ok y
         /\ normalise s y true = Ok z
         /\ length z = length data
         /\ (forall c p m d,
               nth_error data c = Some p ->
               nth_error (entries mn) c = Some m ->
               nth_error (entries sd) c = Some d ->
               plane_finite p -> finite m -> nonzero d ->
               nth_error z c = Some p)
         /\ (tensor_finite data -> Forall finite (entries mn) ->
             Forall nonzero (entries sd) -> z = data).
Proof.
  intros s data mn sd Hm Hs H1 H2.
  assert (Hf := normalise_forward_formula s data mn sd Hm Hs H1 H2).
  split; [exact Hf|].
  split; [apply normalise_reverse_formula; try assumption; lia|].
  set (y := per_channel (fun x m d => s_div (s_sub x m) d) data (entries mn) (entries sd)) in *.
  assert (Hy : length y = length data) by (apply per_channel_length; assumption).
  assert (Hr : normalise s y true
               = Ok (per_channel (fun x d m => s_add (s_mul x d) m) y
                       (entries sd) (entries mn)))
    by (apply normalise_reverse_formula; try assumption; lia).
  set (z := per_channel (fun x d m => s_add (s_mul x d) m) y (entries sd) (entries mn)) in *.
  assert (Hz : length z = length data)
    by (unfold z; rewrite per_channel_length; lia).
  assert (Hchan : forall c p m d,
             nth_error data c = Some p ->
             nth_error (entries mn) c = Some m ->
             nth_error (entries sd) c = Some d ->
             plane_finite p -> finite m -> nonzero d ->
             nth_error z c = Some p).
  { intros c p m d Hp Hmc Hdc Fp Fm Fd. unfold z.
    assert (Hyc : nth_error y c = Some (plane_map (fun x => s_div (s_sub x m) d) p))
      by (unfold y;
          now apply (per_channel_nth (fun x m d => s_div (s_sub x m) d))).
    rewrite (per_channel_nth (fun x d m => s_add (s_mul x d) m)
               _ _ _ _ _ _ _ Hyc Hdc Hmc).
    now rewrite plane_round_trip. }
  exists y, z. repeat split; try assumption; try reflexivity.
  intros Fd Fm Fs.
  apply nth_error_ext; intros c.
  destruct (nth_error data c) as [p|] eqn:Hp.
  - assert (Hc : c < length data) by (apply nth_error_Some; congruence).
    destruct (nth_error (entries mn) c) as [m|] eqn:Hmc;
      [|apply nth_error_None in Hmc; lia].
    destruct (nth_error (entries sd) c) as [d|] eqn:Hdc;
      [|apply nth_error_None in Hdc; lia].
    apply (Hchan c p m d); try assumption.
    + unfold tensor_finite in Fd. rewrite Forall_forall in Fd.
      apply Fd. eapply nth_error_In; eassumption.
    + rewrite Forall_forall in Fm. apply Fm. eapply nth_error_In; eassumption.
    + rewrite Forall_forall in Fs. apply Fs. eapply nth_error_In; eassumption.
  - apply nth_error_None. apply nth_error_None in Hp. lia.
Qed.


Lemma scalar_div_finite_iff (x m d : scalar) :
  finite x -> finite m ->
  (finite (s_div (s_sub x m) d) <-> nonzero d).
Proof.
  intros Hx Hm.
  destruct x as [a|]; [|contradiction]. destruct m as [b|]; [|contradiction].
  destruct d as [q|]; simpl.
  - destruct (Qc_eq_dec q 0) as [E|E]; simpl; split; intros H.
    + contradiction.
    + destruct H as [q' [Hq' Hne]]. inversion Hq'; subst. contradiction.
    + exists q; split; [reflexivity|assumption].
    + exact I.
  - split; [contradiction|]. intros [q [Hq _]]; discriminate.
Qed.

Lemma plane_div_finite_iff (p : plane) (m d : scalar) :
  plane_finite p -> finite m -> plane_nonempty p ->
  (plane_finite (plane_map (fun x => s_div (s_sub x m) d) p) <-> nonzero d).
Proof.
  intros Hp Hm [r [Hr Hne]].
  unfold plane_finite in *. rewrite Forall_forall in Hp.
  split.
  - intros H. rewrite Forall_forall in H.
    destruct r as [|x r]; [contradiction|].
    assert (Hx : finite x).
    { specialize (Hp _ Hr). rewrite Forall_forall in Hp. apply Hp. now left. }
    apply (scalar_div_finite_iff x m d Hx Hm).
    assert (Hrow : Forall finite (map (fun x => s_div (s_sub x m) d) (x :: r))).
    { apply H. unfold plane_map.
      apply (in_map (map (fun x => s_div (s_sub x m) d))). exact Hr. }
    now inversion Hrow.
  - intros Hd. unfold plane_map. rewrite Forall_map.
    rewrite Forall_forall. intros r' Hr'. rewrite Forall_map.
    specialize (Hp _ Hr'). eapply Forall_impl; [|exact Hp].
    intros x Hx. cbv beta. now apply scalar_div_finite_iff.
Qed.

Lemma per_channel_div_finite_iff :
  forall (data : tensor) (mn sd : list scalar),
    length data = length mn -> length mn = length sd ->
    tensor_finite data -> Forall finite mn -> Forall plane_nonempty data ->
    (tensor_finite (per_channel (fun x m d => s_div (s_sub x m) d) data mn sd)
     <-> Forall nonzero sd).
Proof.
  unfold tensor_finite, per_channel.
  induction data as [|p data IH]; intros [|m mn] [|d sd] H1 H2 Fd Fm Ne;
    simpl in *; try discriminate.
  - split; constructor.
  - inversion Fd; inversion Fm; inversion Ne; subst.
    assert (Hhead := plane_div_finite_iff p m d H3 H7 H11).
    assert (Htail := IH mn sd ltac:(lia) ltac:(lia) H4 H8 H12).
    split; intros H; inversion H; subst; constructor.
    + now apply Hhead.
    + now apply Htail.
    + now apply Hhead.
    + now apply Htail.
Qed.

(** C9.  The forward direction of [normalise] divides by [self.stds]
    as it is: it never raises on a zero entry, and (for finite data and
    means on a non-empty grid) every entry of the result is a finite
    number exactly when every entry of [stds] is a non-zero number. *)
Theorem C9_division_needs_nonzero_stds :
  forall (s : Self) (data : tensor) (mn sd : StatArray),
    means s = Some mn -> stds s = Some sd ->
    length data = length (entries mn) ->
    length (entries mn) = length (entries sd) ->
    tensor_finite data -> Forall finite (entries mn) ->
    Forall plane_nonempty data ->
    exists y,
      normalise s data false = Ok y
      /\ y = per_channel (fun x m d => s_div (s_sub x m) d) data
               (entries mn) (entries sd)
      /\ (tensor_finite y <-> Forall nonzero (entries sd)).
Proof.
  intros s data mn sd Hm Hs H1 H2 Fd Fm Ne.
  exists (per_channel (fun x m d => s_div (s_sub x m) d) data
            (entries mn) (entries sd)).
  split; [apply normalise_forward_formula; assumption|].
  split; [reflexivity|].
  now apply per_channel_div_finite_iff.
Qed.

(* ================================================================== *)
(** * The inference loop *)

Lemma bind_emit {B} (e : Event) (k : unit -> M B) (w : World) :
  bind (emit e) k w = k tt {| self := self w; events := e :: events w |}.
Proof. reflexivity. Qed.

Lemma bind_ret {A B} (a : A) (k : A -> M B) (w : World) :
  bind (ret a) k w = k a w.
Proof. reflexivity. Qed.

Lemma bind_lift_ok {A B} (a : A) (k : A -> M B) (w : World) :
  bind (lift (Ok a)) k w = k a w.
Proof. reflexivity. Qed.

Lemma bind_lift_raise {A B} (e : PyError) (k : A -> M B) (w : World) :
  bind (lift (Raise e)) k w = (Raise e, w).
Proof. reflexivity. Qed.

Lemma bind_get_self {B} (k : Self -> M B) (w : World) :
  bind get_self k w = k (self w) w.
Proof. reflexivity. Qed.

Lemma bind_assoc {A B D} (m : M A) (f : A -> M B) (k : B -> M D) (w : World) :
  bind (bind m f) k w = bind m (fun a => bind (f a) k) w.
Proof.
  unfold bind. destruct (m w) as [[a|e] w']; [|reflexivity].
  destruct (f a w') as [[b|e] w'']; reflexivity.
Qed.

Lemma bind_of_eq {A B} (m : M A) (k : A -> M B) (w w' : World) (r : Result A) :
  m w = (r, w') ->
  bind m k w = match r with Ok a => k a w' | Raise e => (Raise e, w') end.
Proof. intros H. unfold bind. now rewrite H. Qed.

Lemma for_each_writes (den : tensor) (step : Z) :
  forall (l : list (nat * (Field + XrVar))) (s : Self) (evs : list Event),
    (forall kfs, In kfs l -> fst kfs < length den) ->
    for_each l (fun kfs =>
                  data <- lift (list_item den (fst kfs)) ;;
                  emit (EvWrite data (snd kfs) step))
      {| self := s; events := evs |}
    = (Ok tt,
       {| self := s;
          events := rev (map (fun kfs => EvWrite (nth (fst kfs) den []) (snd kfs) step) l)
                    ++ evs |}).
Proof.
  induction l as [|kfs l IH]; intros s evs H; [reflexivity|].
  cbn [for_each]. rewrite bind_assoc.
  rewrite (list_item_ok den (fst kfs) []) by (apply H; now left).
  rewrite bind_lift_ok, bind_emit. cbn [self events].
  rewrite IH by (intros k Hk; apply H; now right).
  cbn [map rev]. now rewrite <- app_assoc.
Qed.

Lemma flat_map_seq_shift {B} (f : nat -> list B) (a n : nat) :
  flat_map f (seq (S a) n) = flat_map (fun d => f (S d)) (seq a n).
Proof.
  rewrite <- seq_shift, !flat_map_concat_map, map_map. reflexivity.
Qed.

Lemma enumerate_index_bound {A} (l : list A) (kfs : nat * A) :
  In kfs (enumerate l) -> fst kfs < length l.
Proof.
  unfold enumerate. destruct kfs as [k a]. intros H.
  apply in_combine_l in H. apply in_seq in H. simpl. lia.
Qed.

Lemma loop_body_ok (model : Net) (afl : LocalFields) (i : Z) (x : tensor)
    (outs : list tensor) (s : Self) (evs : list Event) (den : tensor) :
  debug_enabled = false ->
  normalise s (forward model x) true = Ok den ->
  (is_list (all_fields s) = false -> length (local_items afl) <= length den) ->
  loop_body model afl i {| input_iter := x; outputs := outs |}
    {| self := s; events := evs |}
  = (Ok {| input_iter := forward model x;
           outputs := if is_list (all_fields s) then outs ++ [den] else outs |},
     {| self := s;
        events := rev (iteration_events s (local_items afl) x i den) ++ evs |}).
Proof.
  intros Hdbg Hden Hlen.
  unfold loop_body. rewrite Hdbg, Bool.andb_false_r.
  rewrite bind_emit; cbn [self events input_iter outputs].
  rewrite bind_ret, bind_get_self; cbn [self].
  rewrite Hden, bind_lift_ok, bind_ret, bind_get_self; cbn [self].
  unfold iteration_events.
  destruct (is_list (all_fields s)) eqn:Hl; cbn [negb].
  - rewrite bind_ret, bind_emit. reflexivity.
  - rewrite bind_assoc.
    assert (Hb : forall kfs, In kfs (enumerate (local_items afl)) ->
                      fst kfs < length den).
    { intros kfs Hk. apply enumerate_index_bound in Hk.
      specialize (Hlen eq_refl). lia. }
    rewrite (bind_of_eq _ _ _ _ _ (for_each_writes den _ _ s _ Hb)).
    rewrite bind_ret, bind_emit. cbn [self events]. unfold ret, write_events.
    rewrite !rev_app_distr. cbn [rev app]. rewrite <- !app_assoc. reflexivity.
Qed.

(** With debug logging on, the first iteration reads [self.ordering]
    right after its forward pass; where the base class does not provide
    that attribute the loop stops there with an [AttributeError]. *)
Lemma loop_body_debug_without_ordering (model : Net) (afl : LocalFields)
    (v : LoopVars) (s : Self) (evs : list Event) :
  debug_enabled = true -> inherited_ordering = None ->
  loop_body model afl 0 v {| self := s; events := evs |}
  = (Raise AttributeError,
     {| self := s; events := EvForward (input_iter v) :: evs |}).
Proof.
  intros Hdbg Hord. unfold loop_body. rewrite Hdbg, Hord. reflexivity.
Qed.

Section LoopFacts.

Variable model : Net.
Variable afl : LocalFields.
Variable s : Self.
Variables mn sd : StatArray.
Variable C : nat.

Hypothesis Hdbg : debug_enabled = false.
Hypothesis Hmn : means s = Some mn.
Hypothesis Hsd : stds s = Some sd.
Hypothesis Hmn_len : length (entries mn) = C.
Hypothesis Hsd_len : length (entries sd) = C.
Hypothesis Hforward : forall x, length x = C -> length (forward model x) = C.
Hypothesis Hitems : is_list (all_fields s) = false -> length (local_items afl) <= C.

Lemma denormalise_ok (x : tensor) :
  length x = C ->
  normalise s x true = Ok (denormalised mn sd x)
  /\ length (denormalised mn sd x) = C.
Proof.
  intros Hx. split.
  - apply normalise_reverse_formula; try assumption; lia.
  - unfold denormalised. rewrite per_channel_length; lia.
Qed.

Lemma iter_forward_length (x : tensor) (n : nat) :
  length x = C -> length (Nat.iter n (forward model) x) = C.
Proof.
  intros Hx. induction n as [|n IH]; simpl; [assumption|]. now apply Hforward.
Qed.

Lemma loop_ok :
  forall (n k : nat) (x : tensor) (outs : list tensor) (evs : list Event),
    length x = C ->
    loop model afl (map Z.of_nat (seq k n)) {| input_iter := x; outputs := outs |}
      {| self := s; events := evs |}
    = (Ok {| input_iter := Nat.iter n (forward model) x;
             outputs := outs ++ loop_outputs model s mn sd n x |},
       {| self := s; events := rev (loop_events model afl s mn sd k n x) ++ evs |}).
Proof.
  induction n as [|n IH]; intros k x outs evs Hx.
  - unfold loop_outputs, loop_events. simpl.
    destruct (is_list (all_fields s)); now rewrite app_nil_r.
  - cbn [seq map loop]. unfold bind at 1.
    destruct (denormalise_ok (forward model x) (Hforward x Hx)) as [Hden Hlen].
    rewrite (loop_body_ok model afl (Z.of_nat k) x outs s evs _ Hdbg Hden)
      by (intros Hl; rewrite Hlen; auto).
    rewrite IH by (now apply Hforward).
    f_equal.
    + f_equal. f_equal.
      * now rewrite <- Nat.iter_succ_r.
      * unfold loop_outputs.
        destruct (is_list (all_fields s)); [|now rewrite !app_nil_r].
        rewrite <- app_assoc. f_equal. cbn [seq map app Nat.iter].
        f_equal. rewrite <- seq_shift, map_map. apply map_ext; intros d.
        now rewrite <- Nat.iter_succ_r.
    + f_equal. unfold loop_events. cbn [seq flat_map Nat.iter].
      rewrite rev_app_distr, <- app_assoc. f_equal.
      * f_equal. rewrite flat_map_seq_shift.
        apply flat_map_ext; intros d. cbv zeta.
        rewrite <- Nat.iter_succ_r. now replace (k + S d) with (S k + d) by lia.
      * now rewrite Nat.add_0_r.
Qed.

Lemma flat_map_flat_map {A B D} (p : B -> list D) (g : A -> list B) (l : list A) :
  flat_map p (flat_map g l) = flat_map (fun a => flat_map p (g a)) l.
Proof.
  induction l as [|a l IH]; simpl; [reflexivity|].
  now rewrite flat_map_app, IH.
Qed.

Lemma flat_map_singletons {A B} (h : A -> B) (l : list A) :
  flat_map (fun a => [h a]) l = map h l.
Proof. induction l as [|a l IH]; simpl; [reflexivity|now rewrite IH]. Qed.

Lemma flat_map_nil {A B} (h : A -> list B) (l : list A) :
  (forall d, In d l -> h d = []) -> flat_map h l = [].
Proof.
  induction l as [|a l IH]; intros H; simpl; [reflexivity|].
  rewrite (H a (or_introl eq_refl)). apply IH. intros d Hd. apply H. now right.
Qed.

Lemma flat_map_only {A B} (h : A -> list B) (l : list A) (i : A) :
  NoDup l -> In i l -> (forall d, In d l -> d <> i -> h d = []) ->
  flat_map h l = h i.
Proof.
  induction l as [|a l IH]; intros Hnd Hin Hnil; [contradiction|].
  inversion Hnd as [|? ? Hna Hnd']; subst. simpl. destruct Hin as [Ha|Hin].
  - subst a. rewrite (flat_map_nil h l); [apply app_nil_r|].
    intros d Hd. apply Hnil; [now right|]. intros E; subst d. contradiction.
  - rewrite (Hnil a); [|now left|intros E; subst a; contradiction].
    apply IH; try assumption. intros d Hd. apply Hnil. now right.
Qed.

Lemma forward_inputs_writes (den : tensor) (items : list (Field + XrVar)) (st : Z) :
  forward_inputs (write_events den items st) = [].
Proof.
  unfold write_events. induction (enumerate items) as [|a l IH]; simpl; auto.
Qed.

Lemma stepper_calls_writes (den : tensor) (items : list (Field + XrVar)) (st : Z) :
  stepper_calls (write_events den items st) = [].
Proof.
  unfold write_events. induction (enumerate items) as [|a l IH]; simpl; auto.
Qed.

Lemma writes_at_writes (den : tensor) (items : list (Field + XrVar)) (st st' : Z) :
  writes_at st' (write_events den items st)
  = if Z.eqb st st'
    then map (fun kfs => (nth (fst kfs) den [], snd kfs)) (enumerate items)
    else [].
Proof.
  unfold write_events. induction (enumerate items) as [|a l IH]; simpl.
  - now destruct (Z.eqb st st').
  - rewrite IH. now destruct (Z.eqb st st').
Qed.

Lemma forward_inputs_iteration (x : tensor) (i : Z) (den : tensor) :
  forward_inputs (iteration_events s (local_items afl) x i den) = [x].
Proof.
  unfold iteration_events, forward_inputs. rewrite !flat_map_app.
  fold (forward_inputs (if is_list (all_fields s) then []
          else write_events den (local_items afl) ((i + 1) * hour_steps s)%Z)).
  destruct (is_list (all_fields s)); [reflexivity|].
  now rewrite forward_inputs_writes.
Qed.

Lemma stepper_calls_iteration (x : tensor) (i : Z) (den : tensor) :
  stepper_calls (iteration_events s (local_items afl) x i den)
  = [(i, ((i + 1) * hour_steps s)%Z)].
Proof.
  unfold iteration_events, stepper_calls. rewrite !flat_map_app.
  fold (stepper_calls (if is_list (all_fields s) then []
          else write_events den (local_items afl) ((i + 1) * hour_steps s)%Z)).
  destruct (is_list (all_fields s)); [reflexivity|].
  now rewrite stepper_calls_writes.
Qed.

Lemma writes_at_iteration (st : Z) (x : tensor) (i : Z) (den : tensor) :
  is_list (all_fields s) = false ->
  writes_at st (iteration_events s (local_items afl) x i den)
  = if Z.eqb ((i + 1) * hour_steps s) st
    then map (fun kfs => (nth (fst kfs) den [], snd kfs))
           (enumerate (local_items afl))
    else [].
Proof.
  intros Hl. unfold iteration_events, writes_at. rewrite !flat_map_app, Hl.
  fold (writes_at st (write_events den (local_items afl) ((i + 1) * hour_steps s)%Z)).
  rewrite writes_at_writes. cbn [flat_map app]. now rewrite app_nil_r.
Qed.

Lemma forward_inputs_loop (k n : nat) (x : tensor) :
  forward_inputs (loop_events model afl s mn sd k n x)
  = map (fun d => Nat.iter d (forward model) x) (seq 0 n).
Proof.
  unfold loop_events, forward_inputs. rewrite flat_map_flat_map.
  rewrite <- flat_map_singletons. apply flat_map_ext; intros d.
  apply forward_inputs_iteration.
Qed.

Lemma stepper_calls_loop (k n : nat) (x : tensor) :
  stepper_calls (loop_events model afl s mn sd k n x)
  = map (fun d => (Z.of_nat (k + d), ((Z.of_nat (k + d) + 1) * hour_steps s)%Z))
      (seq 0 n).
Proof.
  unfold loop_events, stepper_calls. rewrite flat_map_flat_map.
  rewrite <- flat_map_singletons. apply flat_map_ext; intros d.
  apply stepper_calls_iteration.
Qed.

Lemma writes_at_flat_map {A} (st : Z) (g : A -> list Event) (l : list A) :
  writes_at st (flat_map g l) = flat_map (fun a => writes_at st (g a)) l.
Proof. apply flat_map_flat_map. Qed.

Lemma writes_at_loop (n i : nat) (x : tensor) :
  is_list (all_fields s) = false -> hour_steps s <> 0%Z -> i < n ->
  writes_at ((Z.of_nat i + 1) * hour_steps s) (loop_events model afl s mn sd 0 n x)
  = map (fun kfs =>
           (nth (fst kfs)
              (denormalised mn sd (forward model (Nat.iter i (forward model) x))) [],
            snd kfs))
      (enumerate (local_items afl)).
Proof.
  intros Hl Hh Hi. unfold loop_events. rewrite writes_at_flat_map.
  rewrite (flat_map_only _ (seq 0 n) i).
  - rewrite writes_at_iteration by assumption. cbn [Nat.add].
    now rewrite Z.eqb_refl.
  - apply seq_NoDup.
  - apply in_seq; lia.
  - intros d _ Hd.
    rewrite writes_at_iteration by assumption. cbn [Nat.add].
    destruct (Z.eqb_spec ((Z.of_nat d + 1) * hour_steps s)
                         ((Z.of_nat i + 1) * hour_steps s)) as [E|E]; [|reflexivity].
    apply Z.mul_cancel_r in E; [lia|assumption].
Qed.

Lemma inference_loop_ok (input : tensor) (evs : list Event) :
  length input = C -> hour_steps s <> 0%Z ->
  inference_loop model afl input {| self := s; events := evs |}
  = (Ok {| input_iter := Nat.iter (Z.to_nat (lead_time s / hour_steps s))
                           (forward model) input;
           outputs := loop_outputs model s mn sd (Z.to_nat (lead_time s / hour_steps s)) input |},
     {| self := s;
        events := rev (loop_events model afl s mn sd 0 (Z.to_nat (lead_time s / hour_steps s)) input)
                  ++ evs |}).
Proof.
  intros Hx Hh. unfold inference_loop.
  rewrite bind_get_self; cbn [self]. unfold floordiv.
  destruct (Z.eqb_spec (hour_steps s) 0) as [E|_]; [contradiction|].
  rewrite bind_lift_ok. unfold range.
  rewrite loop_ok by assumption. reflexivity.
Qed.

End LoopFacts.


Lemma nth_error_map_seq {B} (h : nat -> B) (n i : nat) :
  i < n -> nth_error (map h (seq 0 n)) i = Some (h i).
Proof.
  intros Hi. rewrite nth_error_map.
  rewrite (nth_error_nth' (seq 0 n) 0) by (rewrite length_seq; lia).
  rewrite seq_nth by lia. reflexivity.
Qed.

(** C1.  In every iteration [i] of the loop the forward pass takes a
    tensor [x]; the next forward pass (or, after the last iteration, the
    variable [input_iter]) gets the raw output [forward x]; what is
    emitted for the step is [forward x * stds + means], appended to
    [outputs] on the list path and written channel by channel otherwise,
    under the step [(i + 1) * hour_steps], which is also what the stepper
    is told. *)
Theorem C1_raw_output_fed_back_denormalised_emitted :
  forall (model : Net) (afl : LocalFields) (s : Self) (mn sd : StatArray)
         (input : tensor) (evs : list Event),
    debug_enabled = false ->
    means s = Some mn -> stds s = Some sd ->
    length (entries mn) = length input ->
    length (entries sd) = length input ->
    (forall x, length x = length input -> length (forward model x) = length input) ->
    (is_list (all_fields s) = false -> length (local_items afl) <= length input) ->
    hour_steps s <> 0%Z ->
    exists v new,
      inference_loop model afl input {| self := s; events := evs |}
      = (Ok v, {| self := s; events := rev new ++ evs |})
      /\ forall i, i < Z.to_nat (lead_time s / hour_steps s) ->
           exists x,
             nth_error (forward_inputs new) i = Some x
             /\ (if Nat.ltb (S i) (Z.to_nat (lead_time s / hour_steps s))
                 then nth_error (forward_inputs new) (S i) = Some (forward model x)
                 else input_iter v = forward model x)
             /\ normalise s (forward model x) true
                = Ok (denormalised mn sd (forward model x))
             /\ nth_error (stepper_calls new) i
                = Some (Z.of_nat i, ((Z.of_nat i + 1) * hour_steps s)%Z)
             /\ (if is_list (all_fields s)
                 then nth_error (outputs v) i
                      = Some (denormalised mn sd (forward model x))
                 else writes_at ((Z.of_nat i + 1) * hour_steps s) new
                      = map (fun kfs =>
                               (nth (fst kfs) (denormalised mn sd (forward model x)) [],
                                snd kfs))
                          (enumerate (local_items afl))).
Proof.
  intros model afl s mn sd input evs Hdbg Hmn Hsd Lmn Lsd Hfw Hitems Hh.
  set (n := Z.to_nat (lead_time s / hour_steps s)).
  eexists; eexists; split.
  - apply (inference_loop_ok model afl s mn sd (length input)); auto.
  - fold n. intros i Hi. cbn [input_iter outputs].
    exists (Nat.iter i (forward model) input).
    rewrite (forward_inputs_loop model afl s mn sd (length input) Hitems).
    rewrite (stepper_calls_loop model afl s mn sd (length input) Hitems).
    split; [rewrite nth_error_map_seq by assumption; reflexivity|].
    split.
    { destruct (Nat.ltb_spec (S i) n) as [Hlt|Hge].
      - rewrite nth_error_map_seq by assumption. reflexivity.
      - replace n with (S i) by lia. reflexivity. }
    split.
    { apply (denormalise_ok afl s mn sd (length input)); auto.
      apply Hfw. apply (iter_forward_length model); auto. }
    split; [rewrite nth_error_map_seq by assumption; reflexivity|].
    destruct (is_list (all_fields s)) eqn:Hl.
    + unfold loop_outputs. rewrite Hl.
      rewrite nth_error_map_seq by assumption. reflexivity.
    + apply (writes_at_loop model afl s mn sd (length input)); auto.
Qed.

(** C2.  The loop makes [lead_time // hour_steps] forward passes, with
    [hour_steps] = 6: as many as the floor of [lead_time / 6] (none for
    a negative lead time, for which [range] is empty). *)
Theorem C2_forward_pass_count :
  forall (model : Net) (afl : LocalFields) (s : Self) (mn sd : StatArray)
         (input : tensor) (evs : list Event),
    debug_enabled = false ->
    means s = Some mn -> stds s = Some sd ->
    length (entries mn) = length input ->
    length (entries sd) = length input ->
    (forall x, length x = length input -> length (forward model x) = length input) ->
    (is_list (all_fields s) = false -> length (local_items afl) <= length input) ->
    hour_steps s = 6%Z ->
    exists v new,
      inference_loop model afl input {| self := s; events := evs |}
      = (Ok v, {| self := s; events := rev new ++ evs |})
      /\ length (forward_inputs new) = Z.to_nat (lead_time s / 6)
      /\ (0 <= lead_time s ->
          Z.of_nat (length (forward_inputs new)) = lead_time s / 6)%Z.
Proof.
  intros model afl s mn sd input evs Hdbg Hmn Hsd Lmn Lsd Hfw Hitems Hh.
  eexists; eexists; split.
  - apply (inference_loop_ok model afl s mn sd (length input)); auto.
    rewrite Hh; discriminate.
  - rewrite (forward_inputs_loop model afl s mn sd (length input) Hitems).
    rewrite length_map, length_seq, Hh. split; [reflexivity|].
    intros Hlt. apply Z2Nat.id. apply Z.div_pos; lia.
Qed.

(* ================================================================== *)
(** * Assembling the dataset *)

Lemma np_stack_ok (ps r : list plane) : np_stack ps = Ok r -> r = ps.
Proof.
  unfold np_stack. destruct ps as [|p0 ps]; [intros H; now inversion H|].
  destruct (forallb (same_shape p0) (p0 :: ps)); intros H; now inversion H.
Qed.

Lemma surface_array_time (i : nat) (outs : list tensor) (a : XrVar) :
  surface_array i outs = Ok a -> time_length a = length outs.
Proof.
  unfold surface_array.
  match goal with |- rbind ?r _ = _ -> _ => destruct r as [planes|] eqn:Hr end;
    cbn [rbind]; [|discriminate].
  destruct (np_stack planes) as [r|] eqn:Hs; cbn [rbind]; [|discriminate].
  intros H; inversion H; subst; simpl.
  apply np_stack_ok in Hs; subst. now apply rmap_length in Hr.
Qed.

Lemma level_array_time (i : nat) (outs : list tensor) (a : XrVar) :
  level_array i outs = Ok a -> time_length a = length outs.
Proof.
  unfold level_array.
  match goal with |- rbind ?r _ = _ -> _ => destruct r as [d|] eqn:Hr end;
    cbn [rbind]; [|discriminate].
  intros H; inversion H; subst; simpl. now apply rmap_length in Hr.
Qed.

Lemma dict_set_Forall {V} (P : string * V -> Prop) (d : pydict V) (k : string) (v : V) :
  Forall P d -> (forall k', P (k', v)) -> Forall P (dict_set d k v).
Proof.
  intros Hd Hv. induction d as [|[k0 v0] d IH]; simpl.
  - constructor; [apply Hv|constructor].
  - inversion Hd; subst. destruct (String.eqb k0 k); constructor; auto.
Qed.

Lemma dict_set_not_nil {V} (d : pydict V) (k : string) (v : V) :
  dict_set d k v <> [].
Proof.
  destruct d as [|[k0 v0] d]; simpl; [discriminate|].
  destruct (String.eqb k0 k); discriminate.
Qed.

Lemma assemble_loop_times (outs : list tensor) :
  forall fuel i j dv dv',
    Forall (fun nv => time_length (snd (snd nv)) = length outs) dv ->
    (length ordering_xr <= i -> dv <> []) ->
    assemble_loop fuel outs i j dv = Some (Ok dv') ->
    Forall (fun nv => time_length (snd (snd nv)) = length outs) dv' /\ dv' <> [].
Proof.
  induction fuel as [|fuel IH]; intros i j dv dv' Hdv Hne; cbn [assemble_loop].
  - destruct (Nat.ltb_spec i (length ordering_xr)) as [Hi|Hi]; [discriminate|].
    intros H; inversion H; subst. split; [assumption|now apply Hne].
  - destruct (Nat.ltb_spec i (length ordering_xr)) as [Hi|Hi].
    2:{ intros H; inversion H; subst. split; [assumption|now apply Hne]. }
    destruct (Nat.ltb i 8).
    + destruct (surface_array i outs) as [a|] eqn:Ha; cbn [rbind]; [|discriminate].
      destruct (list_item ordering_xr i) as [name|]; cbn [rbind]; [|discriminate].
      apply IH.
      * apply dict_set_Forall; [assumption|].
        intros k'. simpl. now apply (surface_array_time i).
      * intros _. apply dict_set_not_nil.
    + destruct (level_array i outs) as [a|] eqn:Ha; cbn [rbind]; [|discriminate].
      destruct (list_item (fst param_level_pl) j) as [name|]; cbn [rbind]; [|discriminate].
      apply IH.
      * apply dict_set_Forall; [assumption|].
        intros k'. simpl. now apply (level_array_time i).
      * intros _. apply dict_set_not_nil.
Qed.

Lemma xr_Dataset_time_conflict (dv : pydict (list string * XrVar))
    (lon lat : list Qc) (time level : list Z) (n : nat) :
  Forall (fun nv => time_length (snd (snd nv)) = n) dv -> dv <> [] ->
  length time <> n ->
  xr_Dataset dv lon lat time level = Raise ValueError.
Proof.
  intros Hdv Hne Hlen. unfold xr_Dataset.
  destruct dv as [|[k [dims v]] dv]; [contradiction|].
  assert (Hv : time_length v = n) by (now inversion Hdv).
  cbn [forallb]. unfold var_fits at 1. cbn [snd fst].
  assert (E : Nat.eqb (time_length v) (length time) = false)
    by (apply Nat.eqb_neq; lia).
  destruct v as [d|d]; simpl in E; rewrite E;
    rewrite ?Bool.andb_false_r; reflexivity.
Qed.

Lemma np_arange_length (start stop step : Z) :
  length (np_arange start stop step) = Z.to_nat (- ((start - stop) / step)).
Proof. unfold np_arange. now rewrite length_map, length_seq. Qed.

(** The number of time stamps against the number of loop iterations. *)
Lemma arange_against_range (lt : Z) :
  (0 < lt)%Z ->
  length (np_arange 6 (lt + 6) 6)
  = if Z.eqb (lt mod 6) 0 then Z.to_nat (lt / 6) else S (Z.to_nat (lt / 6)).
Proof.
  intros Hpos. rewrite np_arange_length.
  replace (6 - (lt + 6))%Z with (- lt)%Z by lia.
  destruct (Z.eqb_spec (lt mod 6) 0) as [E|E].
  - rewrite Z.div_opp_l_z by lia. now rewrite Z.opp_involutive.
  - rewrite Z.div_opp_l_nz by lia.
    replace (- (- (lt / 6) - 1))%Z with (lt / 6 + 1)%Z by lia.
    rewrite Z2Nat.inj_add by (try apply Z.div_pos; lia).
    simpl. lia.
Qed.

(** On the list path, a lead time that is not a multiple of six makes
    the time coordinate one longer than the list of outputs, and the
    dataset is never built or written. *)
Lemma assemble_rejects_partial_step (s : Self) (evs : list Event)
    (l : list XrDataset) (outs : list tensor) :
  all_fields s = XrList l ->
  (0 < lead_time s)%Z -> (lead_time s mod 6 <> 0)%Z ->
  length outs = Z.to_nat (lead_time s / 6) ->
  length (np_arange 6 (lead_time s + 6) 6) = S (length outs)
  /\ exists e,
       assemble outs {| self := s; events := evs |}
       = (Raise e, {| self := s; events := evs |}).
Proof.
  intros Hl Hpos Hmod Hlen.
  assert (Hsteps : length (np_arange 6 (lead_time s + 6) 6) = S (length outs)).
  { rewrite arange_against_range by assumption.
    destruct (Z.eqb_spec (lead_time s mod 6) 0); [contradiction|]. now rewrite Hlen. }
  split; [exact Hsteps|].
  unfold assemble. rewrite bind_get_self; cbn [self]. rewrite Hl.
  destruct (assemble_loop (length ordering_xr) outs 0 0 []) as [[dv|e]|] eqn:Hloop.
  2:{ rewrite bind_lift_raise. eauto. }
  2:{ rewrite bind_lift_raise. eauto. }
  rewrite bind_lift_ok.
  match goal with |- context [lift (rmap ?f ?steps)] =>
    destruct (rmap f steps) as [times|e] eqn:Ht end.
  2:{ rewrite bind_lift_raise. eauto. }
  rewrite bind_lift_ok.
  destruct (list_item l 0) as [sfc|e]; [|rewrite bind_lift_raise; eauto].
  rewrite bind_lift_ok.
  apply rmap_length in Ht.
  assert (Hstart : length ordering_xr <= 0 -> @nil (string * (list string * XrVar)) <> [])
    by (simpl; intros; exfalso; lia).
  destruct (assemble_loop_times outs _ 0 0 [] dv (Forall_nil _) Hstart Hloop)
    as [Hall Hne].
  assert (Hconflict : length times <> length outs) by (rewrite Ht, Hsteps; lia).
  rewrite (xr_Dataset_time_conflict dv _ _ times _ (length outs) Hall Hne Hconflict).
  rewrite bind_lift_raise. eauto.
Qed.

(* ================================================================== *)
(** * Channel order of the input tensor: the field-list input *)

Lemma insert_by_perm {A} (key : A -> nat) (a : A) (l : list A) :
  Permutation (insert_by key a l) (a :: l).
Proof.
  induction l as [|b l IH]; simpl; [apply Permutation_refl|].
  destruct (Nat.leb (key a) (key b)); [apply Permutation_refl|].
  eapply Permutation_trans; [apply perm_skip, IH|apply perm_swap].
Qed.

Lemma sort_by_perm {A} (key : A -> nat) (l : list A) :
  Permutation (sort_by key l) l.
Proof.
  induction l as [|a l IH]; simpl; [constructor|].
  eapply Permutation_trans; [apply insert_by_perm|now apply perm_skip].
Qed.

Lemma insert_by_ascending {A} (key : A -> nat) (a : A) (l : list A) :
  ascending (map key l) -> ascending (map key (insert_by key a l)).
Proof.
  induction l as [|b l IH]; intros Hl; simpl; [constructor|].
  destruct (Nat.leb_spec (key a) (key b)) as [Hle|Hgt].
  - simpl. constructor; assumption.
  - simpl. destruct l as [|c l].
    + simpl. constructor; [lia|constructor].
    + inversion Hl; subst. specialize (IH H3). simpl in *.
      destruct (Nat.leb (key a) (key c)); simpl in *; constructor; auto; lia.
Qed.

Lemma sort_by_ascending {A} (key : A -> nat) (l : list A) :
  ascending (map key (sort_by key l)).
Proof.
  induction l as [|a l IH]; simpl; [constructor|].
  now apply insert_by_ascending.
Qed.

Lemma ascending_tail (k : nat) (l : list nat) :
  ascending (k :: l) -> ascending l.
Proof. inversion 1; subst; [constructor|assumption]. Qed.

Lemma ascending_head_le (k : nat) (l : list nat) :
  ascending (k :: l) -> forall x, In x l -> k <= x.
Proof.
  revert k; induction l as [|k' l IH]; intros k H x Hx; [contradiction|].
  inversion H; subst. destruct Hx as [->|Hx]; [assumption|].
  specialize (IH k' H4 x Hx). lia.
Qed.

(** An ascending list without repetition that holds exactly the numbers
    from [a] up to [a + n] is that range. *)
Lemma ascending_range (n : nat) :
  forall (a : nat) (l : list nat),
    ascending l -> NoDup l ->
    (forall x, In x l <-> a <= x < a + n) ->
    l = seq a n.
Proof.
  induction n as [|n IH]; intros a l Hasc Hnd Hin.
  - destruct l as [|k l]; [reflexivity|].
    exfalso. specialize (proj1 (Hin k) (or_introl eq_refl)). lia.
  - destruct l as [|k l].
    + exfalso. specialize (proj2 (Hin a) ltac:(lia)). contradiction.
    + assert (Hk : k = a).
      { assert (Ha : In a (k :: l)) by (apply Hin; lia).
        assert (Hkr : a <= k < a + S n) by (apply Hin; now left).
        destruct Ha as [->|Ha]; [reflexivity|].
        specialize (ascending_head_le k l Hasc a Ha). lia. }
      subst k. simpl. f_equal.
      inversion Hnd as [|? ? Hnotin Hnd']; subst.
      apply IH; [now apply ascending_tail in Hasc|assumption|].
      intros x; split.
      * intros Hx. assert (Hr : a <= x < a + S n) by (apply Hin; now right).
        assert (x <> a) by (intros ->; contradiction). lia.
      * intros Hx. assert (Hr : In x (a :: l)) by (apply Hin; lia).
        destruct Hr as [->|Hr]; [lia|assumption].
Qed.

Lemma index_of_bound (k : string) (l : list string) :
  In k l -> index_of k l < length l.
Proof.
  induction l as [|x l IH]; intros H; [contradiction|]. simpl.
  destruct (String.eqb_spec x k); [lia|].
  destruct H as [->|H]; [contradiction|]. specialize (IH H). lia.
Qed.

Lemma index_of_nth (k : string) (l : list string) :
  In k l -> nth (index_of k l) l EmptyString = k.
Proof.
  induction l as [|x l IH]; intros H; [contradiction|]. simpl.
  destruct (String.eqb_spec x k); [assumption|].
  destruct H as [->|H]; [contradiction|]. now apply IH.
Qed.

Lemma nth_index_of (i : nat) (l : list string) :
  NoDup l -> i < length l -> index_of (nth i l EmptyString) l = i.
Proof.
  revert i; induction l as [|x l IH]; intros i Hnd Hi; [simpl in Hi; lia|].
  inversion Hnd; subst. destruct i as [|i]; simpl.
  - now rewrite String.eqb_refl.
  - destruct (String.eqb_spec x (nth i l EmptyString)) as [E|E].
    + exfalso. apply H1. rewrite E. apply nth_In. simpl in Hi; lia.
    + f_equal. apply IH; [assumption|simpl in Hi; lia].
Qed.

Lemma str_mem_In (k : string) (l : list string) :
  str_mem k l = true <-> In k l.
Proof.
  unfold str_mem. rewrite existsb_exists. split.
  - intros [x [Hx E]]. apply String.eqb_eq in E. now subst.
  - intros H. exists k; split; [assumption|apply String.eqb_refl].
Qed.

Lemma same_shape_map (h : scalar -> scalar) (p q : plane) :
  same_shape (plane_map h p) (plane_map h q) = same_shape p q.
Proof.
  unfold same_shape, plane_shape, plane_map. cbn [fst snd].
  rewrite !length_map.
  destruct p as [|r p], q as [|r' q]; simpl; rewrite ?length_map; reflexivity.
Qed.

Section FieldOrder.

Variable names : list string.
Variable fs : list Field.

Hypothesis names_nodup : NoDup names.
Hypothesis once : forall n, In n names ->
  count_occ string_dec (map param_level fs) n = 1.

Let key (f : Field) : nat := index_of (param_level f) names.

Lemma fl_sel_In (f : Field) :
  In f (fl_sel names fs) <-> In f fs /\ In (param_level f) names.
Proof.
  unfold fl_sel. rewrite filter_In, str_mem_In. reflexivity.
Qed.

Lemma count_occ_map_filter (l : list Field) (n : string) :
  In n names ->
  count_occ string_dec (map param_level (fl_sel names l)) n
  = count_occ string_dec (map param_level l) n.
Proof.
  intros Hn. induction l as [|f l IH]; simpl; [reflexivity|].
  destruct (str_mem (param_level f) names) eqn:E; simpl.
  - destruct (string_dec (param_level f) n); now rewrite IH.
  - destruct (string_dec (param_level f) n) as [e|_]; [|assumption].
    rewrite e in E. apply str_mem_In in Hn. congruence.
Qed.

Lemma selected_names_nodup : NoDup (map param_level (fl_sel names fs)).
Proof.
  apply (NoDup_count_occ' string_dec). intros n Hn.
  apply in_map_iff in Hn. destruct Hn as [f [<- Hf]].
  apply fl_sel_In in Hf. destruct Hf as [_ Hin].
  rewrite count_occ_map_filter by assumption. now apply once.
Qed.

Lemma selected_keys_nodup : NoDup (map key (fl_sel names fs)).
Proof.
  assert (H := selected_names_nodup).
  assert (Hin : forall f, In f (fl_sel names fs) -> In (param_level f) names)
    by (intros f Hf; now apply fl_sel_In in Hf).
  induction (fl_sel names fs) as [|f l IH]; simpl; [constructor|].
  inversion H; subst. constructor.
  - intros Hk. apply in_map_iff in Hk. destruct Hk as [g [Hg Hgl]].
    apply H2. apply in_map_iff. exists g; split; [|assumption].
    unfold key in Hg. 
    rewrite <- (index_of_nth (param_level g) names) by (apply Hin; now right).
    rewrite <- (index_of_nth (param_level f) names) by (apply Hin; now left).
    now rewrite Hg.
  - apply IH; [assumption|]. intros g Hg. apply Hin. now right.
Qed.

Lemma selected_keys_range (k : nat) :
  In k (map key (fl_sel names fs)) <-> 0 <= k < 0 + length names.
Proof.
  split.
  - intros H. apply in_map_iff in H. destruct H as [f [<- Hf]].
    apply fl_sel_In in Hf. destruct Hf as [_ Hn].
    unfold key. specialize (index_of_bound _ _ Hn). lia.
  - intros Hk.
    assert (Hn : In (nth k names EmptyString) names) by (apply nth_In; lia).
    assert (Hc := once _ Hn).
    assert (Hin : In (nth k names EmptyString) (map param_level fs)).
    { apply (count_occ_In string_dec). lia. }
    apply in_map_iff in Hin. destruct Hin as [f [Hf Hfs]].
    apply in_map_iff. exists f. split.
    + unfold key. rewrite Hf. apply nth_index_of; [assumption|lia].
    + apply fl_sel_In. split; [assumption|]. now rewrite Hf.
Qed.

(** Selecting and ordering by [names] leaves exactly one field per
    name, in the order of [names]. *)
Lemma selected_in_order :
  map param_level (fl_order_by names (fl_sel names fs)) = names.
Proof.
  set (sorted := fl_order_by names (fl_sel names fs)).
  assert (Hperm : Permutation sorted (fl_sel names fs)) by apply sort_by_perm.
  assert (Hkeys : map key sorted = seq 0 (length names)).
  { apply ascending_range.
    - apply sort_by_ascending.
    - apply (Permutation_NoDup (l := map key (fl_sel names fs))).
      + apply Permutation_map. now apply Permutation_sym.
      + apply selected_keys_nodup.
    - intros x. rewrite <- selected_keys_range. split; intros Hx.
      + eapply Permutation_in; [apply Permutation_map; exact Hperm|exact Hx].
      + eapply Permutation_in;
          [apply Permutation_map, Permutation_sym; exact Hperm|exact Hx]. }
  assert (Hnames : map param_level sorted = map (fun k => nth k names EmptyString) (map key sorted)).
  { rewrite map_map. apply map_ext_in. intros f Hf. unfold key.
    symmetry. apply index_of_nth.
    apply (Permutation_in _ Hperm) in Hf. now apply fl_sel_In in Hf. }
  rewrite Hnames, Hkeys.
  apply nth_ext with (d := EmptyString) (d' := EmptyString).
  - now rewrite length_map, length_seq.
  - intros i Hi. rewrite length_map, length_seq in Hi.
    rewrite (nth_indep _ EmptyString (nth 0 names EmptyString)) by (rewrite length_map, length_seq; lia).
    rewrite (map_nth (fun k => nth k names EmptyString)).
    rewrite seq_nth by lia. reflexivity.
Qed.

Lemma ordered_from_input (f : Field) :
  In f (fl_order_by names (fl_sel names fs)) -> In f fs.
Proof.
  intros H. apply (Permutation_in _ (sort_by_perm _ _)) in H.
  now apply fl_sel_In in H.
Qed.

End FieldOrder.


Lemma str_nodupb_sound (l : list string) : str_nodupb l = true -> NoDup l.
Proof.
  induction l as [|x l IH]; simpl; intros H; [constructor|].
  apply Bool.andb_true_iff in H. destruct H as [Hx Hl].
  constructor; [|now apply IH].
  intros Hin. apply str_mem_In in Hin. rewrite Hin in Hx. discriminate.
Qed.

Lemma ordering_cml_nodup : NoDup ordering_cml.
Proof. apply str_nodupb_sound. vm_compute. reflexivity. Qed.

Lemma np_stack_same_shape (ps : list plane) :
  (forall p q, In p ps -> In q ps -> same_shape p q = true) ->
  np_stack ps = Ok ps.
Proof.
  intros H. unfold np_stack. destruct ps as [|p0 ps]; [reflexivity|].
  replace (forallb (same_shape p0) (p0 :: ps)) with true; [reflexivity|].
  symmetry. apply forallb_forall. intros q Hq. apply H; [now left|assumption].
Qed.

(** The field-list input: after selection and ordering the fields are
    one per name of [ordering_cml], in that order, and they are the
    channels of the tensor. *)
Lemma prepare_field_list (s : Self) (fs : list Field) :
  all_fields s = FieldList fs ->
  (forall n, In n ordering_cml ->
             count_occ string_dec (map param_level fs) n = 1) ->
  (forall f g, In f fs -> In g fs ->
               same_shape (f_values f) (f_values g) = true) ->
  exists sel,
    prepare_input s
    = Ok (LFields sel, map (fun f => plane_map round_f32 (f_values f)) sel)
    /\ map param_level sel = ordering_cml
    /\ (forall f, In f sel -> In f fs).
Proof.
  intros Hfl Honce Hshape.
  exists (fl_order_by ordering_cml (fl_sel ordering_cml fs)).
  assert (Hin : forall f, In f (fl_order_by ordering_cml (fl_sel ordering_cml fs))
                          -> In f fs)
    by (intros f; apply ordered_from_input).
  split; [|split].
  - unfold prepare_input. rewrite Hfl. unfold fl_to_numpy.
    rewrite np_stack_same_shape; [reflexivity|].
    intros p q Hp Hq. apply in_map_iff in Hp, Hq.
    destruct Hp as [f [<- Hf]]. destruct Hq as [g [<- Hg]].
    rewrite same_shape_map. apply Hshape; now apply Hin.
  - apply selected_in_order; [apply ordering_cml_nodup|assumption].
  - exact Hin.
Qed.

(* ================================================================== *)
(** * Channel order of the input tensor: the list input *)

Lemma dict_fold_get {V} (g : string -> V) (names : list string) :
  forall (d : pydict V) (k : string),
    dict_get (fold_left (fun d kv => dict_set d (fst kv) (snd kv))
                (map (fun n => (n, g n)) names) d) k
    = if str_mem k names then Some (g k) else dict_get d k.
Proof.
  induction names as [|n names IH]; intros d k; simpl; [reflexivity|].
  rewrite IH, dict_get_set.
  destruct (str_mem k names) eqn:Hm.
  - now rewrite Bool.orb_true_r.
  - rewrite Bool.orb_false_r. rewrite (String.eqb_sym k n).
    destruct (String.eqb_spec n k) as [->|_]; reflexivity.
Qed.

Lemma dict_of_names_get {V} (g : string -> V) (names : list string) (k : string) :
  dict_get (dict_of_pairs (map (fun n => (n, g n)) names)) k
  = if str_mem k names then Some (g k) else None.
Proof. unfold dict_of_pairs. exact (dict_fold_get g names [] k). Qed.

Lemma dict_get_map_values {V W} (h : V -> W) (d : pydict V) (k : string) :
  dict_get (map (fun nv => (fst nv, h (snd nv))) d) k
  = option_map h (dict_get d k).
Proof.
  induction d as [|[k0 v0] d IH]; simpl; [reflexivity|].
  destruct (String.eqb k0 k); [reflexivity|apply IH].
Qed.

Lemma ds_select_ok (names : list string) (ds : XrDataset) :
  (forall n, In n names -> dict_get (ds_vars ds) n <> None) ->
  ds_select names ds
  = Ok (with_vars ds (dict_of_pairs (map (fun n => (n, var_or_empty ds n)) names))).
Proof.
  intros H. unfold ds_select.
  rewrite (rmap_ok _ (fun n => (n, var_or_empty ds n))); [reflexivity|].
  intros n Hn. unfold dict_item, var_or_empty.
  destruct (dict_get (ds_vars ds) n) eqn:E; [reflexivity|].
  exfalso. now apply (H n Hn).
Qed.

Lemma level_index_pos (lev : Z) (coord : list Z) :
  In lev coord ->
  level_index lev coord = Ok (level_pos lev coord)
  /\ level_pos lev coord < length coord
  /\ nth (level_pos lev coord) coord 0%Z = lev.
Proof.
  unfold level_pos.
  induction coord as [|c coord IH]; intros Hin; [contradiction|].
  cbn [level_index].
  destruct (Z.eqb_spec c lev) as [E|E].
  - cbn. split; [reflexivity|]. split; [lia|assumption].
  - destruct Hin as [Hc|Hin]; [contradiction|].
    destruct (IH Hin) as [H1 [H2 H3]].
    destruct (level_index lev coord) as [i|]; [|discriminate].
    cbn. split; [reflexivity|]. split; [lia|exact H3].
Qed.

Lemma nth_map_in_range {A B} (h : A -> B) (l : list A) (i : nat) (d : A) (d' : B) :
  i < length l -> nth i (map h l) d' = h (nth i l d).
Proof.
  intros Hi. rewrite (nth_indep _ d' (h d)) by (now rewrite length_map).
  apply map_nth.
Qed.

Lemma concat_singletons {A} (l : list A) :
  concat (map (fun x => [x]) l) = l.
Proof. induction l as [|a l IH]; simpl; [reflexivity|now rewrite IH]. Qed.

Section ListInput.

Variables sfc pl : XrDataset.
Variable coord : list Z.

Hypothesis Hsfc : forall f, In f param_sfc_xr ->
  exists p, dict_get (ds_vars sfc) f = Some (Var3 [p]).
Hypothesis Hcoord : ds_level pl = Some coord.
Hypothesis Hlevels : forall lev, In lev (snd param_level_pl) -> In lev coord.
Hypothesis Hpl : forall q, In q (fst param_level_pl) ->
  exists planes, dict_get (ds_vars pl) q = Some (Var4 [planes]).

(** The surface dataset after selection and sorting. *)
Let sfc' : XrDataset :=
  sortby_latitude_desc
    (with_vars sfc (dict_of_pairs
                      (map (fun n => (n, var_or_empty sfc n)) param_sfc_xr))).

Lemma sfc_selected : ds_select param_sfc_xr sfc
  = Ok (with_vars sfc (dict_of_pairs
                         (map (fun n => (n, var_or_empty sfc n)) param_sfc_xr))).
Proof.
  apply ds_select_ok. intros n Hn. destruct (Hsfc n Hn) as [p Hp]. congruence.
Qed.

Lemma sfc_item (f : string) :
  In f param_sfc_xr ->
  dict_item (ds_vars sfc') f = Ok (Var3 [sfc_channel sfc f]).
Proof.
  intros Hf. unfold dict_item, sfc', sortby_latitude_desc, with_vars.
  cbn [ds_vars ds_latitude].
  rewrite (dict_get_map_values
             (var_map (take [] (rev (argsort (ds_latitude sfc)))))).
  rewrite dict_of_names_get.
  rewrite (proj2 (str_mem_In f param_sfc_xr) Hf). cbn [option_map].
  unfold sfc_channel, var_or_empty.
  destruct (Hsfc f Hf) as [p Hp]. rewrite Hp. reflexivity.
Qed.

(** The level dataset after the selection of the thirteen levels, of
    the five parameters, and sorting. *)
Let idx : list nat := map (fun l => level_pos l coord) (snd param_level_pl).

Let pl1 : XrDataset :=
  {| ds_time := ds_time pl; ds_valid_time := ds_valid_time pl;
     ds_latitude := ds_latitude pl; ds_longitude := ds_longitude pl;
     ds_level := Some (snd param_level_pl);
     ds_vars := map (fun nv =>
                       (fst nv,
                        match snd nv with
                        | Var4 d => Var4 (map (take [] idx) d)
                        | Var3 d => Var3 d
                        end)) (ds_vars pl) |}.

Let pl' : XrDataset :=
  sortby_latitude_desc
    (with_vars pl1 (dict_of_pairs
                      (map (fun n => (n, var_or_empty pl1 n)) (fst param_level_pl)))).

Lemma pl_levels_selected : ds_sel_levels (snd param_level_pl) pl = Ok pl1.
Proof.
  unfold ds_sel_levels. rewrite Hcoord.
  rewrite (rmap_ok _ (fun l => level_pos l coord)); [reflexivity|].
  intros lev Hlev. now apply level_index_pos, Hlevels.
Qed.

Lemma pl1_var (q : string) :
  In q (fst param_level_pl) ->
  exists planes,
    dict_get (ds_vars pl) q = Some (Var4 [planes])
    /\ dict_get (ds_vars pl1) q = Some (Var4 [take [] idx planes]).
Proof.
  intros Hq. destruct (Hpl q Hq) as [planes Hp]. exists planes.
  split; [assumption|]. unfold pl1. cbn [ds_vars].
  rewrite (dict_get_map_values
             (fun v => match v with
                       | Var4 d => Var4 (map (take [] idx) d)
                       | Var3 d => Var3 d
                       end)).
  now rewrite Hp.
Qed.

Lemma pl_selected : ds_select (fst param_level_pl) pl1
  = Ok (with_vars pl1 (dict_of_pairs
                         (map (fun n => (n, var_or_empty pl1 n)) (fst param_level_pl)))).
Proof.
  apply ds_select_ok. intros n Hn.
  destruct (pl1_var n Hn) as [planes [_ Hp]]. congruence.
Qed.

Lemma pl_entry (p : string) :
  entry_ok p = true ->
  (let? param := str_head p in
   let level := str_drop 1 p in
   let? sel := ds_sel_level level pl' in
   dict_item (ds_vars sel) param)
  = Ok (Var3 [pl_channel pl (entry_param p) (entry_level p)]).
Proof.
  unfold entry_ok. intros Hok.
  apply Bool.andb_true_iff in Hok. destruct Hok as [Hok Hlev].
  apply Bool.andb_true_iff in Hok. destruct Hok as [Hne Hparam].
  apply str_mem_In in Hparam.
  assert (Hhead : str_head p = Ok (entry_param p)).
  { destruct p; [discriminate|reflexivity]. }
  rewrite Hhead. cbn [rbind]. cbv zeta.
  unfold ds_sel_level.
  assert (Hl' : ds_level pl' = Some (snd param_level_pl)) by reflexivity.
  rewrite Hl'. unfold entry_level.
  destruct (level_label (str_drop 1 p)) as [lev|] eqn:Hlab; [|discriminate].
  cbn [rbind].
  assert (Hin : In lev (snd param_level_pl)).
  { apply existsb_exists in Hlev. destruct Hlev as [z [Hz E]].
    apply Z.eqb_eq in E. now subst. }
  destruct (level_index_pos lev _ Hin) as [Hi [Hlt Hnth]].
  rewrite Hi. cbn [rbind ds_vars].
  unfold dict_item.
  rewrite (dict_get_map_values
             (fun v => match v with
                       | Var4 d => Var3 (map (fun planes => nth (level_pos lev (snd param_level_pl)) planes []) d)
                       | Var3 d => Var3 d
                       end)).
  unfold pl', sortby_latitude_desc, with_vars. cbn [ds_vars ds_latitude].
  rewrite (dict_get_map_values
             (var_map (take [] (rev (argsort (ds_latitude pl1)))))).
  rewrite dict_of_names_get.
  rewrite (proj2 (str_mem_In _ _) Hparam). cbn [option_map].
  destruct (pl1_var _ Hparam) as [planes [Hp Hp1]].
  unfold var_or_empty. rewrite Hp1. cbn [var_map map].
  unfold pl_channel. rewrite Hcoord, Hp.
  destruct (level_index_pos lev coord (Hlevels lev Hin)) as [Hc [Hclt _]].
  rewrite Hc. unfold lat_sorted.
  do 2 f_equal. f_equal.
  change (ds_latitude pl1) with (ds_latitude pl).
  set (sortrows := take [] (rev (argsort (ds_latitude pl)))).
  assert (Hidx : length idx = length (snd param_level_pl))
    by (unfold idx; now rewrite length_map).
  rewrite (nth_map_in_range sortrows _ _ [])
    by (unfold take; rewrite length_map; lia).
  f_equal. unfold take.
  rewrite (nth_map_in_range (fun i => nth i planes []) idx _ 0) by lia.
  f_equal. unfold idx.
  rewrite (nth_map_in_range (fun l => level_pos l coord) _ _ 0%Z) by assumption.
  now rewrite Hnth.
Qed.

Lemma prepare_list_input (s : Self) (rest : list XrDataset) :
  all_fields s = XrList (sfc :: pl :: rest) ->
  (forall p q, In p (expected_channels sfc pl) ->
               In q (expected_channels sfc pl) -> same_shape p q = true) ->
  Forall (fun p => entry_ok p = true) (skipn 8 ordering_xr) ->
  prepare_input s
  = Ok (LArrays (map (fun p => Var3 [p]) (expected_channels sfc pl)),
        expected_channels sfc pl).
Proof.
  intros Hl Hshape Hentries. unfold prepare_input. rewrite Hl.
  cbn [list_item nth_error rbind].
  rewrite sfc_selected. cbn [rbind].
  remember param_level_pl as pp eqn:Epp in |- *.
  destruct pp as [params levels].
  replace levels with (snd param_level_pl) by (now rewrite <- Epp).
  replace params with (fst param_level_pl) by (now rewrite <- Epp).
  clear Epp params levels.
  rewrite pl_levels_selected. cbn [rbind].
  rewrite pl_selected. cbn [rbind].
  fold sfc'. fold pl'.
  rewrite (rmap_ok _ (fun p => Var3 [pl_channel pl (entry_param p) (entry_level p)])).
  2:{ intros p Hp. rewrite Forall_forall in Hentries. now apply pl_entry, Hentries. }
  cbn [rbind].
  rewrite (rmap_ok _ (fun f => Var3 [sfc_channel sfc f])) by exact sfc_item.
  cbn [rbind].
  assert (Harr :
    map (fun f => Var3 [sfc_channel sfc f]) param_sfc_xr
    ++ map (fun p => Var3 [pl_channel pl (entry_param p) (entry_level p)])
         (skipn 8 ordering_xr)
    = map (fun p => Var3 [p]) (expected_channels sfc pl)).
  { unfold expected_channels. now rewrite map_app, !map_map. }
  rewrite Harr.
  assert (Hcat : np_concatenate (map (fun p => Var3 [p]) (expected_channels sfc pl))
                 = Ok (expected_channels sfc pl)).
  { unfold np_concatenate.
    destruct (map (fun p => Var3 [p]) (expected_channels sfc pl)) eqn:E.
    - unfold expected_channels in E. discriminate.
    - rewrite <- E.
      rewrite (rmap_ok _ (fun v => match v with Var3 d => d | Var4 _ => [] end)).
      + cbn [rbind]. rewrite map_map. cbn beta iota.
        replace (concat (map (fun x : plane => [x]) (expected_channels sfc pl)))
          with (expected_channels sfc pl).
        * now apply np_stack_same_shape.
        * symmetry. apply concat_singletons.
      + intros v Hv. apply in_map_iff in Hv. destruct Hv as [c [<- _]]. reflexivity. }
  rewrite Hcat. reflexivity.
Qed.

End ListInput.


Lemma ordering_entries_ok :
  Forall (fun p => entry_ok p = true) (skipn 8 ordering_xr).
Proof.
  apply Forall_forall. apply forallb_forall. vm_compute. reflexivity.
Qed.

(** The 65 level entries of [ordering_xr] read, in order, as the five
    parameters each on the thirteen levels from 50 up to 1000. *)
Lemma ordering_entries_read :
  map (fun p => (entry_param p, entry_level p)) (skipn 8 ordering_xr)
  = flat_map (fun q => map (fun l => (q, l)) (rev (snd param_level_pl)))
      (fst param_level_pl).
Proof. vm_compute. reflexivity. Qed.

Lemma entry_ok_reads (p : string) :
  entry_ok p = true ->
  str_head p = Ok (entry_param p)
  /\ level_label (str_drop 1 p) = Ok (entry_level p).
Proof.
  unfold entry_ok, entry_level. intros H.
  apply Bool.andb_true_iff in H. destruct H as [H Hlev].
  apply Bool.andb_true_iff in H. destruct H as [Hne _].
  split.
  - destruct p; [discriminate|reflexivity].
  - destruct (level_label (str_drop 1 p)); [reflexivity|discriminate].
Qed.

(** C5.  On the field-list input (each name of [ordering_cml] on
    exactly one field, all on one grid), channel [j] of the tensor is the
    field whose [{param}{levelist}] name is [ordering_cml[j]].  On the
    list input (the surface variables and the level variables present on
    one time step and one grid), the tensor has 73 channels: channel
    [j < 8] is the surface variable [param_sfc_xr[j]] and channel
    [j >= 8] is the variable named by the first character of
    [ordering_xr[j]] at the level its remaining characters spell. *)
Theorem C5_input_channel_order :
  forall (s : Self),
    (forall fs,
        all_fields s = FieldList fs ->
        (forall n, In n ordering_cml ->
                   count_occ string_dec (map param_level fs) n = 1) ->
        (forall f g, In f fs -> In g fs ->
                     same_shape (f_values f) (f_values g) = true) ->
        exists sel t,
          prepare_input s = Ok (LFields sel, t)
          /\ (forall f, In f sel -> In f fs)
          /\ length t = length ordering_cml
          /\ forall j name,
               nth_error ordering_cml j = Some name ->
               exists f,
                 nth_error sel j = Some f
                 /\ param_level f = name
                 /\ nth_error t j = Some (plane_map round_f32 (f_values f)))
    /\ (forall sfc pl rest coord,
           all_fields s = XrList (sfc :: pl :: rest) ->
           (forall f, In f param_sfc_xr ->
                      exists p, dict_get (ds_vars sfc) f = Some (Var3 [p])) ->
           ds_level pl = Some coord ->
           (forall lev, In lev (snd param_level_pl) -> In lev coord) ->
           (forall q, In q (fst param_level_pl) ->
                      exists planes, dict_get (ds_vars pl) q = Some (Var4 [planes])) ->
           (forall p q, In p (expected_channels sfc pl) ->
                        In q (expected_channels sfc pl) -> same_shape p q = true) ->
           exists arrays t,
             prepare_input s = Ok (LArrays arrays, t)
             /\ length t = 73
             /\ (forall j f,
                   nth_error param_sfc_xr j = Some f ->
                   nth_error t j = Some (sfc_channel sfc f))
             /\ (forall j p,
                   8 <= j -> nth_error ordering_xr j = Some p ->
                   str_head p = Ok (entry_param p)
                   /\ level_label (str_drop 1 p) = Ok (entry_level p)
                   /\ nth_error t j
                      = Some (pl_channel pl (entry_param p) (entry_level p)))).
Proof.
  intros s. split.
  - intros fs Hfl Honce Hshape.
    destruct (prepare_field_list s fs Hfl Honce Hshape) as [sel [Hprep [Hnames Hin]]].
    exists sel, (map (fun f => plane_map round_f32 (f_values f)) sel).
    split; [exact Hprep|]. split; [exact Hin|]. split.
    + rewrite <- Hnames. now rewrite !length_map.
    + intros j name Hj. rewrite <- Hnames, nth_error_map in Hj.
      destruct (nth_error sel j) as [f|] eqn:Hf; [|discriminate].
      inversion Hj; subst. exists f. repeat split.
      rewrite nth_error_map, Hf. reflexivity.
  - intros sfc pl rest coord Hl Hsfc Hcoord Hlevels Hpl Hshape.
    exists (map (fun p => Var3 [p]) (expected_channels sfc pl)),
           (expected_channels sfc pl).
    split.
    { apply (prepare_list_input sfc pl coord Hsfc Hcoord Hlevels Hpl s rest Hl Hshape).
      apply ordering_entries_ok. }
    split; [unfold expected_channels; now rewrite length_app, !length_map|].
    split.
    + intros j f Hj. unfold expected_channels.
      assert (Hlt : j < length param_sfc_xr) by (apply nth_error_Some; congruence).
      rewrite nth_error_app1 by (now rewrite length_map).
      rewrite nth_error_map, Hj. reflexivity.
    + intros j p Hj Hp.
      assert (Hok : entry_ok p = true).
      { assert (H := ordering_entries_ok). rewrite Forall_forall in H. apply H.
        apply (nth_error_In _ (j - 8)). rewrite nth_error_skipn.
        now replace (8 + (j - 8)) with j by lia. }
      destruct (entry_ok_reads p Hok) as [Hh Hlab].
      split; [exact Hh|]. split; [exact Hlab|].
      unfold expected_channels.
      rewrite nth_error_app2 by (rewrite length_map; simpl; lia).
      rewrite length_map. change (length param_sfc_xr) with 8.
      rewrite nth_error_map, nth_error_skipn.
      replace (8 + (j - 8)) with j by lia. now rewrite Hp.
Qed.

(* ================================================================== *)
(** * The assembled dataset for a whole number of steps *)

Lemma stretch_fits {A} (n : nat) (l : list A) :
  length l = n -> stretch n l = Ok l.
Proof. intros H. unfold stretch. now rewrite H, Nat.eqb_refl. Qed.

Lemma plane_fits_spec (h w : nat) (p : plane) :
  plane_fits h w p = true <-> length p = h /\ Forall (fun r => length r = w) p.
Proof.
  unfold plane_fits. rewrite Bool.andb_true_iff, Nat.eqb_eq, forallb_forall, Forall_forall.
  split; intros [H1 H2]; split; try assumption; intros r Hr.
  - now apply Nat.eqb_eq, H2.
  - now apply Nat.eqb_eq, H2.
Qed.

Lemma assign_plane_fits (h w : nat) (p : plane) :
  plane_fits h w p = true -> assign_plane h w p = Ok p.
Proof.
  intros H. apply plane_fits_spec in H. destruct H as [Hh Hw].
  unfold assign_plane. rewrite (stretch_fits h p Hh). cbn [rbind].
  rewrite (rmap_ok _ (fun r => r)); [now rewrite map_id|].
  intros r Hr. apply stretch_fits. rewrite Forall_forall in Hw. now apply Hw.
Qed.

Lemma plane_fits_same_shape (h w : nat) (p q : plane) :
  plane_fits h w p = true -> plane_fits h w q = true -> same_shape p q = true.
Proof.
  intros Hp Hq. apply plane_fits_spec in Hp, Hq.
  destruct Hp as [Hp1 Hp2], Hq as [Hq1 Hq2].
  unfold same_shape, plane_shape. cbn [fst snd].
  rewrite Hp1, Hq1, Nat.eqb_refl. cbn [andb]. apply Nat.eqb_eq.
  destruct p as [|r p], q as [|r' q]; simpl in *; subst; try discriminate;
    try reflexivity.
  inversion Hp2; inversion Hq2; subst. congruence.
Qed.

Section WholeSteps.

Variable outs : list tensor.
Hypothesis Hready : Forall output_ready outs.

Lemma ready_nth (out : tensor) (i : nat) :
  In out outs -> i < 73 ->
  list_item out i = Ok (nth i out []) /\ plane_fits 721 1440 (nth i out []) = true.
Proof.
  intros Hin Hi. rewrite Forall_forall in Hready.
  destruct (Hready out Hin) as [Hlen Hfit]. split.
  - apply list_item_ok. lia.
  - rewrite Forall_forall in Hfit. apply Hfit. apply nth_In. lia.
Qed.

Lemma surface_array_ready (i : nat) :
  i < 73 -> surface_array i outs = Ok (snd (expected_sfc_var outs i)).
Proof.
  intros Hi. unfold surface_array.
  rewrite (rmap_ok (fun out : tensor => list_item out i)
                   (fun out : tensor => nth i out ([] : plane)))
    by (intros out Hin; now apply ready_nth).
  cbn [rbind]. rewrite np_stack_same_shape; [reflexivity|].
  intros p q Hp Hq. apply in_map_iff in Hp, Hq.
  destruct Hp as [o1 [<- H1]], Hq as [o2 [<- H2]].
  apply (plane_fits_same_shape 721 1440); now apply ready_nth.
Qed.

Lemma level_array_ready (j : nat) :
  j < 5 -> level_array (8 + 13 * j) outs = Ok (snd (expected_pl_var outs j)).
Proof.
  intros Hj. unfold level_array.
  rewrite (rmap_ok _ (fun out : tensor =>
                        map (fun k => nth (8 + 13 * j + k) out ([] : plane)) (seq 0 13)));
    [reflexivity|].
  intros out Hin. apply rmap_ok. intros k Hk. apply in_seq in Hk.
  destruct (ready_nth out (8 + 13 * j + k) Hin ltac:(lia)) as [Hitem Hfit].
  rewrite Hitem. cbn [rbind]. now apply assign_plane_fits.
Qed.

Lemma assemble_surface_step (fuel i : nat) (dv : pydict (list string * XrVar)) :
  i < 8 ->
  assemble_loop (S fuel) outs i 0 dv
  = assemble_loop fuel outs (i + 1) 0
      (dict_set dv (nth i ordering_xr EmptyString) (expected_sfc_var outs i)).
Proof.
  intros Hi. cbn [assemble_loop]. change (length ordering_xr) with 73.
  rewrite (proj2 (Nat.ltb_lt i 73)) by lia.
  rewrite (proj2 (Nat.ltb_lt i 8)) by lia.
  rewrite surface_array_ready by lia. cbn [rbind].
  rewrite (list_item_ok ordering_xr i EmptyString) by (change (length ordering_xr) with 73; lia).
  reflexivity.
Qed.

Lemma assemble_level_step (fuel j : nat) (dv : pydict (list string * XrVar)) :
  j < 5 ->
  assemble_loop (S fuel) outs (8 + 13 * j) j dv
  = assemble_loop fuel outs (8 + 13 * j + 13) (j + 1)
      (dict_set dv (nth j (fst param_level_pl) EmptyString) (expected_pl_var outs j)).
Proof.
  intros Hj. cbn [assemble_loop]. change (length ordering_xr) with 73.
  rewrite (proj2 (Nat.ltb_lt (8 + 13 * j) 73)) by lia.
  rewrite (proj2 (Nat.ltb_ge (8 + 13 * j) 8)) by lia.
  rewrite level_array_ready by lia. cbn [rbind].
  rewrite (list_item_ok (fst param_level_pl) j EmptyString) by (simpl; lia).
  reflexivity.
Qed.

Lemma assemble_loop_ready :
  assemble_loop (length ordering_xr) outs 0 0 [] = Some (Ok (expected_vars outs)).
Proof.
  change (length ordering_xr) with (13 + 60).
  cbn [Nat.add].
  do 8 (rewrite assemble_surface_step by lia; cbn [Nat.add]).
  rewrite (assemble_level_step _ 0) by lia.
  rewrite (assemble_level_step _ 1) by lia.
  rewrite (assemble_level_step _ 2) by lia.
  rewrite (assemble_level_step _ 3) by lia.
  rewrite (assemble_level_step _ 4) by lia.
  reflexivity.
Qed.

End WholeSteps.


Lemma np_arange_whole (n : nat) :
  np_arange 6 (6 * Z.of_nat n + 6) 6
  = map (fun k => ((Z.of_nat k + 1) * 6)%Z) (seq 0 n).
Proof.
  unfold np_arange.
  replace (6 - (6 * Z.of_nat n + 6))%Z with ((- Z.of_nat n) * 6)%Z by lia.
  rewrite Z.div_mul by lia. rewrite Z.opp_involutive, Nat2Z.id.
  apply map_ext. intros k. lia.
Qed.

Lemma expected_vars_fit (outs : list tensor) (time : nat) :
  Forall output_ready outs -> outs <> [] -> time = length outs ->
  forallb (fun nv => var_fits time 13 721 1440 (snd nv)) (expected_vars outs) = true.
Proof.
  intros Hready Hne Htime. subst time.
  assert (Hfit : forall out i, In out outs -> i < 73 ->
                   plane_fits 721 1440 (nth i out []) = true)
    by (intros out i Hin Hi; now apply (ready_nth _ Hready)).
  destruct outs as [|o outs']; [contradiction|].
  unfold expected_vars. rewrite forallb_app. apply Bool.andb_true_iff. split.
  - apply forallb_forall. intros nv Hnv. apply in_map_iff in Hnv.
    destruct Hnv as [i [<- Hi]]. apply in_seq in Hi.
    unfold var_fits, expected_sfc_var. cbn [fst snd].
    change (length dims3) with 3.
    rewrite !length_map. cbn [length Nat.eqb negb andb].
    rewrite Nat.eqb_refl. cbn [andb].
    apply forallb_forall. intros p Hp. apply in_map_iff in Hp.
    destruct Hp as [out [<- Hout]]. apply Hfit; [assumption|lia].
  - apply forallb_forall. intros nv Hnv. apply in_map_iff in Hnv.
    destruct Hnv as [j [<- Hj]]. apply in_seq in Hj.
    unfold var_fits, expected_pl_var. cbn [fst snd].
    change (length dims4) with 4.
    rewrite !length_map. cbn [length Nat.eqb andb].
    rewrite Nat.eqb_refl. cbn [andb].
    apply forallb_forall. intros ls Hls. apply in_map_iff in Hls.
    destruct Hls as [out [<- Hout]].
    rewrite length_map, length_seq. cbn [Nat.eqb andb].
    apply forallb_forall. intros p Hp. apply in_map_iff in Hp.
    destruct Hp as [k [<- Hk]]. apply in_seq in Hk. apply Hfit; [assumption|lia].
Qed.

Lemma expected_vars_names (outs : list tensor) :
  dict_keys (expected_vars outs) = param_sfc_xr ++ fst param_level_pl
  /\ (forall name, In name param_sfc_xr ->
        exists d, dict_get (expected_vars outs) name = Some (dims3, Var3 d))
  /\ (forall name, In name (fst param_level_pl) ->
        exists d, dict_get (expected_vars outs) name = Some (dims4, Var4 d)).
Proof.
  split; [reflexivity|]. split; intros name Hn.
  - repeat (destruct Hn as [<-|Hn]; [eexists; reflexivity|]). contradiction.
  - repeat (destruct Hn as [<-|Hn]; [eexists; reflexivity|]). contradiction.
Qed.

(** On the list path, for a lead time of [n >= 1] whole steps of six
    hours and outputs on the 721 x 1440 grid, the dataset is built and
    handed to the NetCDF writer once: eight surface variables over
    (time, lat, lon), five level variables over (time, level, lat, lon)
    made of thirteen consecutive channels each, the level coordinate
    reversed and renamed, and one time stamp per output. *)
Lemma assemble_whole_steps (s : Self) (evs : list Event)
    (sfc pl : XrDataset) (rest : list XrDataset) (outs : list tensor)
    (t0 start : Z) (ts vs : list Z) (folder : string) :
  all_fields s = XrList (sfc :: pl :: rest) ->
  Forall output_ready outs -> outs <> [] ->
  lead_time s = (6 * Z.of_nat (length outs))%Z ->
  length (ds_latitude sfc) = 721 -> length (ds_longitude sfc) = 1440 ->
  ds_time pl = t0 :: ts -> ds_valid_time sfc = start :: vs ->
  fourcastnet_folder = Ok folder ->
  assemble outs {| self := s; events := evs |}
  = (Ok tt,
     {| self := s;
        events :=
          EvToNetcdf (netcdf_name folder start (lead_time s))
            {| out_vars := expected_vars outs;
               out_lon := ds_longitude sfc;
               out_lat := ds_latitude sfc;
               out_time := map (fun k => (t0 + (Z.of_nat k + 1) * 6)%Z)
                             (seq 0 (length outs));
               out_level_name := "isobaricInhPa";
               out_level := rev (snd param_level_pl) |}
          :: evs |}).
Proof.
  intros Hl Hready Hne Hlead Hlat Hlon Htime Hvalid Hfolder.
  unfold assemble. rewrite bind_get_self; cbn [self]. rewrite Hl.
  rewrite (assemble_loop_ready outs Hready). cbv beta iota.
  rewrite bind_lift_ok.
  rewrite Hlead, np_arange_whole.
  rewrite (rmap_ok _ (fun st => (t0 + st)%Z))
    by (intros st _; cbn [list_item nth_error rbind]; rewrite Htime; reflexivity).
  rewrite bind_lift_ok. cbn [list_item nth_error]. rewrite bind_lift_ok.
  unfold xr_Dataset.
  rewrite Hlat, Hlon, !length_map, length_seq, length_rev.
  change (length (snd param_level_pl)) with 13.
  rewrite (expected_vars_fit outs (length outs) Hready Hne eq_refl).
  rewrite bind_lift_ok. rewrite Hvalid. cbn [list_item nth_error].
  rewrite bind_lift_ok.
  rewrite Hfolder, bind_lift_ok.
  unfold emit, rename_level. cbn [self events out_vars out_lon out_lat out_time out_level].
  rewrite map_map. reflexivity.
Qed.

(** On the list path with outputs on the 721 x 1440 grid, a positive
    lead time that is not a multiple of six gets as far as
    [xr.Dataset], which is given variables of [length outs] time steps
    against a time coordinate of one entry more, and refuses them:
    nothing is written. *)
Lemma assemble_partial_step_value_error (s : Self) (evs : list Event)
    (sfc pl : XrDataset) (rest : list XrDataset) (outs : list tensor)
    (t0 : Z) (ts : list Z) :
  all_fields s = XrList (sfc :: pl :: rest) ->
  Forall output_ready outs ->
  (0 < lead_time s)%Z -> (lead_time s mod 6 <> 0)%Z ->
  length outs = Z.to_nat (lead_time s / 6) ->
  ds_time pl = t0 :: ts ->
  length (np_arange 6 (lead_time s + 6) 6) = S (length outs)
  /\ xr_Dataset (expected_vars outs) (ds_longitude sfc) (ds_latitude sfc)
       (map (fun st => (t0 + st)%Z) (np_arange 6 (lead_time s + 6) 6))
       (rev (snd param_level_pl))
     = Raise ValueError
  /\ assemble outs {| self := s; events := evs |}
     = (Raise ValueError, {| self := s; events := evs |}).
Proof.
  intros Hl Hready Hpos Hmod Hlen Htime.
  assert (Hsteps : length (np_arange 6 (lead_time s + 6) 6) = S (length outs)).
  { rewrite arange_against_range by assumption.
    destruct (Z.eqb_spec (lead_time s mod 6) 0); [contradiction|]. now rewrite Hlen. }
  assert (Hloop := assemble_loop_ready outs Hready).
  assert (Hstart : length ordering_xr <= 0 -> @nil (string * (list string * XrVar)) <> [])
    by (simpl; intros; exfalso; lia).
  destruct (assemble_loop_times outs _ 0 0 [] _ (Forall_nil _) Hstart Hloop)
    as [Hall Hne].
  assert (Hds : xr_Dataset (expected_vars outs) (ds_longitude sfc) (ds_latitude sfc)
                  (map (fun st => (t0 + st)%Z) (np_arange 6 (lead_time s + 6) 6))
                  (rev (snd param_level_pl))
                = Raise ValueError).
  { apply (xr_Dataset_time_conflict _ _ _ _ _ (length outs) Hall Hne).
    rewrite length_map, Hsteps. lia. }
  split; [exact Hsteps|]. split; [exact Hds|].
  unfold assemble. rewrite bind_get_self; cbn [self]. rewrite Hl.
  rewrite Hloop. cbv beta iota. rewrite bind_lift_ok.
  rewrite (rmap_ok _ (fun st => (t0 + st)%Z))
    by (intros st _; cbn [list_item nth_error rbind]; rewrite Htime; reflexivity).
  rewrite bind_lift_ok. cbn [list_item nth_error]. rewrite bind_lift_ok.
  rewrite Hds, bind_lift_raise. reflexivity.
Qed.

(** C6.  The failing input: on the list path with a lead time of 7
    hours the loop has produced one output (on the 721 x 1440 grid, 73
    channels), the time coordinate computed from [np.arange(6, 13, 6)]
    has two entries, [xr.Dataset] raises [ValueError] on variables of
    one time step against these two time stamps, and the dataset is
    neither built nor written. *)
Theorem C6_seven_hours_no_dataset :
  forall (s : Self) (evs : list Event) (sfc pl : XrDataset)
         (rest : list XrDataset) (outs : list tensor) (t0 : Z) (ts : list Z),
    all_fields s = XrList (sfc :: pl :: rest) ->
    lead_time s = 7%Z ->
    length outs = Z.to_nat (lead_time s / 6) ->
    Forall output_ready outs ->
    ds_time pl = t0 :: ts ->
    length outs = 1
    /\ np_arange 6 (lead_time s + 6) 6 = [6; 12]%Z
    /\ xr_Dataset (expected_vars outs) (ds_longitude sfc) (ds_latitude sfc)
         [(t0 + 6)%Z; (t0 + 12)%Z] (rev (snd param_level_pl))
       = Raise ValueError
    /\ assemble outs {| self := s; events := evs |}
       = (Raise ValueError, {| self := s; events := evs |}).
Proof.
  intros s evs sfc pl rest outs t0 ts Hl Hlead Hlen Hready Htime.
  split; [rewrite Hlen, Hlead; reflexivity|].
  split; [rewrite Hlead; reflexivity|].
  destruct (assemble_partial_step_value_error s evs sfc pl rest outs t0 ts
              Hl Hready) as [_ [Hds Hrun]]; rewrite ?Hlead; try assumption; try lia.
  - discriminate.
  - now rewrite <- Hlead.
  - split; [|exact Hrun]. rewrite Hlead in Hds. exact Hds.
Qed.

(* ================================================================== *)
(** * [run] from end to end on the field-list input *)

Lemma loop_events_kinds (model : Net) (afl : LocalFields) (s : Self)
    (mn sd : StatArray) (k n : nat) (x : tensor) (e : Event) :
  In e (loop_events model afl s mn sd k n x) -> loop_event e.
Proof.
  unfold loop_events. intros H. apply in_flat_map in H.
  destruct H as [d [_ H]]. cbv zeta in H. unfold iteration_events in H.
  apply in_app_or in H. destruct H as [[<-|[]]|H]; [exact I|].
  apply in_app_or in H. destruct H as [H|[<-|[]]]; [|exact I].
  destruct (is_list (all_fields s)); [contradiction|].
  unfold write_events in H. apply in_map_iff in H.
  destruct H as [kfs [<- _]]. exact I.
Qed.

Lemma loop_loads_nothing (model : Net) (afl : LocalFields) (s : Self)
    (mn sd : StatArray) (k n : nat) (x : tensor) :
  files_loaded (loop_events model afl s mn sd k n x) = [].
Proof.
  apply flat_map_nil. intros e He. apply loop_events_kinds in He.
  destruct e; try contradiction; reflexivity.
Qed.

Lemma loop_loads_no_weights (model : Net) (afl : LocalFields) (s : Self)
    (mn sd : StatArray) (k n : nat) (x : tensor) :
  state_dicts_loaded (loop_events model afl s mn sd k n x) = [].
Proof.
  apply flat_map_nil. intros e He. apply loop_events_kinds in He.
  destruct e; try contradiction; reflexivity.
Qed.

Lemma load_statistics_ok (s : Self) (evs : list Event) (m sd : StatArray) :
  npy_files (path_join (assets s) "global_means.npy") = Some m ->
  npy_files (path_join (assets s) "global_stds.npy") = Some sd ->
  load_statistics {| self := s; events := evs |}
  = (Ok tt,
     {| self := set_stds (astype_float32 (slice_channels (backbone_channels s) sd))
                  (set_means (astype_float32 (slice_channels (backbone_channels s) m)) s);
        events := EvNpLoad (path_join (assets s) "global_stds.npy")
                  :: EvNpLoad (path_join (assets s) "global_means.npy") :: evs |}).
Proof.
  intros Hm Hs.
  cbv [load_statistics bind get_self np_load modify_self get_means get_stds
       emit ret lift];
  cbn [self events set_means set_stds means stds assets backbone_channels attr].
  rewrite Hm.
  cbv [load_statistics bind get_self np_load modify_self get_means get_stds
       emit ret lift];
  cbn [self events set_means set_stds means stds assets backbone_channels attr].
  rewrite Hs. reflexivity.
Qed.

Lemma load_model_primary (path : string) (ckpt : pydict (pydict Weight))
    (ms : pydict Weight) (net : Net) (s : Self) (evs : list Event) :
  checkpoint_files path = Some ckpt ->
  dict_get ckpt "model_state" = Some ms ->
  load_state_dict new_net (strip_prefix ms) = (net, Ok tt) ->
  load_model path {| self := s; events := evs |}
  = (Ok net,
     {| self := s;
        events := EvLoadStateDict (strip_prefix ms) :: EvTorchLoad path :: evs |}).
Proof.
  intros Hf Hms Hload.
  cbv [load_model bind torch_load net_load emit lift ret dict_item];
  cbn [self events].
  rewrite Hf. rewrite Hms. rewrite Hload. reflexivity.
Qed.

(** A whole run on a field list: the statistics are read, the fields
    selected and normalised, the weights loaded, and the loop run; the
    forward passes of the run are those of the loop,
    [lead_time // hour_steps] of them, starting from the normalised
    input. *)
Lemma run_field_list (s : Self) (evs : list Event) (fs : list Field)
    (m sd : StatArray) (ckpt : pydict (pydict Weight)) (ms : pydict Weight)
    (net : Net) :
  all_fields s = FieldList fs ->
  backbone_channels s = 73 ->
  hour_steps s <> 0%Z ->
  debug_enabled = false ->
  npy_files (path_join (assets s) "global_means.npy") = Some m ->
  npy_files (path_join (assets s) "global_stds.npy") = Some sd ->
  73 <= length (entries m) -> 73 <= length (entries sd) ->
  (forall n, In n ordering_cml ->
             count_occ string_dec (map param_level fs) n = 1) ->
  (forall f g, In f fs -> In g fs ->
               same_shape (f_values f) (f_values g) = true) ->
  checkpoint_files (checkpoint_path s) = Some ckpt ->
  dict_get ckpt "model_state" = Some ms ->
  load_state_dict new_net (strip_prefix ms) = (net, Ok tt) ->
  (forall x, length x = 73 -> length (forward net x) = 73) ->
  exists sel input new s',
    run {| self := s; events := evs |}
    = (Ok tt, {| self := s'; events := rev new ++ evs |})
    /\ map param_level sel = ordering_cml
    /\ normalise s' (map (fun f => plane_map round_f32 (f_values f)) sel) false
       = Ok input
    /\ files_loaded new = [path_join (assets s) "global_means.npy";
                           path_join (assets s) "global_stds.npy";
                           checkpoint_path s]
    /\ state_dicts_loaded new = [strip_prefix ms]
    /\ forward_inputs new
       = map (fun d => Nat.iter d (forward net) input)
           (seq 0 (Z.to_nat (lead_time s / hour_steps s)))
    /\ prepare_input s
       = Ok (LFields sel, map (fun f => plane_map round_f32 (f_values f)) sel)
    /\ (forall f, In f sel -> In f fs).
Proof.
  intros Hfl Hbc Hhs Hdbg Hm Hsd Lm Lsd Honce Hshape Hck Hms Hload Hfw.
  set (mn' := astype_float32 (slice_channels (backbone_channels s) m)).
  set (sd' := astype_float32 (slice_channels (backbone_channels s) sd)).
  set (s' := set_stds sd' (set_means mn' s)).
  assert (Lmn' : length (entries mn') = 73).
  { unfold mn', astype_float32, slice_channels. cbn [entries].
    rewrite length_map, length_firstn, Hbc. lia. }
  assert (Lsd' : length (entries sd') = 73).
  { unfold sd', astype_float32, slice_channels. cbn [entries].
    rewrite length_map, length_firstn, Hbc. lia. }
  assert (Hfl' : all_fields s' = FieldList fs) by exact Hfl.
  destruct (prepare_field_list s' fs Hfl' Honce Hshape) as [sel [Hprep [Hnames Hin]]].
  set (t := map (fun f => plane_map round_f32 (f_values f)) sel) in *.
  assert (Lt : length t = 73).
  { unfold t. rewrite length_map, <- (length_map param_level), Hnames. reflexivity. }
  assert (Hnorm : normalise s' t false
                  = Ok (per_channel (fun x m d => s_div (s_sub x m) d) t
                          (entries mn') (entries sd')))
    by (apply normalise_forward_formula; try reflexivity; lia).
  set (input := per_channel (fun x m d => s_div (s_sub x m) d) t
                  (entries mn') (entries sd')) in *.
  assert (Linput : length input = 73)
    by (unfold input; rewrite per_channel_length; lia).
  assert (Hitems : is_list (all_fields s') = false ->
                   length (local_items (LFields sel)) <= 73).
  { intros _. cbn [local_items]. rewrite length_map.
    rewrite <- (length_map param_level), Hnames. apply le_n. }
  exists sel, input.
  eexists. exists s'.
  split.
  - unfold run.
    rewrite (bind_of_eq _ _ _ _ _ (load_statistics_ok s evs m sd Hm Hsd)).
    fold mn' sd' s'.
    rewrite bind_get_self; cbn [self].
    rewrite Hprep, bind_lift_ok. cbn [fst snd].
    rewrite bind_get_self; cbn [self].
    fold t. rewrite Hnorm, bind_lift_ok.
    rewrite bind_get_self; cbn [self].
    change (checkpoint_path s') with (checkpoint_path s).
    rewrite (bind_of_eq _ _ _ _ _
               (load_model_primary (checkpoint_path s) ckpt ms net s' _ Hck Hms Hload)).
    rewrite (bind_of_eq _ _ _ _ _
               (inference_loop_ok net (LFields sel) s' mn' sd' 73 Hdbg eq_refl eq_refl
                  Lmn' Lsd' Hfw Hitems input _ Linput Hhs)).
    cbn [outputs].
    unfold assemble. rewrite bind_get_self; cbn [self]. rewrite Hfl'.
    unfold ret.
    change (lead_time s') with (lead_time s).
    change (hour_steps s') with (hour_steps s).
    match goal with
    | |- (Ok tt, {| self := _; events := rev ?l ++ ?a :: ?b :: ?c :: ?d :: evs |}) = _ =>
        replace (rev l ++ a :: b :: c :: d :: evs)
          with (rev ([d; c; b; a] ++ l) ++ evs)
          by (rewrite rev_app_distr; cbn [rev app]; now rewrite <- !app_assoc)
    end.
    reflexivity.
  - split; [exact Hnames|]. split; [exact Hnorm|].
    unfold files_loaded, state_dicts_loaded, forward_inputs.
    rewrite !flat_map_app. cbn [flat_map app].
    fold (files_loaded (loop_events net (LFields sel) s' mn' sd' 0
                          (Z.to_nat (lead_time s / hour_steps s)) input)).
    fold (state_dicts_loaded (loop_events net (LFields sel) s' mn' sd' 0
                          (Z.to_nat (lead_time s / hour_steps s)) input)).
    fold (forward_inputs (loop_events net (LFields sel) s' mn' sd' 0
                          (Z.to_nat (lead_time s / hour_steps s)) input)).
    rewrite (forward_inputs_loop net (LFields sel) s' mn' sd' 73 Hitems).
    rewrite (loop_loads_nothing net (LFields sel) s' mn' sd').
    rewrite (loop_loads_no_weights net (LFields sel) s' mn' sd').
    split; [reflexivity|]. split; [reflexivity|]. split; [reflexivity|].
    split; [exact Hprep|exact Hin].
Qed.

(* ================================================================== *)
(** * Further properties of [normalise] *)

Lemma broadcast_mismatch {A B} (xs : list A) (ys : list B) :
  length xs <> length ys -> length xs <> 1 -> length ys <> 1 ->
  broadcast xs ys = Raise ValueError.
Proof.
  intros Hne Hx Hy. unfold broadcast.
  destruct (Nat.eqb_spec (length xs) (length ys)) as [E|_]; [contradiction|].
  destruct xs as [|x [|x' xs]]; simpl in *; try contradiction.
  - destruct ys as [|y [|y' ys]]; simpl in *; try contradiction; reflexivity.
  - destruct ys as [|y [|y' ys]]; simpl in *; try contradiction; reflexivity.
Qed.

(** X1.  [normalise] needs both statistics: it returns an array only
    when [self.means] and [self.stds] are set, and on an object that
    [load_statistics] has not visited it raises [AttributeError] in
    either direction. *)
Theorem X1_normalise_needs_statistics :
  (forall s data reverse y,
      normalise s data reverse = Ok y ->
      exists mn sd, means s = Some mn /\ stds s = Some sd)
  /\ (forall a d lt af data reverse,
        normalise (init a d lt af) data reverse = Raise AttributeError).
Proof.
  split.
  - intros s data reverse y H. unfold normalise in H.
    destruct (means s) as [mn|], (stds s) as [sd|].
    + now exists mn, sd.
    + destruct reverse; cbn [attr rbind] in H; [discriminate|].
      destruct (np_binop s_sub data (entries mn)); discriminate.
    + destruct reverse; cbn [attr rbind] in H; [|discriminate].
      destruct (np_binop s_mul data (entries sd)); discriminate.
    + destruct reverse; discriminate.
  - intros a d lt af data [|]; reflexivity.
Qed.

Lemma normalise_mismatch :
  forall s data mn sd reverse,
    means s = Some mn -> stds s = Some sd ->
    length (entries mn) = length (entries sd) ->
    length data <> length (entries sd) ->
    length data <> 1 -> length (entries sd) <> 1 ->
    normalise s data reverse = Raise ValueError.
Proof.
  intros s data mn sd reverse Hm Hs Hlen Hne H1 H2.
  unfold normalise. rewrite Hm, Hs. cbn [attr rbind].
  destruct reverse; unfold np_binop.
  - rewrite broadcast_mismatch by assumption. reflexivity.
  - rewrite broadcast_mismatch by (rewrite ?Hlen; assumption). reflexivity.
Qed.

(** X2.  Statistics whose channel count differs from that of the data
    (neither count being one) make [normalise] raise [ValueError], in
    either direction: nothing is padded or cut. *)
Theorem X2_normalise_channel_mismatch :
  forall s data mn sd reverse,
    means s = Some mn -> stds s = Some sd ->
    length (entries mn) = length (entries sd) ->
    length data <> length (entries sd) ->
    length data <> 1 -> length (entries sd) <> 1 ->
    normalise s data reverse = Raise ValueError.
Proof. exact normalise_mismatch. Qed.

Lemma per_channel_row_lengths (f : scalar -> scalar -> scalar -> scalar) :
  forall (data : tensor) (a b : list scalar),
    length data = length a -> length a = length b ->
    map (map (@length scalar)) (per_channel f data a b)
    = map (map (@length scalar)) data.
Proof.
  unfold per_channel.
  induction data as [|p data IH]; intros [|u a] [|v b] Ha Hb;
    simpl in *; try discriminate; try reflexivity.
  f_equal.
  - unfold plane_map. rewrite map_map. apply map_ext. intros r. apply length_map.
  - apply IH; lia.
Qed.

(** X3.  [normalise] keeps the shape of the array: with statistics of
    as many channels as the data, the result has the same channels, rows
    and row lengths, in both directions. *)
Theorem X3_normalise_keeps_shape :
  forall s data mn sd reverse,
    means s = Some mn -> stds s = Some sd ->
    length data = length (entries mn) ->
    length (entries mn) = length (entries sd) ->
    exists y,
      normalise s data reverse = Ok y
      /\ length y = length data
      /\ map (map (@length scalar)) y = map (map (@length scalar)) data.
Proof.
  intros s data mn sd reverse Hm Hs H1 H2. destruct reverse.
  - eexists. split; [apply (normalise_reverse_formula s data mn sd); try assumption; lia|].
    split; [apply per_channel_length; lia|apply per_channel_row_lengths; lia].
  - eexists. split; [apply (normalise_forward_formula s data mn sd); assumption|].
    split; [apply per_channel_length; lia|apply per_channel_row_lengths; lia].
Qed.

Lemma scalar_round_trip_back (x m d : scalar) :
  finite x -> finite m -> nonzero d ->
  s_div (s_sub (s_add (s_mul x d) m) m) d = x.
Proof.
  intros Hx Hm [q [Hd Hq]]. subst d.
  destruct x as [a|]; [|contradiction]. destruct m as [b|]; [|contradiction].
  simpl. destruct (Qc_eq_dec q 0) as [E|_]; [contradiction|].
  f_equal. field. exact Hq.
Qed.

Lemma per_channel_twice (f g : scalar -> scalar -> scalar -> scalar) :
  forall (data : tensor) (a b : list scalar),
    length data = length a -> length a = length b ->
    tensor_finite data ->
    (forall x u v, finite x -> In u a -> In v b -> g (f x u v) v u = x) ->
    per_channel g (per_channel f data a b) b a = data.
Proof.
  unfold per_channel, tensor_finite.
  induction data as [|p data IH]; intros [|u a] [|v b] Ha Hb Hfin Hinv;
    simpl in *; try discriminate; try reflexivity.
  inversion Hfin as [|? ? Hp Hrest]; subst. f_equal.
  - unfold plane_map. rewrite map_map.
    rewrite <- (map_id p) at 2. apply map_ext_in; intros r Hr.
    rewrite map_map. rewrite <- (map_id r) at 2. apply map_ext_in; intros x Hx.
    apply Hinv; [|now left|now left].
    unfold plane_finite in Hp. rewrite Forall_forall in Hp.
    specialize (Hp r Hr). rewrite Forall_forall in Hp. now apply Hp.
  - apply IH; try lia; try assumption.
    intros x u' v' Fx Hu Hv. apply Hinv; [assumption|now right|now right].
Qed.

(** X4.  The other round trip: denormalising and then normalising gives
    the array back (finite data and means, no zero standard deviation). *)
Theorem X4_normalise_undoes_denormalise :
  forall s data mn sd,
    means s = Some mn -> stds s = Some sd ->
    length data = length (entries mn) ->
    length (entries mn) = length (entries sd) ->
    tensor_finite data -> Forall finite (entries mn) ->
    Forall nonzero (entries sd) ->
    exists y,
      normalise s data true = Ok y /\ normalise s y false = Ok data.
Proof.
  intros s data mn sd Hm Hs H1 H2 Fd Fm Fs.
  exists (denormalised mn sd data). split.
  - apply normalise_reverse_formula; try assumption; lia.
  - rewrite (normalise_forward_formula s _ mn sd Hm Hs)
      by (unfold denormalised; rewrite ?per_channel_length; lia).
    f_equal. unfold denormalised.
    apply (per_channel_twice (fun x d m => s_add (s_mul x d) m)
                             (fun x m d => s_div (s_sub x m) d)); try lia;
      try assumption.
    intros x d m Fx Hd Hmn. apply scalar_round_trip_back; try assumption.
    + rewrite Forall_forall in Fm. now apply Fm.
    + rewrite Forall_forall in Fs. now apply Fs.
Qed.

(** X6.  A zero standard deviation wipes its channel out: whatever the
    data, every entry of that channel of the normalised array is
    non-finite, and the other channels are computed as usual. *)
Theorem X6_zero_std_wipes_channel :
  forall s data mn sd c p m,
    means s = Some mn -> stds s = Some sd ->
    length data = length (entries mn) ->
    length (entries mn) = length (entries sd) ->
    nth_error data c = Some p ->
    nth_error (entries mn) c = Some m ->
    nth_error (entries sd) c = Some (Fin 0%Qc) ->
    exists y,
      normalise s data false = Ok y
      /\ nth_error y c = Some (plane_map (fun _ => NonFinite) p)
      /\ forall c' p' m' d',
           c' <> c ->
           nth_error data c' = Some p' ->
           nth_error (entries mn) c' = Some m' ->
           nth_error (entries sd) c' = Some d' ->
           nth_error y c' = Some (plane_map (fun x => s_div (s_sub x m') d') p').
Proof.
  intros s data mn sd c p m Hm Hs H1 H2 Hp Hmc Hdc.
  eexists. split; [apply (normalise_forward_formula s data mn sd); assumption|].
  split.
  - rewrite (per_channel_nth (fun x m d => s_div (s_sub x m) d) _ _ _ _ _ _ _ Hp Hmc Hdc).
    f_equal. unfold plane_map. apply map_ext; intros r. apply map_ext; intros x.
    destruct x as [a|], m as [b|]; reflexivity.
  - intros c' p' m' d' _ Hp' Hm' Hd'.
    apply (per_channel_nth (fun x m d => s_div (s_sub x m) d)); assumption.
Qed.

(* ================================================================== *)
(** * Further properties of [load_statistics] *)

(** X7.  A missing file stops [load_statistics] with [OSError]: without
    [global_means.npy] nothing is set and only that load is tried;
    without [global_stds.npy] the means are already in place (cut and
    converted) and [self.stds] is as it was. *)
Theorem X7_load_statistics_missing_file :
  forall (s : Self) (evs : list Event),
    (npy_files (path_join (assets s) "global_means.npy") = None ->
     load_statistics {| self := s; events := evs |}
     = (Raise OSError,
        {| self := s;
           events := EvNpLoad (path_join (assets s) "global_means.npy") :: evs |}))
    /\ (forall m,
          npy_files (path_join (assets s) "global_means.npy") = Some m ->
          npy_files (path_join (assets s) "global_stds.npy") = None ->
          load_statistics {| self := s; events := evs |}
          = (Raise OSError,
             {| self := set_means
                          (astype_float32 (slice_channels (backbone_channels s) m)) s;
                events := EvNpLoad (path_join (assets s) "global_stds.npy")
                          :: EvNpLoad (path_join (assets s) "global_means.npy")
                          :: evs |})).
Proof.
  intros s evs. split.
  - intros Hm.
    cbv [load_statistics bind get_self np_load modify_self get_means get_stds
         emit ret lift];
    cbn [self events set_means set_stds means stds assets backbone_channels attr].
    rewrite Hm. reflexivity.
  - intros m Hm Hs.
    cbv [load_statistics bind get_self np_load modify_self get_means get_stds
         emit ret lift];
    cbn [self events set_means set_stds means stds assets backbone_channels attr].
    rewrite Hm.
    cbv [load_statistics bind get_self np_load modify_self get_means get_stds
         emit ret lift];
    cbn [self events set_means set_stds means stds assets backbone_channels attr].
    rewrite Hs. reflexivity.
Qed.

(** X8.  Statistics files of [n] channels each: [load_statistics]
    succeeds whatever [n] is; afterwards a tensor of 73 channels is
    normalised when [n >= 73] (the channels beyond the 73rd are never
    looked at) and refused with [ValueError] when [1 < n < 73]. *)
Theorem X8_statistics_files_channel_count :
  forall (s : Self) (evs : list Event) (m sd : StatArray) (n : nat),
    backbone_channels s = 73 ->
    npy_files (path_join (assets s) "global_means.npy") = Some m ->
    npy_files (path_join (assets s) "global_stds.npy") = Some sd ->
    length (entries m) = n -> length (entries sd) = n ->
    exists w',
      load_statistics {| self := s; events := evs |} = (Ok tt, w')
      /\ forall data,
           length data = 73 ->
           (73 <= n ->
            normalise (self w') data false
            = Ok (per_channel (fun x m d => s_div (s_sub x m) d) data
                    (map round_f32 (firstn 73 (entries m)))
                    (map round_f32 (firstn 73 (entries sd)))))
           /\ (1 < n < 73 -> normalise (self w') data false = Raise ValueError).
Proof.
  intros s evs m sd n Hbc Hm Hs Lm Ls.
  eexists. split; [apply (load_statistics_ok s evs m sd Hm Hs)|].
  cbn [self]. rewrite Hbc. intros data Ld. split.
  - intros Hn.
    apply (normalise_forward_formula _ data
             (astype_float32 (slice_channels 73 m))
             (astype_float32 (slice_channels 73 sd))); try reflexivity.
    + cbn [astype_float32 slice_channels entries].
      rewrite length_map, length_firstn. lia.
    + cbn [astype_float32 slice_channels entries].
      rewrite !length_map, !length_firstn. lia.
  - intros Hn.
    apply (normalise_mismatch _ data
             (astype_float32 (slice_channels 73 m))
             (astype_float32 (slice_channels 73 sd)) false); try reflexivity;
      cbn [astype_float32 slice_channels entries];
      rewrite ?length_map, ?length_firstn; lia.
Qed.

(* ================================================================== *)
(** * Further properties of [load_model] *)

(** X9.  Without a checkpoint file [load_model] raises [OSError], and
    with a checkpoint that has no "model_state" entry it raises
    [KeyError] (the lookup before the [try] block is not guarded); in
    both cases no weights are loaded into the network. *)
Theorem X9_load_model_without_state :
  forall (path : string) (s : Self) (evs : list Event),
    (checkpoint_files path = None ->
     load_model path {| self := s; events := evs |}
     = (Raise OSError, {| self := s; events := EvTorchLoad path :: evs |}))
    /\ (forall ckpt,
          checkpoint_files path = Some ckpt ->
          dict_get ckpt "model_state" = None ->
          load_model path {| self := s; events := evs |}
          = (Raise KeyError, {| self := s; events := EvTorchLoad path :: evs |})).
Proof.
  intros path s evs. split.
  - intros Hf.
    cbv [load_model bind torch_load net_load emit lift ret dict_item];
    cbn [self events].
    rewrite Hf. reflexivity.
  - intros ckpt Hf Hms.
    cbv [load_model bind torch_load net_load emit lift ret dict_item];
    cbn [self events].
    rewrite Hf. rewrite Hms. reflexivity.
Qed.

(** X10.  The exception of the first load is swallowed.  When both
    loads raise, [load_model] raises the exception of the second one,
    after exactly two attempts: the stripped dictionary, then the
    dictionary of the checkpoint, given to the object as the first
    attempt left it. *)
Theorem X10_load_model_second_exception :
  forall (path : string) (ckpt : pydict (pydict Weight)) (ms : pydict Weight)
         (net1 net2 : Net) (e1 e2 : PyError) (s : Self) (evs : list Event),
    checkpoint_files path = Some ckpt ->
    dict_get ckpt "model_state" = Some ms ->
    load_state_dict new_net (strip_prefix ms) = (net1, Raise e1) ->
    load_state_dict net1 ms = (net2, Raise e2) ->
    load_model path {| self := s; events := evs |}
    = (Raise e2,
       {| self := s;
          events := EvLoadStateDict ms :: EvLoadStateDict (strip_prefix ms)
                    :: EvTorchLoad path :: evs |}).
Proof.
  intros path ckpt ms net1 net2 e1 e2 s evs Hf Hms H1 H2.
  rewrite (load_model_fallback path ckpt ms net1 e1 s evs Hf Hms H1).
  now rewrite H2.
Qed.

Lemma dict_get_None_keys {V} (d : pydict V) (k : string) :
  dict_get d k = None <-> ~ In k (dict_keys d).
Proof.
  induction d as [|[k0 v0] d IH]; simpl; [tauto|].
  destruct (String.eqb_spec k0 k) as [E|E].
  - split; [discriminate|]. intros H. exfalso. apply H. now left.
  - rewrite IH. tauto.
Qed.

Lemma dict_set_keys {V} (d : pydict V) (k : string) (v : V) :
  dict_keys (dict_set d k v)
  = if str_mem k (dict_keys d) then dict_keys d else dict_keys d ++ [k].
Proof.
  induction d as [|[k0 v0] d IH]; simpl; [reflexivity|].
  rewrite (String.eqb_sym k k0).
  destruct (String.eqb k0 k); simpl; [reflexivity|].
  unfold dict_keys in *. rewrite IH.
  destruct (str_mem k (map fst d)); reflexivity.
Qed.

Lemma dict_set_keys_nodup {V} (d : pydict V) (k : string) (v : V) :
  NoDup (dict_keys d) -> NoDup (dict_keys (dict_set d k v)).
Proof.
  intros H. rewrite dict_set_keys.
  destruct (str_mem k (dict_keys d)) eqn:E; [assumption|].
  apply NoDup_app; [assumption|repeat constructor; intros []|].
  intros x Hx [<-|[]]. apply str_mem_In in Hx. congruence.
Qed.

Lemma dict_set_length {V} (d : pydict V) (k : string) (v : V) :
  length (dict_set d k v) <= S (length d).
Proof.
  induction d as [|[k0 v0] d IH]; simpl; [lia|].
  destruct (String.eqb k0 k); simpl; lia.
Qed.

Lemma dict_set_fresh {V} (d : pydict V) (k : string) (v : V) :
  ~ In k (dict_keys d) -> dict_set d k v = d ++ [(k, v)].
Proof.
  induction d as [|[k0 v0] d IH]; simpl; intros H; [reflexivity|].
  destruct (String.eqb_spec k0 k) as [E|E]; [exfalso; apply H; now left|].
  f_equal. apply IH. intros Hin. apply H. now right.
Qed.

Lemma strip_fold_wellformed (l : list (string * Weight)) :
  forall d,
    NoDup (dict_keys d) ->
    NoDup (dict_keys (fold_left strip_step l d))
    /\ length (fold_left strip_step l d) <= length d + length l.
Proof.
  induction l as [|kv l IH]; intros d Hd; simpl; [split; [assumption|lia]|].
  assert (Hstep : NoDup (dict_keys (strip_step d kv))
                  /\ length (strip_step d kv) <= S (length d)).
  { unfold strip_step.
    destruct (negb (String.eqb (str_drop 7 (fst kv)) "ged")).
    - split; [now apply dict_set_keys_nodup|apply dict_set_length].
    - split; [assumption|lia]. }
  destruct Hstep as [Hn Hl]. destruct (IH _ Hn) as [H1 H2]. split; [assumption|lia].
Qed.

(** X11.  Whatever the checkpoint holds, the dictionary built in the
    [try] block is a proper dictionary: no name twice, never the name
    "ged", and no more entries than the checkpoint has. *)
Theorem X11_stripped_dictionary_wellformed :
  forall (ms : pydict Weight),
    NoDup (dict_keys (strip_prefix ms))
    /\ ~ In "ged" (dict_keys (strip_prefix ms))
    /\ length (strip_prefix ms) <= length ms.
Proof.
  intros ms. unfold strip_prefix.
  destruct (strip_fold_wellformed ms [] (NoDup_nil _)) as [H1 H2].
  split; [assumption|]. split; [|exact H2].
  apply dict_get_None_keys. rewrite strip_fold_get. reflexivity.
Qed.

Lemma strip_fold_prefixed (l : list (string * Weight)) :
  forall d,
    NoDup (dict_keys d ++ map fst l) ->
    ~ In "ged" (map fst l) ->
    fold_left strip_step
      (map (fun kv => (String.append "module." (fst kv), snd kv)) l) d
    = d ++ l.
Proof.
  induction l as [|[k v] l IH]; intros d Hnd Hged; [simpl; now rewrite app_nil_r|].
  assert (Hfresh : ~ In k (dict_keys d)).
  { intros Hin. apply NoDup_remove_2 in Hnd. apply Hnd.
    apply in_or_app. now left. }
  assert (Hs : strip_step d (String.append "module." k, v) = d ++ [(k, v)]).
  { unfold strip_step. cbn [fst snd].
    change (str_drop 7 (String.append "module." k)) with k.
    destruct (String.eqb_spec k "ged") as [E|E];
      [exfalso; apply Hged; left; exact E|]. cbn [negb].
    now apply dict_set_fresh. }
  cbn [map fold_left fst snd]. rewrite Hs. rewrite IH.
  - now rewrite <- app_assoc.
  - unfold dict_keys in *. rewrite map_app. cbn [map fst].
    rewrite <- app_assoc. exact Hnd.
  - intros Hin. apply Hged. now right.
Qed.

(** X12.  Stripping undoes prefixing: a dictionary (distinct names,
    none of them "ged") whose every key is given the prefix "module."
    comes back from the [try] block as it was, entries and order. *)
Theorem X12_strip_undoes_prefix :
  forall (d : pydict Weight),
    NoDup (dict_keys d) -> ~ In "ged" (dict_keys d) ->
    strip_prefix (map (fun kv => (String.append "module." (fst kv), snd kv)) d) = d.
Proof.
  intros d Hnd Hged. unfold strip_prefix.
  rewrite strip_fold_prefixed; [reflexivity|exact Hnd|exact Hged].
Qed.

(* ================================================================== *)
(** * Further properties of the input preparation *)

Lemma unique_by_name {A} (g : A -> string) (l : list A) (n : string) (a b : A) :
  count_occ string_dec (map g l) n = 1 ->
  In a l -> In b l -> g a = n -> g b = n -> a = b.
Proof.
  induction l as [|x l IH]; intros Hc Ha Hb Ga Gb; [contradiction|].
  simpl in Hc. destruct (string_dec (g x) n) as [E|E].
  - assert (Hnot : ~ In n (map g l)).
    { apply (count_occ_not_In string_dec). lia. }
    assert (Hx : forall y, In y (x :: l) -> g y = n -> y = x).
    { intros y [Hy|Hy] Gy; [now symmetry|].
      exfalso. apply Hnot. rewrite <- Gy. now apply in_map. }
    rewrite (Hx a Ha Ga), (Hx b Hb Gb). reflexivity.
  - destruct Ha as [Ha|Ha]; [subst; contradiction|].
    destruct Hb as [Hb|Hb]; [subst; contradiction|].
    now apply IH.
Qed.

Lemma same_names_same_fields (fs : list Field) :
  forall (l l' : list Field),
    map param_level l = map param_level l' ->
    (forall f, In f l -> In f fs) -> (forall f, In f l' -> In f fs) ->
    (forall f, In f l ->
               count_occ string_dec (map param_level fs) (param_level f) = 1) ->
    l = l'.
Proof.
  induction l as [|f l IH]; intros [|f' l'] Hn Hl Hl' Hc; simpl in Hn;
    try discriminate; [reflexivity|].
  inversion Hn as [[Hf Hrest]]. f_equal.
  - apply (unique_by_name param_level fs (param_level f)).
    + apply Hc. now left.
    + apply Hl. now left.
    + apply Hl'. now left.
    + reflexivity.
    + now symmetry.
  - apply IH; [assumption| | |].
    + intros g Hg. apply Hl. now right.
    + intros g Hg. apply Hl'. now right.
    + intros g Hg. apply Hc. now right.
Qed.

(** X13.  The order in which the host hands over the fields does not
    matter: two field lists that are permutations of each other (each
    name of [ordering_cml] on exactly one field) give the same selected
    fields and the same tensor. *)
Theorem X13_field_order_is_irrelevant :
  forall (s s' : Self) (fs fs' : list Field),
    all_fields s = FieldList fs -> all_fields s' = FieldList fs' ->
    Permutation fs fs' ->
    (forall n, In n ordering_cml ->
               count_occ string_dec (map param_level fs) n = 1) ->
    prepare_input s' = prepare_input s.
Proof.
  intros s s' fs fs' Hs Hs' Hperm Honce.
  assert (Honce' : forall n, In n ordering_cml ->
                     count_occ string_dec (map param_level fs') n = 1).
  { intros n Hn. rewrite <- (Honce n Hn). symmetry.
    apply Permutation_count_occ. now apply Permutation_map. }
  assert (Heq : fl_order_by ordering_cml (fl_sel ordering_cml fs')
                = fl_order_by ordering_cml (fl_sel ordering_cml fs)).
  { apply (same_names_same_fields fs).
    - rewrite !selected_in_order; auto using ordering_cml_nodup.
    - intros f Hf. apply (Permutation_in _ (Permutation_sym Hperm)).
      now apply (ordered_from_input ordering_cml fs').
    - apply ordered_from_input.
    - intros f Hf. apply Honce.
      apply (Permutation_in _ (sort_by_perm _ _)) in Hf.
      apply (fl_sel_In ordering_cml fs') in Hf. tauto. }
  unfold prepare_input. rewrite Hs, Hs', Heq. reflexivity.
Qed.

(** X14.  Fields whose name is not in [ordering_cml] never reach the
    tensor: handing over more of them changes nothing. *)
Theorem X14_other_fields_are_ignored :
  forall (s s' : Self) (fs extra : list Field),
    all_fields s = FieldList fs ->
    all_fields s' = FieldList (fs ++ extra) ->
    (forall f, In f extra -> ~ In (param_level f) ordering_cml) ->
    prepare_input s' = prepare_input s.
Proof.
  intros s s' fs extra Hs Hs' Hextra.
  assert (Hsel : fl_sel ordering_cml (fs ++ extra) = fl_sel ordering_cml fs).
  { unfold fl_sel. rewrite filter_app.
    replace (filter (fun f => str_mem (param_level f) ordering_cml) extra)
      with (@nil Field); [apply app_nil_r|].
    symmetry. clear Hs'. induction extra as [|f extra IH]; [reflexivity|].
    cbn [filter]. destruct (str_mem (param_level f) ordering_cml) eqn:E.
    - exfalso. apply (Hextra f (or_introl eq_refl)). now apply str_mem_In.
    - apply IH. intros g Hg. apply Hextra. now right. }
  unfold prepare_input. rewrite Hs, Hs', Hsel. reflexivity.
Qed.

Lemma sort_by_length {A} (key : A -> nat) (l : list A) :
  length (sort_by key l) = length l.
Proof. apply Permutation_length, sort_by_perm. Qed.

(** X15.  A missing field is not made up for.  When no field carries
    some name of [ordering_cml] (no name is carried twice, and at least
    one field is selected), the tensor has at least one and fewer than
    73 channels, and normalising it with statistics of 73 channels
    raises [ValueError] (unless a single channel is left, which numpy
    stretches). *)
Theorem X15_missing_field_fails_at_normalise :
  forall (s : Self) (fs : list Field) (n : string) (mn sd : StatArray),
    all_fields s = FieldList fs ->
    In n ordering_cml -> ~ In n (map param_level fs) ->
    (exists f, In f fs /\ In (param_level f) ordering_cml) ->
    NoDup (map param_level fs) ->
    (forall f g, In f fs -> In g fs ->
                 same_shape (f_values f) (f_values g) = true) ->
    means s = Some mn -> stds s = Some sd ->
    length (entries mn) = 73 -> length (entries sd) = 73 ->
    exists afl t,
      prepare_input s = Ok (afl, t)
      /\ 0 < length t < 73
      /\ (length t <> 1 -> normalise s t false = Raise ValueError).
Proof.
  intros s fs n mn sd Hs Hn Hmiss [f0 Hf0] Hnd Hshape Hm Hsd Lm Ls.
  set (sel := fl_order_by ordering_cml (fl_sel ordering_cml fs)).
  assert (Hin : forall f, In f sel -> In f fs /\ In (param_level f) ordering_cml).
  { intros f Hf. apply (Permutation_in _ (sort_by_perm _ _)) in Hf.
    now apply fl_sel_In in Hf. }
  assert (Hlen : length sel < 73).
  { assert (Hnd' : NoDup (n :: map param_level (fl_sel ordering_cml fs))).
    { constructor.
      - intros H. apply in_map_iff in H. destruct H as [f [<- Hf]].
        apply fl_sel_In in Hf. apply Hmiss. apply in_map. tauto.
      - unfold fl_sel. clear - Hnd. induction fs as [|f fs IH]; [constructor|].
        cbn [filter map] in *. inversion Hnd; subst.
        destruct (str_mem (param_level f) ordering_cml); [|now apply IH].
        cbn [map]. constructor; [|now apply IH].
        intros H. apply H1. apply in_map_iff in H. destruct H as [g [E Hg]].
        apply filter_In in Hg. apply in_map_iff. exists g. tauto. }
    assert (Hincl : incl (n :: map param_level (fl_sel ordering_cml fs)) ordering_cml).
    { intros x [<-|Hx]; [assumption|].
      apply in_map_iff in Hx. destruct Hx as [f [<- Hf]].
      apply fl_sel_In in Hf. tauto. }
    apply (NoDup_incl_length Hnd') in Hincl. simpl in Hincl.
    rewrite length_map in Hincl. unfold sel, fl_order_by.
    rewrite sort_by_length. change (length ordering_cml) with 73 in Hincl. lia. }
  assert (Hpos : 0 < length sel).
  { unfold sel, fl_order_by. rewrite sort_by_length.
    apply fl_sel_In in Hf0.
    destruct (fl_sel ordering_cml fs); [contradiction|simpl; lia]. }
  exists (LFields sel), (map (fun f => plane_map round_f32 (f_values f)) sel).
  split; [|split].
  - unfold prepare_input. rewrite Hs. fold sel. unfold fl_to_numpy.
    rewrite np_stack_same_shape; [reflexivity|].
    intros p q Hp Hq. apply in_map_iff in Hp, Hq.
    destruct Hp as [f [<- Hf]]. destruct Hq as [g [<- Hg]].
    rewrite same_shape_map. apply Hshape; now apply Hin.
  - rewrite length_map. lia.
  - intros H1. apply (normalise_mismatch s _ mn sd false Hm Hsd);
      rewrite ?length_map in *; lia.
Qed.

Lemma rmap_first_raise {A B} (f : A -> Result B) (l : list A) (e0 : PyError) (a : A) :
  (forall x e, f x = Raise e -> e = e0) ->
  In a l -> f a = Raise e0 -> rmap f l = Raise e0.
Proof.
  intros Honly. induction l as [|x l IH]; intros Hin Ha; [contradiction|]. simpl.
  destruct (f x) as [b|e] eqn:Hx; cbn [rbind].
  - destruct Hin as [->|Hin]; [congruence|]. now rewrite (IH Hin Ha).
  - now rewrite (Honly x e Hx).
Qed.

(** X16.  The list input is read by position and by name: an empty
    list raises [IndexError], and a first dataset that lacks one of the
    surface variables raises [KeyError]. *)
Theorem X16_list_input_errors :
  forall (s : Self),
    (all_fields s = XrList [] -> prepare_input s = Raise IndexError)
    /\ (forall sfc rest f,
          all_fields s = XrList (sfc :: rest) ->
          In f param_sfc_xr -> dict_get (ds_vars sfc) f = None ->
          prepare_input s = Raise KeyError).
Proof.
  intros s. split.
  - intros Hl. unfold prepare_input. rewrite Hl. reflexivity.
  - intros sfc rest f Hl Hf Hnone. unfold prepare_input. rewrite Hl.
    cbn [list_item nth_error rbind]. unfold ds_select.
    rewrite (rmap_first_raise _ param_sfc_xr KeyError f); [reflexivity| |assumption|].
    + intros x e. unfold dict_item.
      destruct (dict_get (ds_vars sfc) x); cbn [rbind]; [discriminate|].
      intros H; now inversion H.
    + unfold dict_item. now rewrite Hnone.
Qed.

(* ================================================================== *)
(** * Further properties of the inference loop *)

(** X17.  A lead time shorter than one step runs nothing: for
    [lead_time < hour_steps] (zero and negative lead times included) the
    loop makes no forward pass, no write and no stepper call, and hands
    back its input and an empty list of outputs. *)
Theorem X17_short_lead_time_runs_nothing :
  forall (model : Net) (afl : LocalFields) (input : tensor) (s : Self)
         (evs : list Event),
    (0 < hour_steps s)%Z -> (lead_time s < hour_steps s)%Z ->
    inference_loop model afl input {| self := s; events := evs |}
    = (Ok {| input_iter := input; outputs := [] |},
       {| self := s; events := evs |}).
Proof.
  intros model afl input s evs Hh Hlt. unfold inference_loop.
  rewrite bind_get_self; cbn [self]. unfold floordiv.
  destruct (Z.eqb_spec (hour_steps s) 0) as [E|_]; [lia|].
  rewrite bind_lift_ok. unfold range.
  assert (Hn : Z.to_nat (lead_time s / hour_steps s) = 0).
  { destruct (Z_lt_le_dec (lead_time s) 0) as [Hneg|Hpos].
    - assert (lead_time s / hour_steps s < 0)%Z by (apply Z.div_lt_upper_bound; lia).
      lia.
    - rewrite Z.div_small by lia. reflexivity. }
  rewrite Hn. reflexivity.
Qed.

Lemma flat_map_const_length {A B} (h : A -> list B) (c : nat) (l : list A) :
  (forall d, length (h d) = c) -> length (flat_map h l) = length l * c.
Proof.
  intros H. induction l as [|a l IH]; simpl; [reflexivity|].
  now rewrite length_app, H, IH.
Qed.

Lemma enumerate_length {A} (l : list A) : length (enumerate l) = length l.
Proof. unfold enumerate. rewrite length_combine, length_seq. lia. Qed.

Lemma all_writes_iteration (s : Self) (items : list (Field + XrVar))
    (x : tensor) (i : Z) (den : tensor) :
  length (all_writes (iteration_events s items x i den))
  = if is_list (all_fields s) then 0 else length items.
Proof.
  unfold iteration_events, all_writes. rewrite !flat_map_app.
  cbn [flat_map app]. rewrite app_nil_r.
  destruct (is_list (all_fields s)); [reflexivity|].
  unfold write_events. rewrite flat_map_concat_map, map_map.
  rewrite <- flat_map_concat_map, flat_map_singletons.
  now rewrite length_map, enumerate_length.
Qed.

Lemma all_writes_loop (model : Net) (afl : LocalFields) (s : Self)
    (mn sd : StatArray) (k n : nat) (x : tensor) :
  length (all_writes (loop_events model afl s mn sd k n x))
  = n * (if is_list (all_fields s) then 0 else length (local_items afl)).
Proof.
  unfold loop_events, all_writes. rewrite flat_map_flat_map.
  rewrite (flat_map_const_length _
             (if is_list (all_fields s) then 0 else length (local_items afl))).
  - now rewrite length_seq.
  - intros d. apply all_writes_iteration.
Qed.

(** X18.  The totals of a loop of [n = lead_time // hour_steps]
    iterations: [n] forward passes; [n] stepper calls, for the indices
    0 .. n-1 with the steps [hour_steps], 2 * [hour_steps], ...; on the
    list path [n] outputs and not a single write; on the field-list path
    no output kept and one write per field and iteration. *)
Theorem X18_loop_totals :
  forall (model : Net) (afl : LocalFields) (s : Self) (mn sd : StatArray)
         (input : tensor) (evs : list Event),
    debug_enabled = false ->
    means s = Some mn -> stds s = Some sd ->
    length (entries mn) = length input ->
    length (entries sd) = length input ->
    (forall x, length x = length input -> length (forward model x) = length input) ->
    (is_list (all_fields s) = false -> length (local_items afl) <= length input) ->
    hour_steps s <> 0%Z ->
    exists v new,
      inference_loop model afl input {| self := s; events := evs |}
      = (Ok v, {| self := s; events := rev new ++ evs |})
      /\ length (forward_inputs new) = Z.to_nat (lead_time s / hour_steps s)
      /\ stepper_calls new
         = map (fun d => (Z.of_nat d, ((Z.of_nat d + 1) * hour_steps s)%Z))
             (seq 0 (Z.to_nat (lead_time s / hour_steps s)))
      /\ length (outputs v)
         = (if is_list (all_fields s)
            then Z.to_nat (lead_time s / hour_steps s) else 0)
      /\ length (all_writes new)
         = Z.to_nat (lead_time s / hour_steps s)
           * (if is_list (all_fields s) then 0 else length (local_items afl))
      /\ files_loaded new = [] /\ state_dicts_loaded new = []
      /\ netcdf_written new = [].
Proof.
  intros model afl s mn sd input evs Hdbg Hmn Hsd Lmn Lsd Hfw Hitems Hh.
  eexists; eexists; split.
  - apply (inference_loop_ok model afl s mn sd (length input)); auto.
  - cbn [outputs].
    rewrite (forward_inputs_loop model afl s mn sd (length input) Hitems).
    rewrite (stepper_calls_loop model afl s mn sd (length input) Hitems).
    rewrite all_writes_loop, loop_loads_nothing, loop_loads_no_weights.
    rewrite length_map, length_seq.
    repeat split.
    + unfold loop_outputs. destruct (is_list (all_fields s)); [|reflexivity].
      now rewrite length_map, length_seq.
    + apply flat_map_nil. intros e He. apply loop_events_kinds in He.
      destruct e; try contradiction; reflexivity.
Qed.

(** X19.  With debug logging on and no [ordering] attribute on the
    object, any run of at least one step stops in its first iteration:
    one forward pass is made, then [AttributeError] is raised, before
    anything is written or the stepper is called. *)
Theorem X19_debug_logging_stops_the_loop :
  forall (model : Net) (afl : LocalFields) (input : tensor) (s : Self)
         (evs : list Event),
    debug_enabled = true -> inherited_ordering = None ->
    (0 < hour_steps s)%Z -> (hour_steps s <= lead_time s)%Z ->
    inference_loop model afl input {| self := s; events := evs |}
    = (Raise AttributeError,
       {| self := s; events := EvForward input :: evs |}).
Proof.
  intros model afl input s evs Hdbg Hord Hh Hlt. unfold inference_loop.
  rewrite bind_get_self; cbn [self]. unfold floordiv.
  destruct (Z.eqb_spec (hour_steps s) 0) as [E|_]; [lia|].
  rewrite bind_lift_ok. unfold range.
  assert (Hn : exists k, Z.to_nat (lead_time s / hour_steps s) = S k).
  { assert (1 <= lead_time s / hour_steps s)%Z
      by (apply Z.div_le_lower_bound; lia).
    exists (Z.to_nat (lead_time s / hour_steps s) - 1). lia. }
  destruct Hn as [k Hk]. rewrite Hk. cbn [seq map loop].
  change (Z.of_nat 0) with 0%Z.
  rewrite (bind_of_eq _ _ _ _ _
             (loop_body_debug_without_ordering model afl _ s evs Hdbg Hord)).
  reflexivity.
Qed.





(* ================================================================== *)
(** * Further properties of the dataset assembly *)

(** X20.  On the list path, for a lead time of [n >= 1] whole steps of
    six hours and outputs on the 721 x 1440 grid, the NetCDF writer is
    called exactly once, with the thirteen variables [u10 .. tcwv] and
    [u v z t r]: surface variable [i] is channel [i] of every output,
    level variable [j] is made of the channels [8 + 13 j .. 8 + 13 j + 12],
    the time coordinate runs over start + 6, start + 12, ..., and the
    level coordinate is the list of levels reversed. *)
Theorem X20_whole_steps_dataset :
  forall (s : Self) (evs : list Event) (sfc pl : XrDataset)
         (rest : list XrDataset) (outs : list tensor)
         (t0 start : Z) (ts vs : list Z) (folder : string),
    all_fields s = XrList (sfc :: pl :: rest) ->
    Forall output_ready outs -> outs <> [] ->
    lead_time s = (6 * Z.of_nat (length outs))%Z ->
    length (ds_latitude sfc) = 721 -> length (ds_longitude sfc) = 1440 ->
    ds_time pl = t0 :: ts -> ds_valid_time sfc = start :: vs ->
    fourcastnet_folder = Ok folder ->
    exists w' ds,
      assemble outs {| self := s; events := evs |} = (Ok tt, w')
      /\ self w' = s
      /\ events w' = EvToNetcdf (netcdf_name folder start (lead_time s)) ds :: evs
      /\ dict_keys (out_vars ds) = param_sfc_xr ++ fst param_level_pl
      /\ (forall i, i < 8 ->
            dict_get (out_vars ds) (nth i param_sfc_xr EmptyString)
            = Some (dims3, Var3 (map (fun out => nth i out []) outs)))
      /\ (forall j, j < 5 ->
            dict_get (out_vars ds) (nth j (fst param_level_pl) EmptyString)
            = Some (dims4,
                    Var4 (map (fun out =>
                                 map (fun k => nth (8 + 13 * j + k) out []) (seq 0 13))
                              outs)))
      /\ out_time ds
         = map (fun k => (t0 + (Z.of_nat k + 1) * 6)%Z) (seq 0 (length outs))
      /\ out_level_name ds = "isobaricInhPa"
      /\ out_level ds = [50; 100; 150; 200; 250; 300; 400; 500; 600; 700;
                         850; 925; 1000]%Z
      /\ out_lat ds = ds_latitude sfc /\ out_lon ds = ds_longitude sfc.
Proof.
  intros s evs sfc pl rest outs t0 start ts vs folder
         Hl Hready Hne Hlead Hlat Hlon Ht Hv Hf.
  eexists. eexists. split;
    [apply (assemble_whole_steps s evs sfc pl rest outs t0 start ts vs folder);
     assumption|].
  cbn [self events out_vars out_time out_level_name out_level out_lat out_lon].
  repeat split.
  - intros i Hi.
    do 8 (destruct i as [|i]; [reflexivity|]). lia.
  - intros j Hj.
    do 5 (destruct j as [|j]; [reflexivity|]). lia.
Qed.

(** X21.  On the list path every positive lead time that is not a
    multiple of six ends in [ValueError] once the forward passes are
    done: for outputs on the 721 x 1440 grid the time coordinate is one
    entry longer than the list of outputs, [xr.Dataset] refuses the
    variables against it, and no dataset is written. *)
Theorem X21_partial_step_never_written :
  forall (s : Self) (evs : list Event) (sfc pl : XrDataset)
         (rest : list XrDataset) (outs : list tensor) (t0 : Z) (ts : list Z),
    all_fields s = XrList (sfc :: pl :: rest) ->
    Forall output_ready outs ->
    (0 < lead_time s)%Z -> (lead_time s mod 6 <> 0)%Z ->
    length outs = Z.to_nat (lead_time s / 6) ->
    ds_time pl = t0 :: ts ->
    length (np_arange 6 (lead_time s + 6) 6) = S (length outs)
    /\ xr_Dataset (expected_vars outs) (ds_longitude sfc) (ds_latitude sfc)
         (map (fun st => (t0 + st)%Z) (np_arange 6 (lead_time s + 6) 6))
         (rev (snd param_level_pl))
       = Raise ValueError
    /\ assemble outs {| self := s; events := evs |}
       = (Raise ValueError, {| self := s; events := evs |}).
Proof. exact assemble_partial_step_value_error. Qed.

(** X22.  With no output at all (a lead time below six hours) the list
    path cannot build its dataset either: [assemble] raises and writes
    nothing. *)
Theorem X22_no_output_no_dataset :
  forall (s : Self) (evs : list Event) (l : list XrDataset),
    all_fields s = XrList l ->
    exists e,
      assemble [] {| self := s; events := evs |}
      = (Raise e, {| self := s; events := evs |}).
Proof.
  intros s evs l Hl.
  unfold assemble. rewrite bind_get_self; cbn [self]. rewrite Hl.
  rewrite (assemble_loop_ready [] (Forall_nil _)). cbv beta iota.
  rewrite bind_lift_ok.
  match goal with |- context [lift (rmap ?f ?steps)] =>
    destruct (rmap f steps) as [times|e] eqn:Ht end.
  2:{ rewrite bind_lift_raise. eauto. }
  rewrite bind_lift_ok.
  destruct (list_item l 0) as [sfc|e]; [|rewrite bind_lift_raise; eauto].
  rewrite bind_lift_ok.
  assert (Hds : xr_Dataset (expected_vars []) (ds_longitude sfc) (ds_latitude sfc)
                  times (rev (snd param_level_pl)) = Raise ValueError)
    by reflexivity.
  rewrite Hds, bind_lift_raise. eauto.
Qed.

(** X23.  The orderings are generated by the parameter lists.  Past the
    eight surface names both orderings are, parameter by parameter, the
    parameter name followed by each level from 50 up to 1000 (the level
    coordinate written with the dataset); the surface names of
    [ordering_xr] are [param_sfc_xr] and those of [ordering_cml] are
    [param_sfc] in another order.  So the fields [ordering_cml] selects
    are exactly those named by [param_sfc] and [param_level_pl]. *)
Theorem X23_orderings_from_parameter_lists :
  skipn 8 ordering_cml
  = flat_map (fun q => map (fun l => String.append q (z_str l))
                         (rev (snd param_level_pl)))
      (fst param_level_pl)
  /\ skipn 8 ordering_xr = skipn 8 ordering_cml
  /\ firstn 8 ordering_xr = param_sfc_xr
  /\ Permutation (firstn 8 ordering_cml) param_sfc
  /\ Permutation ordering_cml
       (param_sfc
        ++ flat_map (fun q => map (fun l => String.append q (z_str l))
                               (snd param_level_pl))
             (fst param_level_pl)).
Proof.
  assert (Hsfc : Permutation (firstn 8 ordering_cml) param_sfc).
  { apply (NoDup_Permutation_bis).
    - apply str_nodupb_sound. vm_compute. reflexivity.
    - vm_compute. lia.
    - intros x Hx. cbn in Hx.
      repeat (destruct Hx as [<-|Hx]; [cbn; tauto|]). contradiction. }
  split; [vm_compute; reflexivity|].
  split; [vm_compute; reflexivity|].
  split; [vm_compute; reflexivity|].
  split; [exact Hsfc|].
  rewrite <- (firstn_skipn 8 ordering_cml) at 1.
  apply Permutation_app; [exact Hsfc|].
  apply (NoDup_Permutation_bis).
  - apply str_nodupb_sound. vm_compute. reflexivity.
  - vm_compute. lia.
  - intros x Hx.
    apply (proj1 (str_mem_In x _)).
    revert x Hx.
    apply (proj1 (forallb_forall
                    (fun x => str_mem x
                       (flat_map (fun q => map (fun l => String.append q (z_str l))
                                             (snd param_level_pl))
                          (fst param_level_pl)))
                    (skipn 8 ordering_cml))).
    vm_compute. reflexivity.
Qed.

(* ================================================================== *)
(** * Whole runs *)

(** X24.  A whole run on the field-list path.  With both statistics
    files (at least 73 entries each), every name of [ordering_cml]
    carried by exactly one field, fields of one shape, a checkpoint
    whose stripped state the network accepts and a network that keeps
    the 73 channels, [run] returns normally.  It loads, in this order,
    the means, the standard deviations and the checkpoint; it gives the
    network the stripped state only; the tensor of the first forward
    pass is the normalised stack of the selected fields, which are
    fields of the input, one for each name of [ordering_cml] and in
    that order, and pass [d] gets the raw output of pass [d - 1]. *)
Theorem X24_run_on_field_list :
  forall (s : Self) (evs : list Event) (fs : list Field)
         (m sd : StatArray) (ckpt : pydict (pydict Weight)) (ms : pydict Weight)
         (net : Net),
    all_fields s = FieldList fs ->
    backbone_channels s = 73 ->
    hour_steps s <> 0%Z ->
    debug_enabled = false ->
    npy_files (path_join (assets s) "global_means.npy") = Some m ->
    npy_files (path_join (assets s) "global_stds.npy") = Some sd ->
    73 <= length (entries m) -> 73 <= length (entries sd) ->
    (forall n, In n ordering_cml ->
               count_occ string_dec (map param_level fs) n = 1) ->
    (forall f g, In f fs -> In g fs ->
                 same_shape (f_values f) (f_values g) = true) ->
    checkpoint_files (checkpoint_path s) = Some ckpt ->
    dict_get ckpt "model_state" = Some ms ->
    load_state_dict new_net (strip_prefix ms) = (net, Ok tt) ->
    (forall x, length x = 73 -> length (forward net x) = 73) ->
    exists sel input new s',
      run {| self := s; events := evs |}
      = (Ok tt, {| self := s'; events := rev new ++ evs |})
      /\ map param_level sel = ordering_cml
      /\ normalise s' (map (fun f => plane_map round_f32 (f_values f)) sel) false
         = Ok input
      /\ files_loaded new = [path_join (assets s) "global_means.npy";
                             path_join (assets s) "global_stds.npy";
                             checkpoint_path s]
      /\ state_dicts_loaded new = [strip_prefix ms]
      /\ forward_inputs new
         = map (fun d => Nat.iter d (forward net) input)
             (seq 0 (Z.to_nat (lead_time s / hour_steps s)))
      /\ prepare_input s
         = Ok (LFields sel, map (fun f => plane_map round_f32 (f_values f)) sel)
      /\ (forall f, In f sel -> In f fs).
Proof. exact run_field_list. Qed.

(** X25.  The statistics come first in [run]: without
    [global_means.npy], or without [global_stds.npy], the run ends with
    [OSError] and has done nothing but try to read these files; the
    checkpoint is not opened and the network is never called. *)
Theorem X25_run_stops_without_statistics :
  forall (s : Self) (evs : list Event),
    (npy_files (path_join (assets s) "global_means.npy") = None
     \/ npy_files (path_join (assets s) "global_stds.npy") = None) ->
    exists s' new,
      run {| self := s; events := evs |}
      = (Raise OSError, {| self := s'; events := rev new ++ evs |})
      /\ stds s' = stds s
      /\ Forall (fun e => exists p, e = EvNpLoad p) new
      /\ forward_inputs new = [] /\ state_dicts_loaded new = []
      /\ all_writes new = [] /\ netcdf_written new = [].
Proof.
  intros s evs H.
  destruct (npy_files (path_join (assets s) "global_means.npy")) as [m|] eqn:Hm.
  - destruct H as [H|H]; [discriminate|].
    exists (set_means (astype_float32 (slice_channels (backbone_channels s) m)) s).
    exists [EvNpLoad (path_join (assets s) "global_means.npy");
            EvNpLoad (path_join (assets s) "global_stds.npy")].
    split.
    + unfold run.
      cbv [load_statistics bind get_self np_load modify_self get_means get_stds
           emit ret lift];
      cbn [self events set_means set_stds means stds assets backbone_channels attr].
      rewrite Hm.
      cbv [load_statistics bind get_self np_load modify_self get_means get_stds
           emit ret lift];
      cbn [self events set_means set_stds means stds assets backbone_channels attr].
      rewrite H. reflexivity.
    + repeat split; try reflexivity.
      repeat constructor; eexists; reflexivity.
  - exists s. exists [EvNpLoad (path_join (assets s) "global_means.npy")].
    split.
    + unfold run.
      cbv [load_statistics bind get_self np_load modify_self get_means get_stds
           emit ret lift];
      cbn [self events set_means set_stds means stds assets backbone_channels attr].
      rewrite Hm. reflexivity.
    + repeat split; try reflexivity.
      repeat constructor; eexists; reflexivity.
Qed.

Lemma plane_fits_lengths (lat lon : nat) :
  forall p q : plane,
    map (@length scalar) q = map (@length scalar) p ->
    plane_fits lat lon q = plane_fits lat lon p.
Proof.
  intros p q H. unfold plane_fits.
  rewrite <- (length_map (@length scalar) q), H, length_map. f_equal.
  revert q H. induction p as [|r p IH]; intros [|r' q] H;
    simpl in H; try discriminate; [reflexivity|].
  injection H as Hr Hq. cbn [forallb]. rewrite Hr. f_equal. now apply IH.
Qed.

Lemma denormalised_ready (mn sd : StatArray) (x : tensor) :
  length (entries mn) = 73 -> length (entries sd) = 73 ->
  output_ready x -> output_ready (denormalised mn sd x).
Proof.
  intros Lm Ls [Lx Hx]. unfold denormalised. split.
  - rewrite per_channel_length; lia.
  - assert (Hshape := per_channel_row_lengths
                        (fun x d m => s_add (s_mul x d) m) x (entries sd) (entries mn)
                        ltac:(lia) ltac:(lia)).
    set (y := per_channel (fun x d m => s_add (s_mul x d) m) x (entries sd) (entries mn))
      in *.
    clearbody y. clear Lx. revert y Hshape.
    induction Hx as [|p x Hp Hx IH]; intros [|q y] Hshape;
      simpl in Hshape; try discriminate; constructor.
    + injection Hshape as Hq _.
      now rewrite (plane_fits_lengths 721 1440 p q Hq).
    + apply IH. now injection Hshape.
Qed.

(** X26.  A whole run on the list path, for a lead time of [n + 1]
    whole steps of six hours.  With both statistics files, the 73
    channels of the two datasets of one shape, a checkpoint whose
    stripped state the network accepts and a network whose output has 73
    channels on the 721 x 1440 grid, [run] returns normally: the first
    forward pass gets the normalised channels in the order of
    [ordering_xr], there are [n + 1] passes, nothing is written through
    the host's [write], and exactly one NetCDF file is written, last of
    all, holding the denormalised output of every pass under the times
    start + 6, start + 12, ... *)
Theorem X26_run_on_dataset_list :
  forall (s : Self) (evs : list Event) (sfc pl : XrDataset) (rest : list XrDataset)
         (m sd : StatArray) (ckpt : pydict (pydict Weight)) (ms : pydict Weight)
         (net : Net) (n : nat) (t0 start : Z) (ts vs : list Z) (folder : string)
         (coord : list Z),
    all_fields s = XrList (sfc :: pl :: rest) ->
    (forall f, In f param_sfc_xr ->
               exists p, dict_get (ds_vars sfc) f = Some (Var3 [p])) ->
    ds_level pl = Some coord ->
    (forall lev, In lev (snd param_level_pl) -> In lev coord) ->
    (forall q, In q (fst param_level_pl) ->
               exists planes, dict_get (ds_vars pl) q = Some (Var4 [planes])) ->
    backbone_channels s = 73 ->
    hour_steps s = 6%Z ->
    lead_time s = (6 * Z.of_nat (S n))%Z ->
    debug_enabled = false ->
    npy_files (path_join (assets s) "global_means.npy") = Some m ->
    npy_files (path_join (assets s) "global_stds.npy") = Some sd ->
    73 <= length (entries m) -> 73 <= length (entries sd) ->
    (forall p q, In p (expected_channels sfc pl) ->
                 In q (expected_channels sfc pl) -> same_shape p q = true) ->
    checkpoint_files (checkpoint_path s) = Some ckpt ->
    dict_get ckpt "model_state" = Some ms ->
    load_state_dict new_net (strip_prefix ms) = (net, Ok tt) ->
    (forall x, length x = 73 -> output_ready (forward net x)) ->
    length (ds_latitude sfc) = 721 -> length (ds_longitude sfc) = 1440 ->
    ds_time pl = t0 :: ts -> ds_valid_time sfc = start :: vs ->
    fourcastnet_folder = Ok folder ->
    exists input new s' mn' sd' ds,
      run {| self := s; events := evs |}
      = (Ok tt, {| self := s'; events := rev new ++ evs |})
      /\ means s' = Some mn' /\ stds s' = Some sd'
      /\ normalise s' (expected_channels sfc pl) false = Ok input
      /\ forward_inputs new
         = map (fun d => Nat.iter d (forward net) input) (seq 0 (S n))
      /\ all_writes new = []
      /\ netcdf_written new = [(netcdf_name folder start (lead_time s), ds)]
      /\ last new (EvNpLoad EmptyString)
         = EvToNetcdf (netcdf_name folder start (lead_time s)) ds
      /\ out_vars ds
         = expected_vars
             (map (fun d => denormalised mn' sd'
                              (forward net (Nat.iter d (forward net) input)))
                  (seq 0 (S n)))
      /\ out_time ds = map (fun k => (t0 + (Z.of_nat k + 1) * 6)%Z) (seq 0 (S n)).
Proof.
  intros s evs sfc pl rest m sd ckpt ms net n t0 start ts vs folder coord
         Hl Hsfc Hcoord Hlevels Hpl Hbc Hhs Hlead Hdbg Hm Hsd Lm Lsd Hshape Hck Hms Hload Hfw
         Hlat Hlon Ht Hv Hfolder.
  set (mn' := astype_float32 (slice_channels (backbone_channels s) m)).
  set (sd' := astype_float32 (slice_channels (backbone_channels s) sd)).
  set (s' := set_stds sd' (set_means mn' s)).
  assert (Lmn' : length (entries mn') = 73).
  { unfold mn', astype_float32, slice_channels. cbn [entries].
    rewrite length_map, length_firstn, Hbc. lia. }
  assert (Lsd' : length (entries sd') = 73).
  { unfold sd', astype_float32, slice_channels. cbn [entries].
    rewrite length_map, length_firstn, Hbc. lia. }
  assert (Hl' : all_fields s' = XrList (sfc :: pl :: rest)) by exact Hl.
  assert (Hprep := prepare_list_input sfc pl coord Hsfc Hcoord Hlevels Hpl s' rest Hl' Hshape
                    ordering_entries_ok).
  set (t := expected_channels sfc pl) in *.
  assert (Lt : length t = 73).
  { unfold t, expected_channels. rewrite length_app, !length_map. reflexivity. }
  assert (Hnorm : normalise s' t false
                  = Ok (per_channel (fun x m d => s_div (s_sub x m) d) t
                          (entries mn') (entries sd')))
    by (apply normalise_forward_formula; try reflexivity; lia).
  set (input := per_channel (fun x m d => s_div (s_sub x m) d) t
                  (entries mn') (entries sd')) in *.
  assert (Linput : length input = 73)
    by (unfold input; rewrite per_channel_length; lia).
  set (afl := LArrays (map (fun p => Var3 [p]) t)) in *.
  assert (Hitems : is_list (all_fields s') = false ->
                   length (local_items afl) <= 73).
  { rewrite Hl'. discriminate. }
  assert (Hfwlen : forall x, length x = 73 -> length (forward net x) = 73).
  { intros x Hx. exact (proj1 (Hfw x Hx)). }
  assert (Hsteps : Z.to_nat (lead_time s' / hour_steps s') = S n).
  { change (lead_time s') with (lead_time s).
    change (hour_steps s') with (hour_steps s).
    rewrite Hlead, Hhs, Z.mul_comm, Z.div_mul by lia. apply Nat2Z.id. }
  assert (Hhs' : hour_steps s' <> 0%Z).
  { change (hour_steps s') with (hour_steps s). rewrite Hhs. discriminate. }
  set (outs := map (fun d => denormalised mn' sd'
                               (forward net (Nat.iter d (forward net) input)))
                   (seq 0 (S n))).
  assert (Houts : loop_outputs net s' mn' sd' (S n) input = outs).
  { unfold loop_outputs. rewrite Hl'. reflexivity. }
  assert (Hiter : forall d, length (Nat.iter d (forward net) input) = 73).
  { induction d as [|d IH]; [exact Linput|]. cbn [Nat.iter]. now apply Hfwlen. }
  assert (Hready : Forall output_ready outs).
  { unfold outs. apply Forall_forall. intros o Ho. apply in_map_iff in Ho.
    destruct Ho as [d [<- _]].
    apply denormalised_ready; try assumption. apply Hfw, Hiter. }
  assert (Hne : outs <> []) by (unfold outs; cbn [seq map]; discriminate).
  assert (Louts : length outs = S n)
    by (unfold outs; now rewrite length_map, length_seq).
  assert (Hlead' : lead_time s' = (6 * Z.of_nat (length outs))%Z)
    by (rewrite Louts; exact Hlead).
  set (lp := loop_events net afl s' mn' sd' 0 (S n) input).
  set (ds := {| out_vars := expected_vars outs;
                out_lon := ds_longitude sfc;
                out_lat := ds_latitude sfc;
                out_time := map (fun k => (t0 + (Z.of_nat k + 1) * 6)%Z)
                              (seq 0 (length outs));
                out_level_name := "isobaricInhPa";
                out_level := rev (snd param_level_pl) |}).
  exists input.
  exists ([EvNpLoad (path_join (assets s) "global_means.npy");
           EvNpLoad (path_join (assets s) "global_stds.npy");
           EvTorchLoad (checkpoint_path s);
           EvLoadStateDict (strip_prefix ms)]
          ++ lp ++ [EvToNetcdf (netcdf_name folder start (lead_time s)) ds]).
  exists s', mn', sd', ds.
  split.
  - unfold run.
    rewrite (bind_of_eq _ _ _ _ _ (load_statistics_ok s evs m sd Hm Hsd)).
    fold mn' sd' s'.
    rewrite bind_get_self; cbn [self].
    rewrite Hprep, bind_lift_ok. cbn [fst snd].
    rewrite bind_get_self; cbn [self].
    rewrite Hnorm, bind_lift_ok.
    rewrite bind_get_self; cbn [self].
    change (checkpoint_path s') with (checkpoint_path s).
    rewrite (bind_of_eq _ _ _ _ _
               (load_model_primary (checkpoint_path s) ckpt ms net s' _ Hck Hms Hload)).
    rewrite (bind_of_eq _ _ _ _ _
               (inference_loop_ok net afl s' mn' sd' 73 Hdbg eq_refl eq_refl
                  Lmn' Lsd' Hfwlen Hitems input _ Linput Hhs')).
    cbn [outputs]. rewrite Hsteps, Houts. fold lp.
    rewrite (assemble_whole_steps s' _ sfc pl rest outs t0 start ts vs folder
               Hl' Hready Hne Hlead' Hlat Hlon Ht Hv Hfolder).
    fold ds. change (lead_time s') with (lead_time s).
    f_equal. f_equal.
    rewrite !rev_app_distr. cbn [rev app]. rewrite <- !app_assoc. reflexivity.
  - split; [reflexivity|]. split; [reflexivity|]. split; [exact Hnorm|].
    split.
    { unfold forward_inputs. rewrite !flat_map_app. cbn [flat_map app].
      rewrite app_nil_r.
      fold (forward_inputs lp). unfold lp.
      apply (forward_inputs_loop net afl s' mn' sd' 73 Hitems). }
    split.
    { unfold all_writes. rewrite !flat_map_app. cbn [flat_map app].
      rewrite app_nil_r.
      fold (all_writes lp). apply length_zero_iff_nil. unfold lp.
      rewrite all_writes_loop, Hl'. cbn [is_list]. lia. }
    split.
    { unfold netcdf_written. rewrite !flat_map_app. cbn [flat_map app].
      replace (flat_map (fun e => match e with EvToNetcdf n0 d => [(n0, d)] | _ => [] end) lp)
        with (@nil (string * OutDataset)); [reflexivity|].
      symmetry. apply flat_map_nil. intros e He. unfold lp in He.
      apply loop_events_kinds in He.
      destruct e; try contradiction; reflexivity. }
    split.
    { rewrite app_assoc. apply last_last. }
    split; [reflexivity|].
    cbn [out_time ds]. now rewrite Louts.
Qed.

End Adapter.

(* ================================================================== *)
(** * The statements on concrete inputs *)

(** C3.  The failing input: a checkpoint with the two normalisation
    entries, for a network that rejects the stripped names.  The
    dictionary without the two entries is computed ([drop_filter]) but
    it is not what is loaded: the fallback loads
    [checkpoint["model_state"]] as it is, both entries included. *)
Theorem C3_fallback_loads_unfiltered_state :
  exists w',
    load_model nat (pydict nat) [] demo_load_prefixed demo_checkpoint_files
      "assets/weights.tar" (mkWorld nat (demo_self 12 (FieldList [])) [])
    = (Ok demo_model_state, w')
    /\ state_dicts_loaded nat (trace nat w')
       = [strip_prefix nat demo_model_state; demo_model_state]
    /\ demo_load_prefixed [] (strip_prefix nat demo_model_state)
       = ([], Raise RuntimeError)
    /\ dict_get demo_model_state "module.norm.weight" = Some 1
    /\ dict_get demo_model_state "module.norm.bias" = Some 2
    /\ drop_filter nat demo_model_state = [("module.a", 3)]
    /\ demo_model_state <> drop_filter nat demo_model_state.
Proof.
  eexists. split.
  - apply (load_model_fallback nat (pydict nat) [] demo_load_prefixed
             demo_checkpoint_files "assets/weights.tar"
             [("model_state", demo_model_state)] demo_model_state
             [] RuntimeError); reflexivity.
  - repeat split; try reflexivity. discriminate.
Qed.

Lemma C10_witness :
  exists r,
    assemble_loop (length ordering_xr) [repeat (demo_plane 1 1) 73] 0 0 [] = Some r
    /\ r <> Raise IndexError.
Proof.
  apply (C10_channel_counts_agree "assets" "cpu" 12 (FieldList [])
           [repeat (demo_plane 1 1) 73]).
  repeat constructor.
Defined.

Lemma C8_witness :
  exists w',
    load_statistics nat (fun x => x) demo_npy_files
      (mkWorld nat (init "assets" "cpu" 12 (FieldList [])) [])
    = (Ok tt, w')
    /\ files_loaded nat (trace nat w')
       = ["assets/global_means.npy"; "assets/global_stds.npy"]
    /\ means (self nat w')
       = Some {| dtype := Float32; entries := [Fin (qc 1); Fin (qc 2)] |}.
Proof.
  destruct (C8_load_statistics_effect nat (fun x => x) demo_npy_files
              (mkWorld nat (init "assets" "cpu" 12 (FieldList [])) [])
              demo_means demo_stds eq_refl eq_refl eq_refl)
    as [w' [Hrun [Htrace [Hmeans _]]]].
  exists w'. split; [exact Hrun|]. split; [rewrite Htrace; reflexivity|exact Hmeans].
Defined.

Lemma C4_witness :
  exists w',
    load_model nat (pydict nat) [] demo_load_stripped demo_checkpoint_files
      "assets/weights.tar" (mkWorld nat (demo_self 12 (FieldList [])) [])
    = (Ok [("norm.weight", 1); ("norm.bias", 2); ("a", 3)], w')
    /\ dict_get (stripped_comprehension nat demo_model_state) "a" = Some 3.
Proof.
  destruct (C4_primary_path_loads_stripped nat (pydict nat) [] demo_load_stripped
              demo_checkpoint_files "assets/weights.tar"
              [("model_state", demo_model_state)] demo_model_state
              [("norm.weight", 1); ("norm.bias", 2); ("a", 3)]
              (mkWorld nat (demo_self 12 (FieldList [])) [])
              eq_refl eq_refl eq_refl)
    as [w' [Hrun [_ [_ Hget]]]].
  exists w'. split; [exact Hrun|]. rewrite Hget. reflexivity.
Defined.

Lemma demo_self_means (lt : Z) (af : AllFields) :
  means (demo_self lt af) = Some demo_means.
Proof. reflexivity. Qed.

Lemma demo_self_stds (lt : Z) (af : AllFields) :
  stds (demo_self lt af) = Some demo_stds.
Proof. reflexivity. Qed.

Lemma qc_nonzero (z : Z) : z <> 0%Z -> nonzero (Fin (qc z)).
Proof.
  intros Hz. exists (qc z). split; [reflexivity|].
  intros E. apply (f_equal this) in E. unfold qc in E. simpl in E.
  apply Hz. unfold Qred in E. simpl in E.
  destruct (Z.ggcd z 1) as [g [a b]] eqn:Eg.
  assert (Hg := Z.ggcd_correct_divisors z 1). rewrite Eg in Hg.
  destruct Hg as [Ha _]. simpl in E. inversion E; subst. lia.
Qed.

Lemma C7_witness :
  length demo_input = length (entries demo_means)
  /\ exists y z,
       normalise (demo_self 12 (FieldList demo_two_fields)) demo_input false = Ok y
       /\ normalise (demo_self 12 (FieldList demo_two_fields)) y true = Ok z
       /\ z = demo_input.
Proof.
  split; [reflexivity|].
  destruct (C7_normalise_inverse (demo_self 12 (FieldList demo_two_fields))
              demo_input demo_means demo_stds eq_refl eq_refl eq_refl eq_refl)
    as [_ [_ [y [z [Hy [Hz [_ [_ Hall]]]]]]]].
  exists y, z. split; [exact Hy|]. split; [exact Hz|].
  apply Hall.
  - repeat constructor.
  - repeat constructor.
  - repeat constructor; apply qc_nonzero; discriminate.
Defined.

Lemma C9_witness :
  tensor_finite demo_input
  /\ exists y,
       normalise (demo_self 12 (FieldList demo_two_fields)) demo_input false = Ok y
       /\ (tensor_finite y <-> Forall nonzero (entries demo_stds)).
Proof.
  assert (Hfin : tensor_finite demo_input) by repeat constructor.
  split; [exact Hfin|].
  destruct (C9_division_needs_nonzero_stds (demo_self 12 (FieldList demo_two_fields))
              demo_input demo_means demo_stds eq_refl eq_refl eq_refl eq_refl Hfin)
    as [y [Hy [_ Hiff]]].
  - repeat constructor.
  - repeat constructor;
      (eexists; split; [left; reflexivity|discriminate]).
  - exists y. split; assumption.
Defined.

Lemma C1_witness :
  exists v new,
    inference_loop nat unit (fun _ x => x) false None tt (LFields demo_two_fields)
      demo_input (mkWorld nat (demo_self 12 (FieldList demo_two_fields)) [])
    = (Ok v, mkWorld nat (demo_self 12 (FieldList demo_two_fields)) (rev new ++ []))
    /\ exists x,
         nth_error (forward_inputs nat new) 0 = Some x
         /\ nth_error (forward_inputs nat new) 1 = Some x
         /\ nth_error (stepper_calls nat new) 0 = Some (0%Z, 6%Z)
         /\ writes_at nat 6 new
            = [(nth 0 (denormalised demo_means demo_stds x) [],
                inl (mkField "10u" None (demo_plane 3 5)));
               (nth 1 (denormalised demo_means demo_stds x) [],
                inl (mkField "10v" None (demo_plane 6 10)))].
Proof.
  destruct (C1_raw_output_fed_back_denormalised_emitted nat unit (fun _ x => x)
              false None tt (LFields demo_two_fields)
              (demo_self 12 (FieldList demo_two_fields)) demo_means demo_stds
              demo_input [] eq_refl eq_refl eq_refl eq_refl eq_refl
              (fun x H => H) (fun _ => le_n 2) ltac:(discriminate))
    as [v [new [Hrun Hiter]]].
  exists v, new. split; [exact Hrun|].
  destruct (Hiter 0 ltac:(vm_compute; lia)) as [x [Hx [Hnext [_ [Hstep Hwrites]]]]].
  exists x. repeat split; assumption.
Defined.

Lemma C2_witness :
  hour_steps (demo_self 13 (FieldList demo_two_fields)) = 6%Z
  /\ exists v new,
       inference_loop nat unit (fun _ x => x) false None tt (LFields demo_two_fields)
         demo_input (mkWorld nat (demo_self 13 (FieldList demo_two_fields)) [])
       = (Ok v, mkWorld nat (demo_self 13 (FieldList demo_two_fields)) (rev new ++ []))
       /\ length (forward_inputs nat new) = 2.
Proof.
  split; [reflexivity|].
  destruct (C2_forward_pass_count nat unit (fun _ x => x)
              false None tt (LFields demo_two_fields)
              (demo_self 13 (FieldList demo_two_fields)) demo_means demo_stds
              demo_input [] eq_refl eq_refl eq_refl eq_refl eq_refl
              (fun x H => H) (fun _ => le_n 2) eq_refl)
    as [v [new [Hrun [Hcount _]]]].
  exists v, new. split; [exact Hrun|exact Hcount].
Defined.

Lemma demo_grid_output_ready : output_ready demo_grid_output.
Proof.
  split; [reflexivity|].
  apply Forall_forall. intros p Hp. apply repeat_spec in Hp. subst p.
  vm_compute. reflexivity.
Qed.

Lemma C6_witness :
  lead_time (demo_self 7 (XrList [demo_grid_sfc; demo_grid_pl])) = 7%Z
  /\ np_arange 6 (7 + 6) 6 = [6; 12]%Z
  /\ assemble nat (Ok "out") (fun _ => "t") [demo_grid_output]
       (mkWorld nat (demo_self 7 (XrList [demo_grid_sfc; demo_grid_pl])) [])
     = (Raise ValueError,
        mkWorld nat (demo_self 7 (XrList [demo_grid_sfc; demo_grid_pl])) []).
Proof.
  split; [reflexivity|].
  destruct (C6_seven_hours_no_dataset nat (Ok "out") (fun _ => "t")
              (demo_self 7 (XrList [demo_grid_sfc; demo_grid_pl])) []
              demo_grid_sfc demo_grid_pl [] [demo_grid_output] 0%Z []
              eq_refl eq_refl eq_refl
              (Forall_cons _ demo_grid_output_ready (Forall_nil _)) eq_refl)
    as [_ [Hsteps [_ Hraise]]].
  split; [exact Hsteps|exact Hraise].
Defined.

(** Checking hypotheses of the channel-order statement by computation. *)
Lemma same_shape_check (l : list plane) :
  forallb (fun p => forallb (same_shape p) l) l = true ->
  forall p q, In p l -> In q l -> same_shape p q = true.
Proof.
  intros H p q Hp Hq. rewrite forallb_forall in H.
  specialize (H p Hp). rewrite forallb_forall in H. now apply H.
Qed.

Lemma count_once_check (names keys : list string) :
  forallb (fun n => Nat.eqb (count_occ string_dec keys n) 1) names = true ->
  forall n, In n names -> count_occ string_dec keys n = 1.
Proof.
  intros H n Hn. rewrite forallb_forall in H. now apply Nat.eqb_eq, H.
Qed.

Lemma C5_witness :
  (exists sel t,
      prepare_input (fun x => x) (demo_self 12 (FieldList demo_field_list))
      = Ok (LFields sel, t)
      /\ exists f,
           nth_error sel 8 = Some f
           /\ param_level f = "u50"
           /\ nth_error t 8 = Some (f_values f))
  /\ (exists arrays t,
        prepare_input (fun x => x) (demo_self 12 (XrList [demo_sfc; demo_pl]))
        = Ok (LArrays arrays, t)
        /\ length t = 73
        /\ nth_error t 8 = Some (pl_channel demo_pl "u" 50)).
Proof.
  split.
  - destruct (proj1 (C5_input_channel_order (fun x => x)
                       (demo_self 12 (FieldList demo_field_list)))
                demo_field_list eq_refl)
      as [sel [t [Hprep [_ [_ Hchan]]]]].
    + apply count_once_check. vm_compute. reflexivity.
    + intros f g Hf Hg.
      apply (same_shape_check (map f_values demo_field_list)).
      * vm_compute. reflexivity.
      * now apply in_map.
      * now apply in_map.
    + exists sel, t. split; [exact Hprep|].
      destruct (Hchan 8 "u50" eq_refl) as [f [Hf [Hname Ht]]].
      exists f. split; [exact Hf|]. split; [exact Hname|].
      rewrite Ht. unfold plane_map. now rewrite map_ext with (g := fun r => r), map_id
        by (intros r; apply map_id).
  - destruct (proj2 (C5_input_channel_order (fun x => x)
                       (demo_self 12 (XrList [demo_sfc; demo_pl])))
                demo_sfc demo_pl [] (snd param_level_pl) eq_refl)
      as [arrays [t [Hprep [Hlen [_ Hpl]]]]].
    + intros f Hf.
      repeat (destruct Hf as [<-|Hf]; [eexists; reflexivity|]). contradiction.
    + reflexivity.
    + intros lev Hlev. exact Hlev.
    + intros q Hq.
      repeat (destruct Hq as [<-|Hq]; [eexists; reflexivity|]). contradiction.
    + apply same_shape_check. vm_compute. reflexivity.
    + exists arrays, t. split; [exact Hprep|]. split; [exact Hlen|].
      destruct (Hpl 8 "u50" (le_n 8) eq_refl) as [_ [_ Ht]]. exact Ht.
Defined.

(* ================================================================== *)
(** * Debug logging and the module function *)


(** X28.  The four version names "0", "small", "release" and "latest"
    build the same object, that of the constructor; any other name
    raises [KeyError].  The object built has 73 backbone channels, steps
    of six hours, its checkpoint at [weights.tar] inside the assets
    directory, and no statistics yet: [normalise] raises
    [AttributeError] on it. *)
Theorem X28_model_factory :
  forall (v a d : string) (lt : Z) (af : AllFields),
    (In v ["0"; "small"; "release"; "latest"] ->
     Factory.model v a d lt af = Ok (init a d lt af))
    /\ (~ In v ["0"; "small"; "release"; "latest"] ->
        Factory.model v a d lt af = Raise KeyError)
    /\ (forall s, Factory.model v a d lt af = Ok s ->
          backbone_channels s = 73 /\ hour_steps s = 6%Z
          /\ checkpoint_path s = path_join a "weights.tar"
          /\ forall data reverse, normalise s data reverse = Raise AttributeError).
Proof.
  intros v a d lt af.
  assert (Hin : In v ["0"; "small"; "release"; "latest"] ->
                Factory.model v a d lt af = Ok (init a d lt af)).
  { intros H. cbn in H.
    repeat (destruct H as [<-|H]; [reflexivity|]). contradiction. }
  assert (Hout : ~ In v ["0"; "small"; "release"; "latest"] ->
                 Factory.model v a d lt af = Raise KeyError).
  { intros H. unfold Factory.model, Factory.models, dict_item.
    cbn [dict_get].
    repeat match goal with
           | |- context [String.eqb ?k v] =>
               destruct (String.eqb_spec k v) as [E|_];
               [exfalso; apply H; rewrite <- E; cbn; tauto|]
           end.
    reflexivity. }
  split; [exact Hin|]. split; [exact Hout|].
  intros s Hs.
  assert (E : s = init a d lt af).
  { destruct (in_dec string_dec v ["0"; "small"; "release"; "latest"]) as [H|H].
    - rewrite (Hin H) in Hs. now injection Hs.
    - rewrite (Hout H) in Hs. discriminate. }
  subst s. repeat split.
  intros data reverse. unfold normalise. cbn [init means stds attr rbind].
  destruct reverse; reflexivity.
Qed.

(* ================================================================== *)
(** * The further properties on concrete inputs *)

Lemma same_shape_const (l : list plane) (sh : nat * nat) :
  forallb (fun p => (Nat.eqb (fst (plane_shape p)) (fst sh)
                     && Nat.eqb (snd (plane_shape p)) (snd sh))%bool) l = true ->
  forall p q, In p l -> In q l -> same_shape p q = true.
Proof.
  intros H p q Hp Hq. rewrite forallb_forall in H.
  pose proof (H p Hp) as Ep. pose proof (H q Hq) as Eq.
  apply Bool.andb_true_iff in Ep. apply Bool.andb_true_iff in Eq.
  destruct Ep as [Ep1 Ep2]. destruct Eq as [Eq1 Eq2].
  apply Nat.eqb_eq in Ep1, Ep2, Eq1, Eq2.
  unfold same_shape. rewrite Ep1, Ep2, Eq1, Eq2, !Nat.eqb_refl. reflexivity.
Qed.

Lemma X2_witness :
  normalise (demo_self 12 (FieldList []))
    [demo_plane 1 2; demo_plane 3 4; demo_plane 5 6] false
  = Raise ValueError.
Proof.
  apply (X2_normalise_channel_mismatch (demo_self 12 (FieldList []))
           [demo_plane 1 2; demo_plane 3 4; demo_plane 5 6]
           demo_means demo_stds false);
    try reflexivity; simpl; lia.
Defined.

Lemma X3_witness :
  exists y,
    normalise (demo_self 12 (FieldList [])) demo_input true = Ok y
    /\ length y = length demo_input
    /\ map (map (@length scalar)) y = map (map (@length scalar)) demo_input.
Proof.
  apply (X3_normalise_keeps_shape (demo_self 12 (FieldList [])) demo_input
           demo_means demo_stds true); reflexivity.
Defined.

Lemma X4_witness :
  exists y,
    normalise (demo_self 12 (FieldList [])) demo_input true = Ok y
    /\ normalise (demo_self 12 (FieldList [])) y false = Ok demo_input.
Proof.
  apply (X4_normalise_undoes_denormalise (demo_self 12 (FieldList [])) demo_input
           demo_means demo_stds); try reflexivity.
  - repeat constructor.
  - repeat constructor.
  - repeat constructor; apply qc_nonzero; discriminate.
Defined.

Lemma X6_witness :
  exists y,
    normalise
      (set_stds {| dtype := Float64; entries := [Fin 0%Qc; Fin (qc 4)] |}
         (demo_self 12 (FieldList [])))
      demo_input false = Ok y
    /\ nth_error y 0 = Some [[NonFinite; NonFinite]].
Proof.
  destruct (X6_zero_std_wipes_channel
              (set_stds {| dtype := Float64; entries := [Fin 0%Qc; Fin (qc 4)] |}
                 (demo_self 12 (FieldList [])))
              demo_input demo_means
              {| dtype := Float64; entries := [Fin 0%Qc; Fin (qc 4)] |}
              0 (demo_plane 3 5) (Fin (qc 1))
              eq_refl eq_refl eq_refl eq_refl eq_refl eq_refl eq_refl)
    as [y [Hy [H0 _]]].
  exists y. split; [exact Hy|exact H0].
Defined.

Lemma X8_witness :
  exists w' y,
    load_statistics nat (fun x => x) demo_npy_files_full
      (mkWorld nat (init "assets" "cpu" 12 (FieldList [])) [])
    = (Ok tt, w')
    /\ normalise (self nat w') (repeat (demo_plane 1 1) 73) false = Ok y.
Proof.
  destruct (X8_statistics_files_channel_count nat (fun x => x) demo_npy_files_full
              (init "assets" "cpu" 12 (FieldList [])) []
              (demo_stats 1) (demo_stats 2) 74
              eq_refl eq_refl eq_refl eq_refl eq_refl)
    as [w' [Hrun Hall]].
  exists w'. eexists. split; [exact Hrun|].
  apply (proj1 (Hall (repeat (demo_plane 1 1) 73) eq_refl)). lia.
Defined.

Lemma X10_witness :
  exists w',
    load_model nat (pydict nat) [] (fun model _ => (model, Raise RuntimeError))
      demo_checkpoint_files "assets/weights.tar"
      (mkWorld nat (demo_self 12 (FieldList [])) [])
    = (Raise RuntimeError, w').
Proof.
  eexists.
  apply (X10_load_model_second_exception nat (pydict nat) []
           (fun model _ => (model, Raise RuntimeError))
           demo_checkpoint_files "assets/weights.tar"
           [("model_state", demo_model_state)] demo_model_state
           [] [] RuntimeError RuntimeError
           (demo_self 12 (FieldList [])) []); reflexivity.
Defined.

Lemma X12_witness :
  strip_prefix nat
    (map (fun kv => (String.append "module." (fst kv), snd kv))
         [("a", 3); ("b", 4)])
  = [("a", 3); ("b", 4)].
Proof.
  apply (X12_strip_undoes_prefix nat [("a", 3); ("b", 4)]).
  - apply str_nodupb_sound. reflexivity.
  - intros H. apply str_mem_In in H. discriminate.
Defined.

Lemma X13_witness :
  prepare_input (fun x => x) (demo_self 12 (FieldList (rev demo_field_list)))
  = prepare_input (fun x => x) (demo_self 12 (FieldList demo_field_list)).
Proof.
  apply (X13_field_order_is_irrelevant nat unit tt (fun n _ => (n, Ok tt))
           (fun _ x => x) (fun x => x)
           (demo_self 12 (FieldList demo_field_list))
           (demo_self 12 (FieldList (rev demo_field_list)))
           demo_field_list (rev demo_field_list) eq_refl eq_refl
           (Permutation_rev demo_field_list)).
  apply count_once_check. vm_compute. reflexivity.
Defined.

Lemma X14_witness :
  prepare_input (fun x => x)
    (demo_self 12 (FieldList (demo_field_list
                              ++ [mkField "tp" None (demo_plane 7 7)])))
  = prepare_input (fun x => x) (demo_self 12 (FieldList demo_field_list)).
Proof.
  apply (X14_other_fields_are_ignored (fun x => x)
           (demo_self 12 (FieldList demo_field_list))
           (demo_self 12 (FieldList (demo_field_list
                                     ++ [mkField "tp" None (demo_plane 7 7)])))
           demo_field_list [mkField "tp" None (demo_plane 7 7)]
           eq_refl eq_refl).
  intros f [<-|[]] H. apply str_mem_In in H. vm_compute in H. discriminate.
Defined.

Lemma X15_witness :
  exists afl t,
    prepare_input (fun x => x) (demo_self_full 12 (FieldList (tl demo_field_list)))
    = Ok (afl, t)
    /\ 0 < length t < 73
    /\ (length t <> 1 ->
        normalise (demo_self_full 12 (FieldList (tl demo_field_list))) t false
        = Raise ValueError).
Proof.
  apply (X15_missing_field_fails_at_normalise nat unit tt (fun n _ => (n, Ok tt))
           (fun _ x => x) (fun x => x) (fun _ => None) (fun _ => None)
           (demo_self_full 12 (FieldList (tl demo_field_list)))
           (tl demo_field_list) "10u"
           {| dtype := Float32; entries := repeat (Fin (qc 1)) 73 |}
           {| dtype := Float32; entries := repeat (Fin (qc 2)) 73 |});
    try reflexivity.
  - apply str_mem_In. reflexivity.
  - intros H. apply str_mem_In in H. vm_compute in H. discriminate.
  - exists (mkField "10v" None (demo_plane 1 1)). split.
    + left. reflexivity.
    + apply str_mem_In. reflexivity.
  - apply str_nodupb_sound. vm_compute. reflexivity.
  - intros f g Hf Hg.
    apply (same_shape_check (map f_values (tl demo_field_list))).
    + vm_compute. reflexivity.
    + now apply in_map.
    + now apply in_map.
Defined.

Lemma X17_witness :
  inference_loop nat unit (fun _ x => x) false None tt (LFields demo_two_fields)
    demo_input (mkWorld nat (demo_self 3 (FieldList demo_two_fields)) [])
  = (Ok {| input_iter := demo_input; outputs := [] |},
     mkWorld nat (demo_self 3 (FieldList demo_two_fields)) []).
Proof.
  apply (X17_short_lead_time_runs_nothing nat unit (fun _ x => x) false None tt
           (LFields demo_two_fields) demo_input
           (demo_self 3 (FieldList demo_two_fields)) []); reflexivity.
Defined.

Lemma X18_witness :
  exists v new,
    inference_loop nat unit (fun _ x => x) false None tt (LFields demo_two_fields)
      demo_input (mkWorld nat (demo_self 18 (FieldList demo_two_fields)) [])
    = (Ok v, mkWorld nat (demo_self 18 (FieldList demo_two_fields)) (rev new ++ []))
    /\ length (forward_inputs nat new) = 3
    /\ stepper_calls nat new = [(0, 6); (1, 12); (2, 18)]%Z
    /\ length (all_writes nat new) = 6.
Proof.
  destruct (X18_loop_totals nat unit (fun _ x => x) false None tt
              (LFields demo_two_fields)
              (demo_self 18 (FieldList demo_two_fields)) demo_means demo_stds
              demo_input [] eq_refl eq_refl eq_refl eq_refl eq_refl
              (fun x H => H) (fun _ => le_n 2) ltac:(discriminate))
    as [v [new [Hrun [Hpasses [Hsteps [_ [Hwrites _]]]]]]].
  exists v, new. split; [exact Hrun|]. split; [exact Hpasses|].
  split; [exact Hsteps|exact Hwrites].
Defined.

Lemma X19_witness :
  inference_loop nat unit (fun _ x => x) true None tt (LFields demo_two_fields)
    demo_input (mkWorld nat (demo_self 12 (FieldList demo_two_fields)) [])
  = (Raise AttributeError,
     mkWorld nat (demo_self 12 (FieldList demo_two_fields)) [EvForward nat demo_input]).
Proof.
  apply (X19_debug_logging_stops_the_loop nat unit (fun _ x => x) true None tt
           (LFields demo_two_fields) demo_input
           (demo_self 12 (FieldList demo_two_fields)) []);
    try reflexivity.
  vm_compute. discriminate.
Defined.

Lemma X20_witness :
  exists w' ds,
    assemble nat (Ok "out") (fun _ => "t") [demo_grid_output]
      (mkWorld nat (demo_self 6 (XrList [demo_grid_sfc; demo_grid_pl])) [])
    = (Ok tt, w')
    /\ dict_keys (out_vars ds)
       = ["u10"; "v10"; "u100"; "v100"; "t2m"; "sp"; "msl"; "tcwv";
          "u"; "v"; "z"; "t"; "r"]
    /\ out_time ds = [6%Z].
Proof.
  destruct (X20_whole_steps_dataset nat (Ok "out") (fun _ => "t")
              (demo_self 6 (XrList [demo_grid_sfc; demo_grid_pl])) []
              demo_grid_sfc demo_grid_pl [] [demo_grid_output]
              0%Z 0%Z [] [] "out" eq_refl)
    as [w' [ds [Hrun [_ [_ [Hkeys [_ [_ [Htime _]]]]]]]]];
    try reflexivity.
  - constructor; [exact demo_grid_output_ready|constructor].
  - discriminate.
  - exists w', ds. split; [exact Hrun|]. split; [exact Hkeys|exact Htime].
Defined.

Lemma X21_witness :
  length (np_arange 6 (13 + 6) 6) = 3
  /\ assemble nat (Ok "out") (fun _ => "t") [demo_grid_output; demo_grid_output]
       (mkWorld nat (demo_self 13 (XrList [demo_grid_sfc; demo_grid_pl])) [])
     = (Raise ValueError,
        mkWorld nat (demo_self 13 (XrList [demo_grid_sfc; demo_grid_pl])) []).
Proof.
  destruct (X21_partial_step_never_written nat (Ok "out") (fun _ => "t")
              (demo_self 13 (XrList [demo_grid_sfc; demo_grid_pl])) []
              demo_grid_sfc demo_grid_pl []
              [demo_grid_output; demo_grid_output] 0%Z [] eq_refl
              (Forall_cons _ demo_grid_output_ready
                 (Forall_cons _ demo_grid_output_ready (Forall_nil _))))
    as [Hsteps [_ Hraise]]; try reflexivity.
  - vm_compute. discriminate.
  - split; [exact Hsteps|exact Hraise].
Defined.

Lemma X22_witness :
  exists e,
    assemble nat (Ok "out") (fun _ => "t") []
      (mkWorld nat (demo_self 3 (XrList [demo_sfc; demo_pl])) [])
    = (Raise e, mkWorld nat (demo_self 3 (XrList [demo_sfc; demo_pl])) []).
Proof.
  apply (X22_no_output_no_dataset nat (Ok "out") (fun _ => "t")
           (demo_self 3 (XrList [demo_sfc; demo_pl])) []
           [demo_sfc; demo_pl]).
  reflexivity.
Defined.

Lemma X24_witness :
  exists sel input new s',
    run nat (pydict nat) [] demo_load_stripped (fun _ x => x) (fun x => x)
      demo_npy_files_full demo_checkpoint_files false None (Ok "out")
      (fun _ => "t")
      (mkWorld nat (init "assets" "cpu" 12 (FieldList demo_field_list)) [])
    = (Ok tt, mkWorld nat s' (rev new ++ []))
    /\ map param_level sel = ordering_cml
    /\ (forall f, In f sel -> In f demo_field_list)
    /\ files_loaded nat new
       = ["assets/global_means.npy"; "assets/global_stds.npy"; "assets/weights.tar"]
    /\ forward_inputs nat new = [input; input].
Proof.
  destruct (X24_run_on_field_list nat (pydict nat) [] demo_load_stripped
              (fun _ x => x) (fun x => x)
              demo_npy_files_full demo_checkpoint_files false None (Ok "out")
              (fun _ => "t")
              (init "assets" "cpu" 12 (FieldList demo_field_list)) []
              demo_field_list (demo_stats 1) (demo_stats 2)
              [("model_state", demo_model_state)] demo_model_state
              (strip_prefix nat demo_model_state)
              eq_refl eq_refl ltac:(discriminate) eq_refl eq_refl eq_refl)
    as [sel [input [new [s' [Hrun [Hnames [_ [Hfiles [_ [Hfw [_ Hin]]]]]]]]]]];
    try reflexivity.
  - vm_compute. lia.
  - vm_compute. lia.
  - apply count_once_check. vm_compute. reflexivity.
  - intros f g Hf Hg.
    apply (same_shape_check (map f_values demo_field_list)).
    + vm_compute. reflexivity.
    + now apply in_map.
    + now apply in_map.
  - intros x H. exact H.
  - exists sel, input, new, s'. split; [exact Hrun|]. split; [exact Hnames|].
    split; [exact Hin|]. split; [exact Hfiles|exact Hfw].
Defined.

Lemma X25_witness :
  exists s' new,
    run nat (pydict nat) [] demo_load_stripped (fun _ x => x) (fun x => x)
      (fun _ => None) demo_checkpoint_files false None (Ok "out")
      (fun _ => "t")
      (mkWorld nat (init "assets" "cpu" 12 (FieldList demo_field_list)) [])
    = (Raise OSError, mkWorld nat s' (rev new ++ []))
    /\ forward_inputs nat new = [] /\ state_dicts_loaded nat new = [].
Proof.
  destruct (X25_run_stops_without_statistics nat (pydict nat) []
              demo_load_stripped (fun _ x => x) (fun x => x)
              (fun _ => None) demo_checkpoint_files false None (Ok "out")
              (fun _ => "t")
              (init "assets" "cpu" 12 (FieldList demo_field_list)) []
              (or_introl eq_refl))
    as [s' [new [Hrun [_ [_ [Hfw [Hsd _]]]]]]].
  exists s', new. split; [exact Hrun|]. split; [exact Hfw|exact Hsd].
Defined.

Lemma X26_witness :
  exists input new s' ds,
    run nat (pydict nat) [] demo_load_stripped (fun _ _ => demo_grid_output)
      (fun x => x) demo_npy_files_full demo_checkpoint_files false None
      (Ok "out") (fun _ => "t")
      (mkWorld nat (init "assets" "cpu" 6 (XrList [demo_grid_sfc; demo_grid_pl])) [])
    = (Ok tt, mkWorld nat s' (rev new ++ []))
    /\ forward_inputs nat new = [input]
    /\ all_writes nat new = []
    /\ netcdf_written nat new
       = [(netcdf_name (fun _ => "t") "out" 0 6, ds)]
    /\ out_time ds = [6%Z].
Proof.
  destruct (X26_run_on_dataset_list nat (pydict nat) [] demo_load_stripped
              (fun _ _ => demo_grid_output) (fun x => x)
              demo_npy_files_full demo_checkpoint_files false None (Ok "out")
              (fun _ => "t")
              (init "assets" "cpu" 6 (XrList [demo_grid_sfc; demo_grid_pl])) []
              demo_grid_sfc demo_grid_pl [] (demo_stats 1) (demo_stats 2)
              [("model_state", demo_model_state)] demo_model_state
              (strip_prefix nat demo_model_state) 0 0%Z 0%Z [] [] "out"
              (snd param_level_pl) eq_refl)
    as [input [new [s' [mn' [sd' [ds [Hrun [_ [_ [_ [Hfw [Hw [Hnc [_ [_ Htime]]]]]]]]]]]]]]];
    try reflexivity.
  - intros f Hf.
    repeat (destruct Hf as [<-|Hf]; [eexists; reflexivity|]). contradiction.
  - intros lev Hlev. exact Hlev.
  - intros q Hq.
    repeat (destruct Hq as [<-|Hq]; [eexists; reflexivity|]). contradiction.
  - vm_compute. lia.
  - vm_compute. lia.
  - apply (same_shape_const _ (721, 1440)). vm_compute. reflexivity.
  - intros x _. exact demo_grid_output_ready.
  - exists input, new, s', ds. split; [exact Hrun|]. split; [exact Hfw|].
    split; [exact Hw|]. split; [exact Hnc|exact Htime].
Defined.


Lemma X1_witness :
  normalise (init "assets" "cpu" 12 (FieldList [])) demo_input false
  = Raise AttributeError
  /\ exists mn sd,
       means (demo_self 12 (FieldList [])) = Some mn
       /\ stds (demo_self 12 (FieldList [])) = Some sd.
Proof.
  split.
  - apply (proj2 X1_normalise_needs_statistics).
  - eapply (proj1 X1_normalise_needs_statistics
              (demo_self 12 (FieldList [])) demo_input false).
    reflexivity.
Defined.

Lemma X7_witness :
  load_statistics nat (fun x => x) (fun _ => None)
    (mkWorld nat (init "assets" "cpu" 12 (FieldList [])) [])
  = (Raise OSError,
     mkWorld nat (init "assets" "cpu" 12 (FieldList []))
       [EvNpLoad nat "assets/global_means.npy"]).
Proof.
  apply (proj1 (X7_load_statistics_missing_file nat (fun x => x) (fun _ => None)
                  (init "assets" "cpu" 12 (FieldList [])) [])).
  reflexivity.
Defined.

Lemma X9_witness :
  load_model nat (pydict nat) [] demo_load_stripped (fun _ => None)
    "assets/weights.tar" (mkWorld nat (demo_self 12 (FieldList [])) [])
  = (Raise OSError,
     mkWorld nat (demo_self 12 (FieldList [])) [EvTorchLoad nat "assets/weights.tar"]).
Proof.
  apply (proj1 (X9_load_model_without_state nat (pydict nat) [] demo_load_stripped
                  (fun _ => None) "assets/weights.tar"
                  (demo_self 12 (FieldList [])) [])).
  reflexivity.
Defined.

Lemma X16_witness :
  prepare_input (fun x => x) (demo_self 12 (XrList [])) = Raise IndexError.
Proof.
  apply (proj1 (X16_list_input_errors (fun x => x) (demo_self 12 (XrList [])))).
  reflexivity.
Defined.

Lemma X28_witness :
  Factory.model "small" "assets" "cpu" 12 (FieldList [])
  = Ok (init "assets" "cpu" 12 (FieldList [])).
Proof.
  apply (proj1 (X28_model_factory "small" "assets" "cpu" 12 (FieldList []))).
  right. left. reflexivity.
Defined.
